(** * H5N1 ingestion pipeline: storage keys, model/table conversion and
      storage-to-database synchronisation.

    Shallow embedding of
      - schemas/storage.py            (StorageKey, full_path, from_path)
      - src/schemas/storage.py        (the older StorageKey, module [Legacy])
      - schemas/models/h5n1.py        (AvianFluCase, to_storage_key)
      - connectors/data/transformer.py (model_to_dataframe, dataframe_to_models)
      - connectors/data/clients/duck_db.py (insert_dataframe and helpers)
      - connectors/data/clients/minio.py   (get_parquet_uris)
      - connectors/data/orchestrator.py    (load_storage_to_database)
    and, beyond these,
      - src/storage/minio_client.py   (the older client's object keys)
      - connectors/data/transformer.py (standardize_columns,
                                        extract_partition_metadata)
      - connectors/data/clients/duck_db.py (query_to_dataframe)
      - connectors/data/clients/minio.py   (upload_parquet and the calls
                                            around it)
      - connectors/data/orchestrator.py    (ingest_models_to_database,
                                            archive_and_process,
                                            get_models_from_database)

    Python strings are modelled by [string]: sequences of code points
    0..255.  Exceptions are values of [exn]; a call that may raise returns
    [exn + A].  Where the behaviour of the code depends on a library it
    calls, the library is modelled at that point: a pandas frame is its
    column labels and rows, a pydantic class its [model_dump] and
    [model_validate], the SQL engine the statements the client sends with
    their name binding and constraints, the object store its listing. *)

From Stdlib Require Import String Ascii List Bool Arith ZArith QArith Lia.
Import ListNotations.
Close Scope Q_scope.
Open Scope string_scope.
Open Scope list_scope.
Open Scope nat_scope.

(** ** Exceptions and the error monad *)

(** The exceptions met on the paths embedded here.
    [SynchronizationError] is the wrapper the error taxonomy of the design
    names; no code of the repository defines or raises it. *)
Inductive exn : Type :=
| ValueError (msg : string)
| IndexError (msg : string)
| S3Error (msg : string)
| CatalogException (msg : string)
| BinderException (msg : string)
| ConstraintException (msg : string)
| IOException (msg : string)
| ValidationError (msg : string)
| SynchronizationError (cause : exn)
| ConversionException (msg : string).

Definition result (A : Type) : Type := (exn + A)%type.

Definition ok {A} (a : A) : result A := inr a.
Definition raise {A} (e : exn) : result A := inl e.

Definition bind {A B} (m : result A) (k : A -> result B) : result B :=
  match m with
  | inl e => inl e
  | inr a => k a
  end.

Notation "x <- m ;; k" := (bind m (fun x => k))
  (at level 61, m at next level, right associativity).

Definition succeeds {A} (m : result A) : Prop := exists a, m = inr a.

Definition is_ValueError {A} (m : result A) : Prop :=
  exists msg, m = inl (ValueError msg).
Definition is_IndexError {A} (m : result A) : Prop :=
  exists msg, m = inl (IndexError msg).

(** * Part I.  The program *)

(** ** Python string primitives *)

Module Py.

Definition chr (n : nat) : ascii := ascii_of_nat n.
Definition ord (c : ascii) : nat := nat_of_ascii c.

(** [str.isdigit] on one code point below 256: the decimal digits and
    the superscripts U+00B2, U+00B3, U+00B9. *)
Definition is_decimal_char (c : ascii) : bool :=
  (48 <=? ord c) && (ord c <=? 57).

Definition is_digit_char (c : ascii) : bool :=
  is_decimal_char c
  || (ord c =? 178) || (ord c =? 179) || (ord c =? 185).

Fixpoint all_chars (p : ascii -> bool) (s : string) : bool :=
  match s with
  | EmptyString => true
  | String c s' => p c && all_chars p s'
  end.

(** [s.isdigit()]: false on the empty string. *)
Definition isdigit (s : string) : bool :=
  match s with
  | EmptyString => false
  | _ => all_chars is_digit_char s
  end.

Definition len (s : string) : nat := String.length s.

Definition digit_val (c : ascii) : Z := Z.of_nat (ord c - 48).

Fixpoint int_acc (acc : Z) (s : string) : Z :=
  match s with
  | EmptyString => acc
  | String c s' => int_acc (10 * acc + digit_val c) s'
  end.

(** [int(s)] on the strings that reach it here (those with
    [s.isdigit()]): the value when every character is a decimal digit,
    [ValueError] otherwise.  CPython converts at most 4300 digits
    (leading zeros included) and raises [ValueError] beyond. *)
Definition int (s : string) : result Z :=
  match s with
  | EmptyString =>
      raise (ValueError "invalid literal for int() with base 10")
  | _ =>
      if all_chars is_decimal_char s then
        if (4300 <? Z.of_nat (len s))%Z then
          raise (ValueError
                   "Exceeds the limit (4300 digits) for integer string conversion")
        else ok (int_acc 0 s)
      else raise (ValueError "invalid literal for int() with base 10")
  end.

(** [s.split(sep)] for a one-character separator. *)
Fixpoint split (sep : ascii) (s : string) : list string :=
  match s with
  | EmptyString => [EmptyString]
  | String c s' =>
      if Ascii.eqb c sep then EmptyString :: split sep s'
      else match split sep s' with
           | [] => [String c EmptyString]
           | h :: t => String c h :: t
           end
  end.

(** [xs[i]]: [IndexError] out of range. *)
Definition index {A} (xs : list A) (i : nat) : result A :=
  match nth_error xs i with
  | Some x => ok x
  | None => raise (IndexError "list index out of range")
  end.

(** [c.lower()] on one code point below 256. *)
Definition lower_char (c : ascii) : ascii :=
  let n := ord c in
  if ((65 <=? n) && (n <=? 90))
     || ((192 <=? n) && (n <=? 222) && negb (n =? 215))
  then chr (n + 32) else c.

Fixpoint map_chars (f : ascii -> ascii) (s : string) : string :=
  match s with
  | EmptyString => EmptyString
  | String c s' => String (f c) (map_chars f s')
  end.

Definition lower (s : string) : string := map_chars lower_char s.

(** [s.replace(a, b)] for one-character [a] and [b]. *)
Definition replace (a b : ascii) (s : string) : string :=
  map_chars (fun c => if Ascii.eqb c a then b else c) s.

(** [s.isalnum()] per character, used to state what normalisation does
    not do. *)
Definition is_alnum_char (c : ascii) : bool :=
  let n := ord c in
  is_digit_char c
  || ((65 <=? n) && (n <=? 90)) || ((97 <=? n) && (n <=? 122))
  || (n =? 170) || (n =? 181) || (n =? 186)
  || (n =? 188) || (n =? 189) || (n =? 190)
  || ((192 <=? n) && negb (n =? 215) && negb (n =? 247)).

Definition digit_char (d : Z) : ascii := chr (48 + Z.to_nat d).

Fixpoint str_aux (fuel : nat) (n : Z) (acc : string) : string :=
  match fuel with
  | O => acc
  | S fuel' =>
      let acc' := String (digit_char (n mod 10)) acc in
      if (n / 10 =? 0)%Z then acc' else str_aux fuel' (n / 10) acc'
  end.

(** [str(n)] for an integer: the fuel exceeds the number of decimal
    digits. *)
Definition str (n : Z) : string :=
  if (n <? 0)%Z
  then String "-" (str_aux (S (Z.to_nat (Z.log2 (- n)))) (- n) EmptyString)
  else str_aux (S (Z.to_nat (Z.log2 n))) n EmptyString.

(** [f"{n:02d}"] for a non-negative integer. *)
Definition fmt_02d (n : Z) : string :=
  if (n <? 10)%Z then String "0" (str n) else str n.

Definition contains_char (c : ascii) (s : string) : bool :=
  negb (all_chars (fun x => negb (Ascii.eqb x c)) s).

End Py.

(** ** schemas/storage.py *)

Module Storage.

Inductive BucketName : Type := RAW.

Inductive DataCategory : Type := AVIAN_CASES.

(** The value of a [StrEnum] member, which is also what an f-string
    prints for it. *)
Definition category_value (c : DataCategory) : string :=
  match c with
  | AVIAN_CASES => "avian_cases"
  end.

Definition bucket_value (b : BucketName) : string :=
  match b with
  | RAW => "raw"
  end.

(** [DataCategory(s)]: lookup by value, [ValueError] when no member has
    that value. *)
Definition DataCategory_of (s : string) : result DataCategory :=
  if String.eqb s "avian_cases" then ok AVIAN_CASES
  else raise (ValueError (String.append s " is not a valid DataCategory")).

Record StorageKey : Type := mkStorageKey {
  bucket : BucketName;
  category : DataCategory;
  source : string;
  year : string;
  month : string;
  day : string;
  filename : string
}.

Definition invalido : string :=
  String.append "inv" (String (Py.chr 225) "lido: ").

Definition in_range (lo hi : Z) (n : Z) : bool :=
  (lo <=? n)%Z && (n <=? hi)%Z.

(** [__post_init__]: the three checks in source order.  [int] is only
    reached when [isdigit] held, and may itself raise. *)
Definition __post_init__ (k : StorageKey) : result unit :=
  if negb (Py.isdigit (year k)) || negb (Py.len (year k) =? 4) then
    raise (ValueError (String.append "Formato de ano "
                         (String.append invalido (year k))))
  else
    m_bad <- (if negb (Py.isdigit (month k)) then ok true
              else n <- Py.int (month k) ;; ok (negb (in_range 1 12 n))) ;;
    if (m_bad : bool) then
      raise (ValueError (String.append "Formato de m"
               (String (Py.chr 234)
                  (String.append "s " (String.append invalido (month k))))))
    else
      d_bad <- (if negb (Py.isdigit (day k)) then ok true
                else n <- Py.int (day k) ;; ok (negb (in_range 1 31 n))) ;;
      if (d_bad : bool) then
        raise (ValueError (String.append "Formato de dia "
                             (String.append invalido (day k))))
      else ok tt.

(** The dataclass constructor: [__init__] stores the fields and calls
    [__post_init__]. *)
Definition StorageKey_new (b : BucketName) (c : DataCategory)
    (src y m d f : string) : result StorageKey :=
  let k := mkStorageKey b c src y m d f in
  _ <- __post_init__ k ;; ok k.

Definition full_path (k : StorageKey) : string :=
  String.append (category_value (category k))
 (String.append "/" (String.append (source k)
 (String.append "/year=" (String.append (year k)
 (String.append "/month=" (String.append (month k)
 (String.append "/day=" (String.append (day k)
 (String.append "/" (filename k)))))))))).

Definition from_path (b : BucketName) (path : string) : result StorageKey :=
  let parts := Py.split "/" path in
  if length parts <? 6 then
    raise (ValueError (String.append "Caminho " (String.append invalido path)))
  else
    category_str <- Py.index parts 0 ;;
    src <- Py.index parts 1 ;;
    y <- (p <- Py.index parts 2 ;; Py.index (Py.split "=" p) 1) ;;
    m <- (p <- Py.index parts 3 ;; Py.index (Py.split "=" p) 1) ;;
    d <- (p <- Py.index parts 4 ;; Py.index (Py.split "=" p) 1) ;;
    f <- Py.index parts 5 ;;
    c <- match DataCategory_of category_str with
         | inr c => ok c
         | inl _ =>
             raise (ValueError (String.append "Categoria "
                      (String.append "inv" (String (Py.chr 225)
                         (String.append "lida: " category_str)))))
         end ;;
    StorageKey_new b c src y m d f.

End Storage.

(** ** src/schemas/storage.py: the older StorageKey *)

Module Legacy.

Inductive BucketName : Type := RAW | PROCESSED.

Inductive DataCategory : Type := AVIAN_CASES | SURVEILLANCE.

Definition category_value (c : DataCategory) : string :=
  match c with
  | AVIAN_CASES => "avian_cases"
  | SURVEILLANCE => "surveillance"
  end.

Definition DataCategory_of (s : string) : result DataCategory :=
  if String.eqb s "avian_cases" then ok AVIAN_CASES
  else if String.eqb s "surveillance" then ok SURVEILLANCE
  else raise (ValueError (String.append s " is not a valid DataCategory")).

Record StorageKey : Type := mkStorageKey {
  bucket : BucketName;
  category : DataCategory;
  source : string;
  year : string;
  month : string;
  day : string;
  filename : string
}.

(** This dataclass has no [__post_init__]: the constructor stores the
    fields and returns. *)
Definition StorageKey_new (b : BucketName) (c : DataCategory)
    (src y m d f : string) : result StorageKey :=
  ok (mkStorageKey b c src y m d f).

Definition from_path (b : BucketName) (path : string) : result StorageKey :=
  let parts := Py.split "/" path in
  if length parts <? 6 then
    raise (ValueError (String.append "Caminho "
             (String.append Storage.invalido path)))
  else
    category_str <- Py.index parts 0 ;;
    src <- Py.index parts 1 ;;
    y <- (p <- Py.index parts 2 ;; Py.index (Py.split "=" p) 1) ;;
    m <- (p <- Py.index parts 3 ;; Py.index (Py.split "=" p) 1) ;;
    d <- (p <- Py.index parts 4 ;; Py.index (Py.split "=" p) 1) ;;
    f <- Py.index parts 5 ;;
    c <- match DataCategory_of category_str with
         | inr c => ok c
         | inl _ =>
             raise (ValueError (String.append "Categoria "
                      (String.append "inv" (String (Py.chr 225)
                         (String.append "lida: " category_str)))))
         end ;;
    StorageKey_new b c src y m d f.

End Legacy.

(** ** schemas/models/h5n1.py *)

Module H5N1.

Inductive BirdType : Type := WILD | DOMESTIC | MIGRATORY | UNKNOWN.

Inductive ConfidenceLevel : Type := HIGH | MEDIUM | LOW | UNVERIFIED.

Definition BirdType_value (t : BirdType) : string :=
  match t with
  | WILD => "wild"
  | DOMESTIC => "domestic"
  | MIGRATORY => "migratory"
  | UNKNOWN => "unknown"
  end.

Definition ConfidenceLevel_value (c : ConfidenceLevel) : string :=
  match c with
  | HIGH => "high"
  | MEDIUM => "medium"
  | LOW => "low"
  | UNVERIFIED => "unverified"
  end.

(** A naive [datetime].  Python's type keeps 1 <= year <= 9999,
    1 <= month <= 12 and 1 <= day <= 31; [datetime_valid] records it. *)
Record datetime : Type := mkDatetime {
  dt_year : Z;
  dt_month : Z;
  dt_day : Z;
  dt_hour : Z;
  dt_minute : Z;
  dt_second : Z;
  dt_microsecond : Z
}.

Definition datetime_valid (t : datetime) : Prop :=
  (1 <= dt_year t <= 9999)%Z /\ (1 <= dt_month t <= 12)%Z
  /\ (1 <= dt_day t <= 31)%Z.

(** Floats are modelled by the rationals they denote. *)
Record Location : Type := mkLocation {
  region : option string;
  city : option string;
  latitude : option Q;
  longitude : option Q
}.

Record BirdInfo : Type := mkBirdInfo {
  species : string;
  type : BirdType;
  population_size : option Z
}.

Record Metadata : Type := mkMetadata {
  source : string;
  confidence : ConfidenceLevel;
  collected_at : datetime;
  is_verified : bool
}.

Record AvianFluCase : Type := mkAvianFluCase {
  case_id : string;
  detection_date : datetime;
  bird : BirdInfo;
  location : Location;
  metadata : Metadata
}.

(** [self.metadata.source.lower().replace(" ", "_")] *)
Definition normalized_source (c : AvianFluCase) : string :=
  Py.replace " " "_" (Py.lower (source (metadata c))).

Definition to_storage_key (c : AvianFluCase) (filename : string)
  : result Storage.StorageKey :=
  let detection_date := detection_date c in
  Storage.StorageKey_new Storage.RAW Storage.AVIAN_CASES
    (normalized_source c)
    (Py.str (dt_year detection_date))
    (Py.fmt_02d (dt_month detection_date))
    (Py.fmt_02d (dt_day detection_date))
    filename.

End H5N1.

(** ** Python values in table cells, and pandas frames *)

Module Frame.

#[local] Set Warnings "-register-all".

(** The values a dumped record holds, and the two nulls of a frame. *)
Inductive pyval : Type :=
| PNone
| PNaN
| PStr (s : string)
| PInt (z : Z)
| PFloat (q : Q)
| PBool (b : bool)
| PDatetime (t : H5N1.datetime)
| PDict (items : list (string * pyval)).

Definition dict : Type := list (string * pyval).

Fixpoint get (d : dict) (key : string) : option pyval :=
  match d with
  | [] => None
  | (k, v) :: d' => if String.eqb k key then Some v else get d' key
  end.

Definition keys (d : dict) : list string := map fst d.

Fixpoint mem (x : string) (xs : list string) : bool :=
  match xs with
  | [] => false
  | y :: ys => String.eqb y x || mem x ys
  end.

Record DataFrame : Type := mkDataFrame {
  columns : list string;
  rows : list (list pyval)
}.

(** [pd.DataFrame()] *)
Definition empty_frame : DataFrame := mkDataFrame [] [].

(** [df.empty]: some axis has length 0. *)
Definition empty (df : DataFrame) : bool :=
  match columns df, rows df with
  | [], _ => true
  | _, [] => true
  | _, _ => false
  end.

Fixpoint add_new (acc ks : list string) : list string :=
  match ks with
  | [] => acc
  | k :: ks' => if mem k acc then add_new acc ks' else add_new (acc ++ [k]) ks'
  end.

(** Column labels of [pd.DataFrame(records)]: the keys in order of first
    appearance. *)
Definition union_keys (records : list dict) : list string :=
  fold_left (fun acc d => add_new acc (keys d)) records [].

Definition cell (d : dict) (col : string) : pyval :=
  match get d col with
  | Some v => v
  | None => PNaN
  end.

(** [pd.DataFrame(records)] for a list of dicts: one row per dict, a
    missing key gives NaN.  Cells keep their Python value. *)
Definition from_records (records : list dict) : DataFrame :=
  let cols := union_keys records in
  mkDataFrame cols (map (fun d => map (cell d) cols) records).

(** [row.to_dict()] for a row of [df.iterrows()]. *)
Definition to_dict (cols : list string) (row : list pyval) : dict :=
  combine cols row.

(** [pd.notna(v)] on a cell. *)
Definition notna (v : pyval) : bool :=
  match v with
  | PNone | PNaN => false
  | _ => true
  end.

(** [{k: v for k, v in model_data.items() if pd.notna(v)}] *)
Definition dropna (d : dict) : dict :=
  filter (fun kv => notna (snd kv)) d.

End Frame.

(** ** Log records *)

Inductive log_level : Type := DEBUG | INFO | WARNING | ERROR.

Definition log_record : Type := (log_level * string)%type.

Definition count_level (l : log_level) (logs : list log_record) : nat :=
  length (filter (fun r => match fst r, l with
                           | DEBUG, DEBUG | INFO, INFO
                           | WARNING, WARNING | ERROR, ERROR => true
                           | _, _ => false
                           end) logs).

Definition str_exn (e : exn) : string :=
  match e with
  | ValueError m | IndexError m | S3Error m | CatalogException m
  | BinderException m | ConstraintException m | IOException m
  | ValidationError m | ConversionException m => m
  | SynchronizationError _ => "SynchronizationError"
  end.

(** ** connectors/data/transformer.py *)

Module Transformer.

Import Frame.

Section ModelClass.

(** A pydantic model class: its name, [model_dump] and
    [model_validate]. *)
Context {M : Type}.
Variable model_name : string.
Variable model_dump : M -> dict.
Variable model_validate : dict -> result M.

Definition str_len {A} (xs : list A) : string := Py.str (Z.of_nat (length xs)).

Definition model_to_dataframe (models : list M)
  : DataFrame * list log_record :=
  match models with
  | [] => (empty_frame,
           [(WARNING, "Lista de modelos vazia, retornando DataFrame vazio")])
  | _ =>
      let flattened_data := map model_dump models in
      let df := from_records flattened_data in
      (df, [(INFO, String.append "Convertidos "
                     (String.append (str_len models)
                        " modelos para DataFrame"))])
  end.

Definition erro_ao_converter (e : exn) : string :=
  String.append "Erro ao converter linha para modelo "
    (String.append model_name (String.append ": " (str_exn e))).

Definition ocorreram (n : nat) : string :=
  String.append "Ocorreram "
    (String.append (Py.str (Z.of_nat n))
       (String.append " erros durante a convers"
          (String (Py.chr 227) "o"))).

(** The body of the [try] for one row. *)
Definition convert_row (cols : list string) (row : list pyval) : result M :=
  let model_data := to_dict cols row in
  let model_data := dropna model_data in
  model_validate model_data.

(** The loop over [df.iterrows()]: the state is [models], [errors] and
    the log, each in append order. *)
Fixpoint convert_rows (cols : list string) (rs : list (list pyval))
    (models : list M) (errors : list string) (logs : list log_record)
  : list M * list string * list log_record :=
  match rs with
  | [] => (models, errors, logs)
  | row :: rs' =>
      match convert_row cols row with
      | inr model => convert_rows cols rs' (models ++ [model]) errors logs
      | inl e =>
          convert_rows cols rs' models (errors ++ [str_exn e])
            (logs ++ [(ERROR, erro_ao_converter e)])
      end
  end.

Definition dataframe_to_models (df : DataFrame)
  : list M * list log_record :=
  if empty df then
    ([], [(WARNING, String.append "DataFrame vazio, retornando lista vazia de "
                      model_name)])
  else
    let '(models, errors, logs) :=
      convert_rows (columns df) (rows df) [] [] [] in
    let logs := match errors with
                | [] => logs
                | _ => logs ++ [(WARNING, ocorreram (length errors))]
                end in
    (models,
     logs ++ [(INFO, String.append "Convertidas "
                       (String.append (str_len models)
                          (String.append " linhas para modelos " model_name)))]).

End ModelClass.

End Transformer.

(** ** AvianFluCase as a pydantic model *)

Module CaseModel.

Import Frame H5N1.

Definition opt_str (o : option string) : pyval :=
  match o with Some s => PStr s | None => PNone end.

Definition opt_float (o : option Q) : pyval :=
  match o with Some q => PFloat q | None => PNone end.

Definition opt_int (o : option Z) : pyval :=
  match o with Some z => PInt z | None => PNone end.

Definition dump_bird (b : BirdInfo) : dict :=
  [("species", PStr (species b));
   ("type", PStr (BirdType_value (type b)));
   ("population_size", opt_int (population_size b))].

Definition dump_location (l : Location) : dict :=
  [("region", opt_str (region l));
   ("city", opt_str (city l));
   ("latitude", opt_float (latitude l));
   ("longitude", opt_float (longitude l))].

Definition dump_metadata (m : Metadata) : dict :=
  [("source", PStr (source m));
   ("confidence", PStr (ConfidenceLevel_value (confidence m)));
   ("collected_at", PDatetime (collected_at m));
   ("is_verified", PBool (is_verified m))].

(** [model.model_dump()]: nested models become nested dicts. *)
Definition model_dump (c : AvianFluCase) : dict :=
  [("case_id", PStr (case_id c));
   ("detection_date", PDatetime (detection_date c));
   ("bird", PDict (dump_bird (bird c)));
   ("location", PDict (dump_location (location c)));
   ("metadata", PDict (dump_metadata (metadata c)))].

Definition invalid {A} (field what : string) : result A :=
  raise (ValidationError (String.append field (String.append ": " what))).

(** Field validators.  A field accepts a value of its own type; the
    conversions pydantic's lax mode applies to values of another type are
    not modelled, such a value is rejected. *)
Definition required (d : dict) (field : string) : result pyval :=
  match get d field with
  | Some v => ok v
  | None => invalid field "Field required"
  end.

Definition as_str (field : string) (v : pyval) : result string :=
  match v with
  | PStr s => ok s
  | _ => invalid field "Input should be a valid string"
  end.

Definition as_datetime (field : string) (v : pyval) : result datetime :=
  match v with
  | PDatetime t => ok t
  | _ => invalid field "Input should be a valid datetime"
  end.

Definition as_bool (field : string) (v : pyval) : result bool :=
  match v with
  | PBool b => ok b
  | _ => invalid field "Input should be a valid boolean"
  end.

Definition as_dict (field : string) (v : pyval) : result dict :=
  match v with
  | PDict d => ok d
  | _ => invalid field "Input should be a valid dictionary"
  end.

Definition as_opt_str (field : string) (v : pyval) : result (option string) :=
  match v with
  | PNone => ok None
  | PStr s => ok (Some s)
  | _ => invalid field "Input should be a valid string"
  end.

Definition as_opt_int (field : string) (v : pyval) : result (option Z) :=
  match v with
  | PNone => ok None
  | PInt z => ok (Some z)
  | _ => invalid field "Input should be a valid integer"
  end.

Definition as_opt_float (field : string) (v : pyval) : result (option Q) :=
  match v with
  | PNone => ok None
  | PFloat q => ok (Some q)
  | PInt z => ok (Some (inject_Z z))
  | _ => invalid field "Input should be a valid number"
  end.

Definition BirdType_of (field s : string) : result BirdType :=
  if String.eqb s "wild" then ok WILD
  else if String.eqb s "domestic" then ok DOMESTIC
  else if String.eqb s "migratory" then ok MIGRATORY
  else if String.eqb s "unknown" then ok UNKNOWN
  else invalid field "Input should be 'wild', 'domestic', 'migratory' or 'unknown'".

Definition ConfidenceLevel_of (field s : string) : result ConfidenceLevel :=
  if String.eqb s "high" then ok HIGH
  else if String.eqb s "medium" then ok MEDIUM
  else if String.eqb s "low" then ok LOW
  else if String.eqb s "unverified" then ok UNVERIFIED
  else invalid field "Input should be 'high', 'medium', 'low' or 'unverified'".

(** A field with a default: the default when the key is absent. *)
Definition with_default {A} (d : dict) (field : string) (default : A)
    (validate : pyval -> result A) : result A :=
  match get d field with
  | Some v => validate v
  | None => ok default
  end.

Definition Qlt_bool (a b : Q) : bool := negb (Qle_bool b a).

(** [validate_latitude] and [validate_longitude]. *)
Definition out_of_range (bound : Q) (v : option Q) : bool :=
  match v with
  | Some q => Qlt_bool q (Qopp bound) || Qlt_bool bound q
  | None => false
  end.

Definition validate_latitude (v : option Q) : result (option Q) :=
  if out_of_range (inject_Z 90) v
  then invalid "latitude" "Value error, Latitude deve estar entre -90 e 90"
  else ok v.

Definition validate_longitude (v : option Q) : result (option Q) :=
  if out_of_range (inject_Z 180) v
  then invalid "longitude" "Value error, Longitude deve estar entre -180 e 180"
  else ok v.

Definition validate_location (d : dict) : result Location :=
  r <- with_default d "region" None (as_opt_str "region") ;;
  c <- with_default d "city" None (as_opt_str "city") ;;
  la <- with_default d "latitude" None
          (fun v => q <- as_opt_float "latitude" v ;; validate_latitude q) ;;
  lo <- with_default d "longitude" None
          (fun v => q <- as_opt_float "longitude" v ;; validate_longitude q) ;;
  ok (mkLocation r c la lo).

Definition validate_bird (d : dict) : result BirdInfo :=
  s <- (v <- required d "species" ;; as_str "species" v) ;;
  t <- with_default d "type" UNKNOWN
         (fun v => s <- as_str "type" v ;; BirdType_of "type" s) ;;
  p <- with_default d "population_size" None (as_opt_int "population_size") ;;
  ok (mkBirdInfo s t p).

(** [collected_at] has [default_factory=datetime.now]: [now] is the
    clock reading. *)
Definition validate_metadata (now : datetime) (d : dict) : result Metadata :=
  s <- (v <- required d "source" ;; as_str "source" v) ;;
  c <- with_default d "confidence" UNVERIFIED
         (fun v => s <- as_str "confidence" v ;;
                   ConfidenceLevel_of "confidence" s) ;;
  t <- with_default d "collected_at" now (as_datetime "collected_at") ;;
  b <- with_default d "is_verified" false (as_bool "is_verified") ;;
  ok (mkMetadata s c t b).

(** [AvianFluCase.model_validate(d)] *)
Definition model_validate (now : datetime) (d : dict) : result AvianFluCase :=
  i <- (v <- required d "case_id" ;; as_str "case_id" v) ;;
  t <- (v <- required d "detection_date" ;; as_datetime "detection_date" v) ;;
  b <- (v <- required d "bird" ;; d' <- as_dict "bird" v ;; validate_bird d') ;;
  l <- (v <- required d "location" ;; d' <- as_dict "location" v ;;
        validate_location d') ;;
  m <- (v <- required d "metadata" ;; d' <- as_dict "metadata" v ;;
        validate_metadata now d') ;;
  ok (mkAvianFluCase i t b l m).

(** A validated record: one that passed the validators when it was
    constructed. *)
Definition validated (c : AvianFluCase) : Prop :=
  out_of_range (inject_Z 90) (latitude (location c)) = false
  /\ out_of_range (inject_Z 180) (longitude (location c)) = false.

End CaseModel.

(** ** connectors/data/clients/duck_db.py *)

Module DuckDB.

(** Scalar SQL values with their equality; NULL is [None].
    [convert table column v] is the cast an INSERT applies to [v] for
    the column of the table, by the type the catalog declares for it:
    the value that is stored, or [None] when [v] does not convert. *)
Class SqlValue (V : Type) : Type := {
  veqb : V -> V -> bool;
  veqb_eq : forall a b, veqb a b = true <-> a = b;
  convert : string -> string -> V -> option V
}.

(** Text values in tables whose columns are all VARCHAR: every value is
    stored as it is. *)
#[global] Instance string_SqlValue : SqlValue string :=
  {| veqb := String.eqb; veqb_eq := String.eqb_eq;
     convert := fun _ _ v => Some v |}.

Section Engine.

Context {V : Type} `{SqlValue V}.

Definition cell : Type := option V.

(** A DataFrame or result set: column labels and rows. *)
Record relation : Type := mkRelation {
  rel_columns : list string;
  rel_rows : list (list cell)
}.

(** A table: its columns as [PRAGMA table_info] lists them (name, and
    whether [pk > 0]) and its rows. *)
Record table : Type := mkTable {
  tbl_columns : list (string * bool);
  tbl_rows : list (list cell)
}.

(** The connection: tables, temporary tables, and the failures the
    engine is going to meet, one entry per [conn.execute] call
    ([Some e]: that call raises [e]). *)
Record connection : Type := mkConnection {
  catalog : list (string * table);
  temp : list (string * relation);
  faults : list (option exn)
}.

(** *** Statements run on a connection *)

Definition db (A : Type) : Type := connection -> result A * connection.

Definition ret {A} (a : A) : db A := fun c => (inr a, c).
Definition throw {A} (e : exn) : db A := fun c => (inl e, c).

Definition dbind {A B} (m : db A) (k : A -> db B) : db B :=
  fun c => match m c with
           | (inl e, c') => (inl e, c')
           | (inr a, c') => k a c'
           end.

(** [try: m except Exception: handler] *)
Definition catch {A} (m : db A) (handler : exn -> db A) : db A :=
  fun c => match m c with
           | (inl e, c') => handler e c'
           | (inr a, c') => (inr a, c')
           end.

Definition lift {A} (r : result A) : db A := fun c => (r, c).

Fixpoint assoc {A} (name : string) (xs : list (string * A)) : option A :=
  match xs with
  | [] => None
  | (n, a) :: xs' => if String.eqb n name then Some a else assoc name xs'
  end.

Fixpoint update {A} (name : string) (a : A) (xs : list (string * A))
  : list (string * A) :=
  match xs with
  | [] => []
  | (n, a') :: xs' =>
      if String.eqb n name then (n, a) :: xs' else (n, a') :: update name a xs'
  end.

Fixpoint remove {A} (name : string) (xs : list (string * A))
  : list (string * A) :=
  match xs with
  | [] => []
  | (n, a) :: xs' =>
      if String.eqb n name then xs' else (n, a) :: remove name xs'
  end.

(** [self.conn.execute(...)]: the next planned failure, if any, is
    raised instead of running the statement. *)
Definition execute {A} (run : db A) : db A :=
  fun c =>
    match faults c with
    | Some e :: fs => (inl e, mkConnection (catalog c) (temp c) fs)
    | None :: fs => run (mkConnection (catalog c) (temp c) fs)
    | [] => run c
    end.

Definition no_table {A} (name : string) : result A :=
  raise (CatalogException
           (String.append "Table with name "
              (String.append name " does not exist!"))).

Definition find_table (name : string) : db table :=
  fun c => match assoc name (catalog c) with
           | Some t => (inr t, c)
           | None => (no_table name, c)
           end.

(** [CREATE TEMPORARY TABLE name AS SELECT * FROM df]: [scanned] is what
    the engine finds for the identifier [df]. *)
Definition create_temp_as (name : string) (scanned : option relation)
  : db unit :=
  fun c =>
    match scanned with
    | None => (no_table "df", c)
    | Some r =>
        match assoc name (temp c) with
        | Some _ =>
            (raise (CatalogException
                      (String.append "Table with name "
                         (String.append name " already exists!"))), c)
        | None =>
            (inr tt, mkConnection (catalog c) ((name, r) :: temp c) (faults c))
        end
    end.

(** [DROP TABLE name] for a temporary table. *)
Definition drop_temp (name : string) : db unit :=
  fun c =>
    match assoc name (temp c) with
    | None => (no_table name, c)
    | Some _ =>
        (inr tt, mkConnection (catalog c) (remove name (temp c)) (faults c))
    end.

(** The row count of [SELECT COUNT] over the table. *)
Definition count_rows (name : string) : db Z :=
  dbind (find_table name) (fun t => ret (Z.of_nat (length (tbl_rows t)))).

(** [PRAGMA table_info(table)] *)
Definition table_info (name : string) : db (list (string * bool)) :=
  dbind (find_table name) (fun t => ret (tbl_columns t)).

(** *** Binding column references *)

Definition has_column (cols : list string) (col : string) : bool :=
  Frame.mem col cols.

Fixpoint position (cols : list string) (col : string) : option nat :=
  match cols with
  | [] => None
  | c :: cs =>
      if String.eqb c col then Some 0
      else match position cs col with
           | Some i => Some (S i)
           | None => None
           end
  end.

Definition value_at (cols : list string) (row : list cell) (col : string)
  : cell :=
  match position cols col with
  | Some i => nth i row None
  | None => None
  end.

Definition column_not_found {A} (col : string) : result A :=
  raise (BinderException
           (String.append "Referenced column "
              (String.append col " not found in FROM clause!"))).

Definition ambiguous {A} (col : string) : result A :=
  raise (BinderException
           (String.append "Ambiguous reference to column name "
              (String.append col (String.append " (use: t."
                 (String.append col (String.append " or e."
                    (String.append col ")"))))))).

(** The side an unqualified column of the select list of the join
    [temp t LEFT JOIN table e] binds to: an error when no side or both
    sides have it. *)
Inductive side : Type := SideT | SideE.

Definition bind_unqualified (t_cols e_cols : list string) (col : string)
  : result side :=
  match has_column t_cols col, has_column e_cols col with
  | true, true => ambiguous col
  | true, false => ok SideT
  | false, true => ok SideE
  | false, false => column_not_found col
  end.

Definition bind_qualified (cols : list string) (col : string) : result unit :=
  if has_column cols col then ok tt else column_not_found col.

Fixpoint bind_all {A} (f : string -> result A) (cols : list string)
  : result (list A) :=
  match cols with
  | [] => ok []
  | c :: cs => a <- f c ;; rest <- bind_all f cs ;; ok (a :: rest)
  end.

(** *** INSERT *)

Definition cell_eqb (a b : cell) : bool :=
  match a, b with
  | Some x, Some y => veqb x y
  | _, _ => false
  end.

Definition is_null (a : cell) : bool :=
  match a with
  | None => true
  | Some _ => false
  end.

Definition column_names (t : table) : list string := map fst (tbl_columns t).

Definition pk_columns (t : table) : list string :=
  map fst (filter snd (tbl_columns t)).

Definition key_of (t : table) (row : list cell) : list cell :=
  map (value_at (column_names t) row) (pk_columns t).

Definition key_eqb (k1 k2 : list cell) : bool :=
  (length k1 =? length k2)
  && forallb (fun p => cell_eqb (fst p) (snd p)) (combine k1 k2).

(** PRIMARY KEY: no NULL in a key column and no key held twice. *)
Fixpoint keys_ok (t : table) (existing : list (list cell))
    (new : list (list cell)) : bool :=
  match new with
  | [] => true
  | row :: rest =>
      let k := key_of t row in
      negb (existsb is_null k)
      && negb (existsb (fun r => key_eqb (key_of t r) k) existing)
      && keys_ok t (row :: existing) rest
  end.

Definition constraint_ok (t : table) (new : list (list cell)) : bool :=
  match pk_columns t with
  | [] => true
  | _ => keys_ok t (tbl_rows t) new
  end.

(** A row for the table from the values of the insert column list: a
    table column that is not listed gets NULL. *)
Definition place (t : table) (cols : list string) (vals : list cell)
  : list cell :=
  map (value_at cols vals) (column_names t).

(** The cast of a row to the declared types of the columns: NULL
    converts to every type. *)
Fixpoint cast_row (name : string) (cols : list string) (row : list cell)
  : option (list cell) :=
  match cols, row with
  | col :: cols', v :: row' =>
      match match v with
            | Some x => option_map Some (convert name col x)
            | None => Some None
            end,
            cast_row name cols' row' with
      | Some v', Some rest => Some (v' :: rest)
      | _, _ => None
      end
  | _, _ => Some []
  end.

Fixpoint cast_rows (name : string) (cols : list string)
    (rows : list (list cell)) : option (list (list cell)) :=
  match rows with
  | [] => Some []
  | row :: rows' =>
      match cast_row name cols row, cast_rows name cols rows' with
      | Some row', Some rest => Some (row' :: rest)
      | _, _ => None
      end
  end.

(** The rows of an INSERT reach the table as one batch: they are cast
    to the column types, then checked against the primary key.  The
    tables are those [get_create_table_sql] declares: typed columns and
    at most a primary key. *)
Definition append_rows (name : string) (t : table) (cols : list string)
    (selected : list (list cell)) : db unit :=
  fun c =>
    match cast_rows name (column_names t) (map (place t cols) selected) with
    | None =>
        (raise (ConversionException
                  "Could not convert a value to the type of its column"), c)
    | Some new =>
        if constraint_ok t new then
          (inr tt,
           mkConnection
             (update name (mkTable (tbl_columns t) (tbl_rows t ++ new))
                (catalog c))
             (temp c) (faults c))
        else
          (raise (ConstraintException
                    "Duplicate key or NULL violates primary key constraint"),
           c)
    end.

Definition find_temp (name : string) : db relation :=
  fun c => match assoc name (temp c) with
           | Some r => (inr r, c)
           | None => (no_table name, c)
           end.

(** [INSERT INTO table (cols) SELECT sel FROM temp] *)
Definition insert_select (name : string) (cols sel : list string)
    (temp_name : string) : db unit :=
  dbind (find_table name) (fun t =>
  dbind (find_temp temp_name) (fun r =>
  dbind (lift (bind_all (bind_qualified (column_names t)) cols)) (fun _ =>
  dbind (lift (bind_all (bind_qualified (rel_columns r)) sel)) (fun _ =>
  append_rows name t cols
    (map (fun row => map (value_at (rel_columns r) row) sel)
       (rel_rows r)))))).

(** The rows of [temp t LEFT JOIN table e ON t.pk = e.pk WHERE e.pk IS
    NULL]: each staged row with the matching table row, or with none. *)
Definition left_join (r : relation) (t : table) (pk : string)
  : list (list cell * option (list cell)) :=
  flat_map
    (fun trow =>
       match filter (fun erow =>
                       cell_eqb (value_at (rel_columns r) trow pk)
                                (value_at (column_names t) erow pk))
                    (tbl_rows t) with
       | [] => [(trow, None)]
       | ms => map (fun erow => (trow, Some erow)) ms
       end)
    (rel_rows r).

Definition e_value (t : table) (erow : option (list cell)) (col : string)
  : cell :=
  match erow with
  | Some row => value_at (column_names t) row col
  | None => None
  end.

(** [INSERT INTO table (cols) SELECT sel FROM temp t LEFT JOIN table e
    ON t.pk = e.pk WHERE e.pk IS NULL]: the join condition and the WHERE
    clause are bound first, then the unqualified select list. *)
Definition insert_anti_join (name : string) (cols sel : list string)
    (temp_name pk : string) : db unit :=
  dbind (find_table name) (fun t =>
  dbind (find_temp temp_name) (fun r =>
  dbind (lift (bind_all (bind_qualified (column_names t)) cols)) (fun _ =>
  dbind (lift (bind_qualified (rel_columns r) pk)) (fun _ =>
  dbind (lift (bind_qualified (column_names t) pk)) (fun _ =>
  dbind (lift (bind_all (bind_unqualified (rel_columns r) (column_names t))
                 sel)) (fun sides =>
  let joined :=
    filter (fun p => is_null (e_value t (snd p) pk)) (left_join r t pk) in
  append_rows name t cols
    (map (fun p =>
            map (fun sc =>
                   match fst sc with
                   | SideT => value_at (rel_columns r) (fst p) (snd sc)
                   | SideE => e_value t (snd p) (snd sc)
                   end)
                (combine sides sel))
         joined))))))).

End Engine.

Arguments cell V : clear implicits.
Arguments relation V : clear implicits.
Arguments table V : clear implicits.
Arguments connection V : clear implicits.
Arguments db V A : clear implicits.

(** *** DuckDBClient *)

Section Client.

Context {V : Type} `{SqlValue V}.

(** What a caller passes as [avoid_duplicates]: the flag, or, as the
    orchestrator does with its second positional argument, a frame. *)
Inductive pyarg : Type :=
| ArgBool (b : bool)
| ArgFrame (df : relation V).

(** [bool(x)]: a DataFrame has no truth value. *)
Definition truth (x : pyarg) : result bool :=
  match x with
  | ArgBool b => ok b
  | ArgFrame _ =>
      raise (ValueError "The truth value of a DataFrame is ambiguous. Use a.empty, a.bool(), a.item(), a.any() or a.all().")
  end.

(** [get_table_columns]: logs and re-raises. *)
Definition get_table_columns (table : string) : db V (list string) :=
  catch
    (dbind (execute (table_info table)) (fun info => ret (map fst info)))
    (fun e => throw e).

(** [_get_primary_key]: the first column with [pk > 0]; any exception is
    logged and answered with [None]. *)
Definition _get_primary_key (table : string) : db V (option string) :=
  catch
    (dbind (execute (table_info table)) (fun info =>
       match filter snd info with
       | [] => ret None
       | (name, _) :: _ => ret (Some name)
       end))
    (fun _ => ret None).

(** Truth value of [str | None]. *)
Definition truthy (o : option string) : bool :=
  match o with
  | Some s => negb (String.eqb s EmptyString)
  | None => false
  end.

(** The body of the [try] of [insert_dataframe].  [now] is the clock
    reading that names the temporary table, [scanned] what the engine
    finds for the identifier [df]. *)
Definition insert_body (table : string) (avoid_duplicates : pyarg)
    (now : string) (scanned : option (relation V)) : db V Z :=
  let temp_table := String.append "temp_insert_" now in
  dbind (execute (create_temp_as temp_table scanned)) (fun _ =>
  dbind (execute (count_rows table)) (fun count_before =>
  dbind (lift (truth avoid_duplicates)) (fun flag =>
  dbind (if flag then _get_primary_key table else ret None)
    (fun primary_key =>
  dbind (if flag && truthy primary_key then
           dbind (get_table_columns table) (fun cols =>
           dbind (get_table_columns table) (fun sel =>
           execute (insert_anti_join table cols sel temp_table
                      (match primary_key with
                       | Some pk => pk
                       | None => EmptyString
                       end))))
         else
           dbind (get_table_columns table) (fun cols =>
           dbind (get_table_columns table) (fun sel =>
           execute (insert_select table cols sel temp_table))))
    (fun _ =>
  dbind (execute (drop_temp temp_table)) (fun _ =>
  dbind (execute (count_rows table)) (fun count_after =>
  ret (count_after - count_before)%Z))))))).

Definition insert_dataframe (read_only : bool) (table : string)
    (avoid_duplicates : pyarg) (now : string)
    (scanned : option (relation V)) : db V Z :=
  if read_only then ret 0%Z
  else catch (insert_body table avoid_duplicates now scanned)
             (fun e => throw e).

(** [df.empty] *)
Definition rel_empty (df : relation V) : bool :=
  match rel_columns df, rel_rows df with
  | [], _ => true
  | _, [] => true
  | _, _ => false
  end.

Definition subset (xs ys : list string) : bool :=
  forallb (fun x => Frame.mem x ys) xs.

(** [df[target_columns]] *)
Definition project (df : relation V) (cols : list string) : relation V :=
  mkRelation cols
    (map (fun row => map (value_at (rel_columns df) row) cols) (rel_rows df)).

(** [read_external_parquet(uris, target_table)]; [read_parquet] is the
    engine reading the objects behind the URIs. *)
Definition read_external_parquet
    (read_parquet : list string -> result (relation V))
    (uris : list string) (target_table : option string)
  : db V (relation V) :=
  match uris with
  | [] => ret (mkRelation [] [])
  | _ =>
      catch
        (dbind (execute (lift (read_parquet uris))) (fun df =>
           match target_table with
           | Some table =>
               dbind (get_table_columns table) (fun target_columns =>
                 ret (if subset target_columns (rel_columns df)
                      then project df target_columns else df))
           | None => ret df
           end))
        (fun e => throw e)
  end.

End Client.

End DuckDB.

(** ** connectors/data/clients/minio.py *)

Module Minio.

(** [s.endswith(suffix)] *)
Fixpoint endswith (suffix s : string) : bool :=
  String.eqb s suffix
  || match s with
     | EmptyString => false
     | String _ s' => endswith suffix s'
     end.

(** The object store as the client sees it: [client.list_objects]
    followed by reading the names, which yields them or raises. *)
Definition store : Type := string -> string -> result (list string).

(** [list_objects]: logs and re-raises. *)
Definition list_objects (s : store) (bucket_name prefix : string)
  : result (list string) :=
  match s bucket_name prefix with
  | inr object_names => ok object_names
  | inl e => raise e
  end.

Definition list_parquet_files (s : store) (bucket prefix : string)
  : result (list string) :=
  match (all_files <- list_objects s bucket prefix ;;
         ok (filter (endswith ".parquet") all_files)) with
  | inr parquet_files => ok parquet_files
  | inl e => raise e
  end.

Definition uri (bucket path : string) : string :=
  String.append "s3://" (String.append bucket (String.append "/" path)).

Definition get_parquet_uris (s : store) (bucket prefix : string)
  : result (list string) :=
  match (parquet_paths <- list_parquet_files s bucket prefix ;;
         ok (map (uri bucket) parquet_paths)) with
  | inr uris => ok uris
  | inl e => raise e
  end.

End Minio.

(** ** connectors/data/orchestrator.py *)

Module Orchestrator.

Import DuckDB.

Section World.

Context {V : Type} `{SqlValue V}.

(** The collaborators of one orchestrator: the object store, the
    engine's parquet reader, and the two settings of the database
    client.  [scan_frames] says whether the engine looks for the
    identifier [df] in the frames of the callers of [insert_dataframe],
    where the orchestrator holds its [df]. *)
Record world : Type := mkWorld {
  storage : Minio.store;
  read_parquet : list string -> result (relation V);
  db_read_only : bool;
  scan_frames : bool
}.

(** [load_storage_to_database(bucket, prefix, table_name)].  The call
    [insert_dataframe(table_name, df)] binds [df] to the second
    parameter, [avoid_duplicates]. *)
Definition load_storage_to_database (w : world)
    (bucket prefix table_name now : string) : db V Z :=
  dbind (lift (Minio.get_parquet_uris (storage w) bucket prefix))
    (fun parquet_uris =>
  match parquet_uris with
  | [] => ret 0%Z
  | _ =>
      dbind (read_external_parquet (read_parquet w) parquet_uris
               (Some table_name)) (fun df =>
      if negb (rel_empty df) then
        dbind (insert_dataframe (db_read_only w) table_name (ArgFrame df) now
                 (if scan_frames w then Some df else None))
          (fun num_inserted => ret num_inserted)
      else ret 0%Z)
  end).

End World.

Arguments world V : clear implicits.

End Orchestrator.

(** ** strftime *)

Module Strftime.

Import H5N1.

(** The directives the code formats a [datetime] with.  [%Y] is the
    year in decimal, four digits from year 1000 on (for an earlier year
    the C library decides about padding); [%m], [%d], [%H], [%M] and
    [%S] are zero-padded to two digits. *)
Definition year4 (t : datetime) : string := Py.str (dt_year t).
Definition month2 (t : datetime) : string := Py.fmt_02d (dt_month t).
Definition day2 (t : datetime) : string := Py.fmt_02d (dt_day t).
Definition hour2 (t : datetime) : string := Py.fmt_02d (dt_hour t).
Definition minute2 (t : datetime) : string := Py.fmt_02d (dt_minute t).
Definition second2 (t : datetime) : string := Py.fmt_02d (dt_second t).

(** [t.strftime("%Y%m%d%H%M%S")] *)
Definition compact (t : datetime) : string :=
  String.append (year4 t) (String.append (month2 t) (String.append (day2 t)
 (String.append (hour2 t) (String.append (minute2 t) (second2 t))))).


End Strftime.

(** ** src/storage/minio_client.py: the older client's object keys *)

Module LegacyMinio.

Import H5N1.

Definition data_filename (timestamp : datetime) (uuid_str : string) : string :=
  String.append "data_" (String.append (Strftime.compact timestamp)
    (String.append "_" (String.append uuid_str ".parquet"))).

Definition _generate_key (data_type : Legacy.DataCategory) (source : string)
    (timestamp : datetime) (uuid_str : string) : string :=
  let year := Strftime.year4 timestamp in
  let month := Strftime.month2 timestamp in
  let day := Strftime.day2 timestamp in
  String.append (Legacy.category_value data_type)
 (String.append "/" (String.append source
 (String.append "/year=" (String.append year
 (String.append "/month=" (String.append month
 (String.append "/day=" (String.append day
 (String.append "/" (data_filename timestamp uuid_str)))))))))).

(** The key [upload_dataframe] builds before it uploads: category and
    source as given, the date fields and the file name formatted from
    the timestamp. *)
Definition upload_dataframe_key (bucket : Legacy.BucketName)
    (category : Legacy.DataCategory) (source : string)
    (timestamp : datetime) (uuid_str : string) : result Legacy.StorageKey :=
  Legacy.StorageKey_new bucket category source
    (Strftime.year4 timestamp) (Strftime.month2 timestamp)
    (Strftime.day2 timestamp) (data_filename timestamp uuid_str).

End LegacyMinio.

(** ** connectors/data/transformer.py: column standardisation and
       partition metadata *)

Module Columns.

Import Frame H5N1.

(** The [KeyError] of [df[labels]]: the labels that are no columns. *)
Inductive key_error : Type := KeyError (missing : list string).

(** The positions of the columns that carry a label, from the left: a
    frame may carry a label more than once. *)
Fixpoint positions_from (i : nat) (cols : list string) (col : string)
  : list nat :=
  match cols with
  | [] => []
  | c :: cs =>
      if String.eqb c col then i :: positions_from (S i) cs col
      else positions_from (S i) cs col
  end.

Definition positions (cols : list string) (col : string) : list nat :=
  positions_from 0 cols col.

(** [df[col] = None] for a label that is no column yet: a new last
    column of None. *)
Definition assign_none (df : DataFrame) (col : string) : DataFrame :=
  mkDataFrame (columns df ++ [col]) (map (fun row => row ++ [PNone]) (rows df)).

(** [df[labels]] for a list of labels: for each label in turn, every
    column that carries it; [KeyError] when some label is carried by no
    column. *)
Definition select (df : DataFrame) (labels : list string)
  : key_error + DataFrame :=
  match filter (fun l => negb (mem l (columns df))) labels with
  | [] =>
      let picked := flat_map (positions (columns df)) labels in
      inr (mkDataFrame
             (map (fun i => nth i (columns df) EmptyString) picked)
             (map (fun row => map (fun i => nth i row PNaN) picked)
                  (rows df)))
  | missing => inl (KeyError missing)
  end.

(** The loop of [standardize_columns] over [target_columns]. *)
Definition fill_columns (fill_missing : bool) (df : DataFrame)
    (target_columns : list string) : DataFrame :=
  fold_left
    (fun result_df col =>
       if negb (mem col (columns result_df)) && fill_missing
       then assign_none result_df col else result_df)
    target_columns df.

Definition standardize_columns (df : DataFrame) (target_columns : list string)
    (fill_missing : bool) : key_error + DataFrame :=
  let result_df := fill_columns fill_missing df target_columns in
  select result_df target_columns.

(** The cells of the column at a position. *)
Definition cells_at (df : DataFrame) (i : nat) : list pyval :=
  map (fun row => nth i row PNaN) (rows df).

(** [series.isna().all()] *)
Definition isna_all (cells : list pyval) : bool :=
  forallb (fun v => negb (notna v)) cells.

(** [df[col].isna().all()] where the code asks for its truth value.
    For a label that one column carries [df[col]] is that column; for a
    label that is repeated it is a frame, [isna().all()] is a Series
    with one entry per column, and asking for its truth value raises. *)
Definition all_null (df : DataFrame) (col : string) : result bool :=
  match positions (columns df) col with
  | [i] => ok (isna_all (cells_at df i))
  | _ =>
      raise (ValueError "The truth value of a Series is ambiguous. Use a.empty, a.bool(), a.item(), a.any() or a.all().")
  end.

(** [df[col]] as the list of its cells, for a label that one column
    carries. *)
Definition column (df : DataFrame) (col : string) : list pyval :=
  match positions (columns df) col with
  | i :: _ => cells_at df i
  | [] => []
  end.

(** One of the two optional entries of [extract_partition_metadata]:
    [series.iloc[0]] raises IndexError on an empty series. *)
Definition partition_entry (df : DataFrame) (name : string) (metadata : dict)
  : result dict :=
  if mem name (columns df) then
    null <- all_null df name ;;
    if negb null then
      v <- Py.index (column df name) 0 ;;
      ok (metadata ++ [(name, v)])
    else ok metadata
  else ok metadata.

(** [extract_partition_metadata(df)]; [now] is the clock reading. *)
Definition extract_partition_metadata (now : datetime) (df : DataFrame)
  : result dict :=
  let metadata := [("year", PInt (dt_year now));
                   ("month", PInt (dt_month now));
                   ("day", PInt (dt_day now))] in
  metadata <- partition_entry df "source" metadata ;;
  metadata <- partition_entry df "region" metadata ;;
  ok metadata.

End Columns.

(** ** connectors/data/clients/duck_db.py: query_to_dataframe *)

Module Query.

Import Frame DuckDB.

(** The filter values told apart by [isinstance(value, str)] and by
    what an f-string prints for them. *)
Inductive filter_value : Type :=
| FStr (s : string)
| FInt (z : Z)
| FBool (b : bool)
| FNone.

(** [s.replace(a, b)] for a one-character [a]. *)
Fixpoint replace_with (a : ascii) (b : string) (s : string) : string :=
  match s with
  | EmptyString => EmptyString
  | String c s' =>
      if Ascii.eqb c a then String.append b (replace_with a b s')
      else String c (replace_with a b s')
  end.

(** [sep.join(xs)] *)
Fixpoint join (sep : string) (xs : list string) : string :=
  match xs with
  | [] => EmptyString
  | [x] => x
  | x :: xs' => String.append x (String.append sep (join sep xs'))
  end.

(** One entry of [conditions]. *)
Definition condition (field : string) (value : filter_value) : string :=
  match value with
  | FStr value =>
      let value := replace_with "'" "''" value in
      String.append field
        (String.append " = '" (String.append value "'"))
  | FInt z => String.append field (String.append " = " (Py.str z))
  | FBool true => String.append field " = True"
  | FBool false => String.append field " = False"
  | FNone => String.append field " = None"
  end.

Definition is_table (query_or_table : string) : bool :=
  negb (Py.contains_char " " query_or_table)
  && negb (Py.contains_char "(" query_or_table).

(** The text [query_to_dataframe] hands to [execute_query].  [filters]
    is [None] or a dict, whose items come in insertion order. *)
Definition query_text (query_or_table : string)
    (filters : option (list (string * filter_value))) : string :=
  if is_table query_or_table then
    let query := String.append "SELECT * FROM " query_or_table in
    match filters with
    | None | Some [] => query
    | Some filters =>
        let conditions := map (fun fv => condition (fst fv) (snd fv)) filters in
        match conditions with
        | [] => query
        | _ => String.append query
                 (String.append " WHERE " (join " AND " conditions))
        end
    end
  else query_or_table.

Section Client.

Context {V : Type} `{SqlValue V}.

(** The engine answering a query text with a frame, or raising. *)
Variable run_query : string -> result DataFrame.

(** [execute_query]: logs and re-raises. *)
Definition execute_query (query : string) : db V DataFrame :=
  catch (execute (lift (run_query query))) (fun e => throw e).

Definition query_to_dataframe (query_or_table : string)
    (filters : option (list (string * filter_value))) : db V DataFrame :=
  catch (execute_query (query_text query_or_table filters))
        (fun e => throw e).

End Client.

End Query.

(** ** connectors/data/clients/minio.py: uploads *)

Module ObjectStore.

Import Frame.

(** The server as the client's calls see it: buckets and, in each, the
    objects by name with their bytes.  It answers every request: a
    failure of the network or of a permission is not part of it.  The
    order of a listing is the order of arrival. *)
Definition bytes : Type := string.
Definition objects : Type := list (string * bytes).
Definition server : Type := list (string * objects).

Definition no_such_bucket {A} : result A :=
  raise (S3Error "NoSuchBucket").
Definition no_such_key {A} : result A :=
  raise (S3Error "NoSuchKey").

(** [s.rstrip(c)] for one character. *)
Fixpoint rstrip (c : ascii) (s : string) : string :=
  match s with
  | EmptyString => EmptyString
  | String x s' =>
      match rstrip c s' with
      | EmptyString => if Ascii.eqb x c then EmptyString
                       else String x EmptyString
      | r => String x r
      end
  end.

(** [s[:n]] *)
Fixpoint take (n : nat) (s : string) : string :=
  match n, s with
  | S n', String x s' => String x (take n' s')
  | _, _ => EmptyString
  end.

Definition get_object_uris (s : Minio.store) (bucket prefix : string)
  : result (list string) :=
  match (object_paths <- Minio.list_objects s bucket prefix ;;
         ok (map (Minio.uri bucket) object_paths)) with
  | inr uris => ok uris
  | inl e => raise e
  end.

Section Client.

(** The libraries under the client.  [check_bucket_name] is the check
    the MinIO client makes on the bucket name in every call that names
    a bucket, raising for a name it refuses.  [to_parquet] is
    [pa.Table.from_pandas] followed by [pq.write_table]: the parquet
    bytes of a frame, or the exception of a frame that cannot be
    encoded.  [from_parquet] is [pq.read_table] followed by
    [to_pandas]. *)
Variable check_bucket_name : string -> result unit.
Variable to_parquet : DataFrame -> result bytes.
Variable from_parquet : bytes -> result DataFrame.

(** What an f-string prints for a cell. *)
Variable format_cell : pyval -> string.

Definition bucket_exists (srv : server) (bucket_name : string)
  : result bool :=
  _ <- check_bucket_name bucket_name ;;
  ok match DuckDB.assoc bucket_name srv with
     | Some _ => true
     | None => false
     end.

Definition make_bucket (srv : server) (bucket_name : string)
  : result unit * server :=
  match check_bucket_name bucket_name with
  | inl e => (raise e, srv)
  | inr _ =>
      match DuckDB.assoc bucket_name srv with
      | Some _ => (raise (S3Error "BucketAlreadyOwnedByYou"), srv)
      | None => (ok tt, srv ++ [(bucket_name, [])])
      end
  end.

(** [put_object]: a name that is held already is overwritten. *)
Definition put (objs : objects) (name : string) (data : bytes) : objects :=
  match DuckDB.assoc name objs with
  | Some _ => DuckDB.update name data objs
  | None => objs ++ [(name, data)]
  end.

Definition put_object (srv : server) (bucket_name object_name : string)
    (data : bytes) : result unit * server :=
  match check_bucket_name bucket_name with
  | inl e => (raise e, srv)
  | inr _ =>
      match DuckDB.assoc bucket_name srv with
      | Some objs =>
          (ok tt, DuckDB.update bucket_name (put objs object_name data) srv)
      | None => (no_such_bucket, srv)
      end
  end.

(** [get_object] followed by reading the response, and [stat_object]. *)
Definition get_object (srv : server) (bucket_name object_name : string)
  : result bytes :=
  _ <- check_bucket_name bucket_name ;;
  match DuckDB.assoc bucket_name srv with
  | Some objs =>
      match DuckDB.assoc object_name objs with
      | Some data => ok data
      | None => no_such_key
      end
  | None => no_such_bucket
  end.

Definition stat_object (srv : server) (bucket_name object_name : string)
  : result unit :=
  _ <- get_object srv bucket_name object_name ;; ok tt.

(** [client.list_objects(bucket, prefix, recursive=True)] with the names
    read off: what [Minio.list_objects] starts from. *)
Definition listing (srv : server) : Minio.store :=
  fun bucket_name prefix =>
    _ <- check_bucket_name bucket_name ;;
    match DuckDB.assoc bucket_name srv with
    | Some objs => ok (filter (String.prefix prefix) (map fst objs))
    | None => no_such_bucket
    end.

(** [ensure_bucket_exists]: logs and re-raises. *)
Definition ensure_bucket_exists (srv : server) (bucket_name : string)
  : result unit * server :=
  match bucket_exists srv bucket_name with
  | inl e => (raise e, srv)
  | inr true => (ok tt, srv)
  | inr false => make_bucket srv bucket_name
  end.

(** [upload_object]: logs and re-raises. *)
Definition upload_object (srv : server) (bucket_name object_path : string)
    (data : bytes) : result string * server :=
  match ensure_bucket_exists srv bucket_name with
  | (inl e, srv1) => (raise e, srv1)
  | (inr _, srv1) =>
      match put_object srv1 bucket_name object_path data with
      | (inl e, srv2) => (raise e, srv2)
      | (inr _, srv2) => (ok (Minio.uri bucket_name object_path), srv2)
      end
  end.

(** The loop of [_create_partitioned_path]: the first non-null cell of
    each partition column that the frame has, or the word unknown. *)
Fixpoint partition_segments (df : DataFrame) (partition_cols : list string)
    (partition_path : string) : result string :=
  match partition_cols with
  | [] => ok partition_path
  | col :: rest =>
      if mem col (columns df) then
        value <- (null <- Columns.all_null df col ;;
                  if negb null
                  then v <- Py.index (filter notna (Columns.column df col)) 0 ;;
                       ok (format_cell v)
                  else ok "unknown") ;;
        partition_segments df rest
          (String.append partition_path
             (String.append "/" (String.append col
                (String.append "=" value))))
      else partition_segments df rest partition_path
  end.

Definition _create_partitioned_path (uuid_str : string) (base_path : string)
    (df : DataFrame) (partition_cols : list string) (timestamp : string)
  : result string :=
  let base_path := rstrip "/" base_path in
  partition_path <- partition_segments df partition_cols EmptyString ;;
  ok (String.append base_path (String.append partition_path
       (String.append "/" (String.append timestamp
          (String.append "_" (String.append (take 8 uuid_str) ".parquet")))))).

(** The object path [upload_parquet] decides on. *)
Definition final_path (uuid_str : string) (path : string) (df : DataFrame)
    (partition_cols : option (list string)) (timestamp : string)
  : result string :=
  match partition_cols with
  | Some (col :: cols) =>
      _create_partitioned_path uuid_str path df (col :: cols) timestamp
  | _ =>
      ok (String.append (rstrip "/" path)
            (String.append "/" (String.append timestamp ".parquet")))
  end.

(** [upload_parquet(bucket, path, dataframe, partition_cols)];
    [timestamp] is the formatted clock reading and [uuid_str] the
    identifier drawn for a partitioned path.  The bucket is ensured
    first, then the path is decided, then the frame is encoded, then
    the bytes are uploaded; whatever raises is logged and re-raised. *)
Definition upload_parquet (timestamp uuid_str : string) (srv : server)
    (bucket path : string) (dataframe : DataFrame)
    (partition_cols : option (list string)) : result string * server :=
  match ensure_bucket_exists srv bucket with
  | (inl e, srv1) => (raise e, srv1)
  | (inr _, srv1) =>
      match final_path uuid_str path dataframe partition_cols timestamp with
      | inl e => (raise e, srv1)
      | inr final_path =>
          match to_parquet dataframe with
          | inl e => (raise e, srv1)
          | inr buffer => upload_object srv1 bucket final_path buffer
          end
      end
  end.

(** [download_object] and [download_parquet]: log and re-raise. *)
Definition download_object (srv : server) (bucket_name object_path : string)
  : result bytes :=
  match get_object srv bucket_name object_path with
  | inr data => ok data
  | inl e => raise e
  end.

Definition download_parquet (srv : server) (bucket path : string)
  : result DataFrame :=
  match (data <- download_object srv bucket path ;; from_parquet data) with
  | inr df => ok df
  | inl e => raise e
  end.

(** [object_exists]: an S3Error of [stat_object] is answered with
    False; any other exception passes. *)
Definition object_exists (srv : server) (bucket path : string)
  : result bool :=
  match stat_object srv bucket path with
  | inr _ => ok true
  | inl (S3Error _) => ok false
  | inl e => raise e
  end.

End Client.

End ObjectStore.

(** ** connectors/data/orchestrator.py: ingestion, export, archiving
       and retrieval *)

Module Flows.

Import Frame DuckDB Orchestrator.

Section World.

Context {V : Type} `{SqlValue V}.
Context {M : Type}.

(** The model class, the relation the engine reads from a pandas
    frame, and the libraries under the storage client. *)
Variable model_name : string.
Variable model_dump : M -> dict.
Variable model_validate : dict -> result M.
Variable as_relation : DataFrame -> relation V.
Variable check_bucket_name : string -> result unit.
Variable to_parquet : DataFrame -> result ObjectStore.bytes.
Variable format_cell : pyval -> string.

(** [self.db.insert_dataframe(table_name, df)] as every method of the
    orchestrator writes it: the frame is the second positional
    argument. *)
Definition insert_frame (w : world V) (table_name : string) (df : DataFrame)
    (now : string) : db V Z :=
  insert_dataframe (db_read_only w) table_name (ArgFrame (as_relation df)) now
    (if scan_frames w then Some (as_relation df) else None).

Definition ingest_models_to_database (w : world V) (models : list M)
    (table_name now : string) : db V Z :=
  match models with
  | [] => ret 0%Z
  | _ =>
      let df := fst (Transformer.model_to_dataframe model_dump models) in
      dbind (insert_frame w table_name df now)
        (fun num_inserted => ret num_inserted)
  end.

(** [get_models_from_database(query_or_table, model_class, filters)] *)
Definition get_models_from_database
    (run_query : string -> result DataFrame) (query_or_table : string)
    (filters : option (list (string * Query.filter_value)))
  : db V (list M) :=
  dbind (Query.query_to_dataframe run_query query_or_table filters) (fun df =>
  if empty df then ret []
  else
    let models :=
      fst (Transformer.dataframe_to_models model_name model_validate df) in
    ret models).

(** [self.storage.upload_parquet(bucket, path, df, partition_cols)] *)
Definition store_parquet (upload_at uuid_str : string)
    (srv : ObjectStore.server) (bucket path : string) (df : DataFrame)
    (partition_cols : option (list string))
  : result string * ObjectStore.server :=
  ObjectStore.upload_parquet check_bucket_name to_parquet format_cell
    upload_at uuid_str srv bucket path df partition_cols.

(** [export_database_to_storage(table_name, bucket, path_prefix,
    partition_cols)]: the state is the object store and the connection;
    [upload_at] and [uuid_str] are the clock reading and the identifier
    of [upload_parquet]. *)
Definition export_database_to_storage
    (run_query : string -> result DataFrame)
    (upload_at uuid_str : string)
    (table_name bucket path_prefix : string)
    (partition_cols : option (list string))
    (srv : ObjectStore.server) (c : connection V)
  : result string * ObjectStore.server * connection V :=
  match Query.query_to_dataframe run_query table_name None c with
  | (inl e, c') => (raise e, srv, c')
  | (inr df, c') =>
      if empty df then (ok EmptyString, srv, c')
      else
        match store_parquet upload_at uuid_str srv bucket path_prefix df
                partition_cols with
        | (inl e, srv') => (raise e, srv', c')
        | (inr uri, srv') => (ok uri, srv', c')
        end
  end.





End World.

End Flows.

(** * Part II.  Vocabulary of the statements, and scenarios *)

(** ** Valid date fields *)

Module Validity.

Import Storage.

(** The date fields as the data model words them: a year of exactly four
    digits, a month and a day that are numerals with a value in range. *)
Definition year_valid (y : string) : Prop :=
  Py.len y = 4 /\ Py.all_chars Py.is_digit_char y = true.

Definition numeral_in (lo hi : Z) (s : string) : Prop :=
  Py.isdigit s = true /\ exists n, Py.int s = inr n /\ (lo <= n <= hi)%Z.

Definition date_fields_valid (y m d : string) : Prop :=
  year_valid y /\ numeral_in 1 12 m /\ numeral_in 1 31 d.

(** The guard of one [month]/[day] check fires or [int] raises, unless
    the field is a numeral in range. *)
Definition field_check (lo hi : Z) (s : string) : result bool :=
  if negb (Py.isdigit s) then ok true
  else n <- Py.int s ;; ok (negb (in_range lo hi n)).

End Validity.

(** ** Segments of a path *)

Module Segments.

Import Storage.

(** The i-th '/'-segment, and the value [seg.split("=")[1]] of a
    segment. *)
Definition segment (path : string) (i : nat) : string :=
  nth i (Py.split "/" path) EmptyString.

Definition segment_count (path : string) : nat :=
  length (Py.split "/" path).

Definition value_of (seg : string) : string :=
  nth 1 (Py.split "=" seg) EmptyString.

Definition has_values (path : string) : bool :=
  Py.contains_char "=" (segment path 2)
  && Py.contains_char "=" (segment path 3)
  && Py.contains_char "=" (segment path 4).

(** What the partition-key component calls a malformed path, word for
    word: too few segments, an unknown leading category, or a third,
    fourth or fifth segment that does not start with its expected key. *)
Definition malformed (path : string) : bool :=
  (segment_count path <? 6)
  || negb (String.eqb (segment path 0) "avian_cases")
  || negb (String.prefix "year=" (segment path 2))
  || negb (String.prefix "month=" (segment path 3))
  || negb (String.prefix "day=" (segment path 4)).

Definition categoria_invalida (s : string) : exn :=
  ValueError (String.append "Categoria "
    (String.append "inv" (String (Py.chr 225) (String.append "lida: " s)))).

Definition caminho_invalido (path : string) : exn :=
  ValueError (String.append "Caminho " (String.append invalido path)).

(** The normalisation the component design words: lower-case, then every
    non-alphanumeric character becomes '_'. *)
Definition normalize_non_alnum (s : string) : string :=
  Py.map_chars (fun c => if Py.is_alnum_char c then c else "_"%char)
    (Py.lower s).

End Segments.

(** ** Finite ranges of integers *)

Module Ranges.

Fixpoint zrange (lo : Z) (cnt : nat) : list Z :=
  match cnt with
  | O => []
  | S cnt' => lo :: zrange (lo + 1) cnt'
  end.

Definition result_is (r : result Z) (n : Z) : bool :=
  match r with
  | inr m => (m =? n)%Z
  | inl _ => false
  end.

End Ranges.

(** ** Records, batches and a staged file *)

Module Scenario.

Import H5N1.

Definition midnight (y m d : Z) : datetime := mkDatetime y m d 0 0 0 0.

Definition case_from (src : string) (t : datetime) : AvianFluCase :=
  mkAvianFluCase "case-1" t
    (mkBirdInfo "Gallus gallus domesticus" DOMESTIC None)
    (mkLocation None None None None)
    (mkMetadata src UNVERIFIED t false).

Definition wahis : AvianFluCase :=
  case_from "OIE WAHIS" (midnight 2023 5 15).

Definition wahis_hyphen : AvianFluCase :=
  case_from "OIE-WAHIS" (midnight 2023 5 15).

End Scenario.

Module Batch.

Import Frame Transformer H5N1 CaseModel.

Definition noon : datetime := mkDatetime 2024 3 9 12 0 0 0.

Definition numbered (i : Z) (lat : option Q) : AvianFluCase :=
  mkAvianFluCase (String.append "case-" (Py.str i))
    (mkDatetime 2024 3 (1 + i) 8 30 0 0)
    (mkBirdInfo "Anas platyrhynchos" WILD (Some (10 * i)%Z))
    (mkLocation (Some "Sul") None lat (Some (inject_Z (- 51))))
    (mkMetadata "IBAMA" MEDIUM noon true).

Definition ten_cases : list AvianFluCase :=
  [numbered 0 None; numbered 1 (Some (inject_Z (- 30)));
   numbered 2 None; numbered 3 (Some (inject_Z 5));
   numbered 4 None; numbered 5 (Some (Qmake (- 45) 2));
   numbered 6 None; numbered 7 (Some (inject_Z 90));
   numbered 8 None; numbered 9 (Some (inject_Z (- 90)))].

Definition row_of (c : AvianFluCase) : list pyval :=
  map (cell (model_dump c)) (keys (model_dump c)).

(** A row whose cell in column [col] is missing. *)
Definition lose (col : nat) (row : list pyval) : list pyval :=
  firstn col row ++ PNaN :: skipn (S col) row.

(** The table of the ten cases in which the third row has lost its
    [case_id] and the seventh its [bird]. *)
Definition damaged_rows : list (list pyval) :=
  match map row_of ten_cases with
  | r0 :: r1 :: r2 :: r3 :: r4 :: r5 :: r6 :: rest =>
      r0 :: r1 :: lose 0 r2 :: r3 :: r4 :: r5 :: lose 2 r6 :: rest
  | rs => rs
  end.

Definition damaged_frame : DataFrame :=
  mkDataFrame (keys (model_dump (numbered 0 None))) damaged_rows.

Fixpoint distinct (xs : list string) : bool :=
  match xs with
  | [] => true
  | x :: xs' => negb (mem x xs') && distinct xs'
  end.

End Batch.

(** ** A staged file and a target table *)

Module SyncScenario.

Import DuckDB Orchestrator.

Definition cases_table : table string :=
  mkTable [("case_id", true); ("region", false)]
          [[Some "k1"; Some "Sul"]].

Definition log_table : table string :=
  mkTable [("case_id", false); ("region", false)]
          [[Some "k1"; Some "Sul"]].

Definition staged : relation string :=
  mkRelation ["case_id"; "region"]
    [[Some "k1"; Some "Sul"]; [Some "k2"; Some "Norte"];
     [Some "k3"; Some "Norte"]].

Definition fresh : relation string :=
  mkRelation ["case_id"; "region"]
    [[Some "k2"; Some "Norte"]; [Some "k3"; Some "Norte"]].

Definition start : connection string :=
  mkConnection [("avian_cases", cases_table); ("audit_log", log_table)] [] [].

Definition one_object : Minio.store :=
  fun bucket prefix =>
    if String.eqb bucket "raw"
    then ok ["avian_cases/ibama/year=2024/month=03/day=09/a.parquet";
             "avian_cases/ibama/readme.txt"]
    else raise (S3Error "NoSuchBucket").

Definition reader (uris : list string) : result (relation string) :=
  ok staged.

Definition the_world (scan : bool) : world string :=
  mkWorld one_object reader false scan.

(** An object store that cannot be reached. *)
Definition broken_store : Minio.store :=
  fun _ _ => raise (S3Error "connection refused").

End SyncScenario.

(** ** Outcome of the conversion loop *)

Module Outcome.

Import Frame Transformer.

Section ModelClass.

Context {M : Type}.
Variable model_validate : dict -> result M.

(** The rows that validate, and the exceptions of those that do not, in
    row order. *)
Fixpoint successes (cols : list string) (rs : list (list pyval)) : list M :=
  match rs with
  | [] => []
  | row :: rs' =>
      match convert_row model_validate cols row with
      | inr m => m :: successes cols rs'
      | inl _ => successes cols rs'
      end
  end.

Fixpoint failures (cols : list string) (rs : list (list pyval)) : list exn :=
  match rs with
  | [] => []
  | row :: rs' =>
      match convert_row model_validate cols row with
      | inr _ => failures cols rs'
      | inl e => e :: failures cols rs'
      end
  end.

End ModelClass.

(** The top-level fields of AvianFluCase, in declaration order. *)
Definition fields : list string :=
  ["case_id"; "detection_date"; "bird"; "location"; "metadata"].

End Outcome.

(** ** Effects of a database computation *)

Module Effects.

Import DuckDB.

Section Effects.

Context {V : Type} `{SqlValue V}.

Definition binder_error {A} (r : result A) : Prop :=
  exists msg, r = inl (BinderException msg).

(** The temporary table of a call at clock reading [now], and the
    connection once it has been created. *)
Definition temp_name (now : string) : string :=
  String.append "temp_insert_" now.

Definition staged_conn (c : connection V) (now : string) (df : relation V)
  : connection V :=
  mkConnection (catalog c) ((temp_name now, df) :: temp c) (faults c).

(** A computation that leaves every table as it is. *)
Definition keeps_catalog {A} (m : db V A) : Prop :=
  forall c, catalog (snd (m c)) = catalog c.

(** Failure of a computation on every connection. *)
Definition always_raises {A} (m : db V A) : Prop :=
  forall c, exists e, fst (m c) = inl e.

(** The staged rows projected on the columns of the table, the rows
    the table stores for them once they are cast to the column types
    (none when a value does not convert), and the connection after rows
    have been appended. *)
Definition staged_values (t : table V) (df : relation V)
  : list (list (cell V)) :=
  map (fun row => map (value_at (rel_columns df) row) (column_names t))
      (rel_rows df).

Definition stored_values (name : string) (t : table V) (df : relation V)
  : option (list (list (cell V))) :=
  cast_rows name (column_names t) (staged_values t df).

Definition appended (c : connection V) name (t : table V)
    (new : list (list (cell V))) : connection V :=
  mkConnection
    (update name (mkTable (tbl_columns t) (tbl_rows t ++ new)) (catalog c))
    (temp c) (faults c).

Definition conversion_error : exn :=
  ConversionException "Could not convert a value to the type of its column".

Definition constraint_error : exn :=
  ConstraintException "Duplicate key or NULL violates primary key constraint".

End Effects.

End Effects.

(** ** Times of day, frames and SQL string literals *)

Module Shapes.

Import Frame H5N1.

(** Python's [datetime] keeps the time of day in these bounds. *)
Definition time_valid (t : datetime) : Prop :=
  (0 <= dt_hour t <= 23)%Z /\ (0 <= dt_minute t <= 59)%Z
  /\ (0 <= dt_second t <= 59)%Z.

(** Every row has one cell per column label, as in every frame pandas
    builds. *)
Definition rectangular (df : DataFrame) : Prop :=
  Forall (fun row => length row = length (columns df)) (rows df).

(** A standard SQL string literal, read from the character after the
    opening quote: a doubled quote stands for one quote, a single quote
    ends the literal.  The result is the value and the text that
    follows the closing quote. *)
Fixpoint read_string_body (s : string) : option (string * string) :=
  match s with
  | EmptyString => None
  | String c s' =>
      if Ascii.eqb c "'" then
        match s' with
        | String c' s'' =>
            if Ascii.eqb c' "'" then
              match read_string_body s'' with
              | Some (v, rest) => Some (String "'" v, rest)
              | None => None
              end
            else Some (EmptyString, s')
        | EmptyString => Some (EmptyString, s')
        end
      else
        match read_string_body s' with
        | Some (v, rest) => Some (String c v, rest)
        | None => None
        end
  end.

Definition read_string (s : string) : option (string * string) :=
  match s with
  | String c s' => if Ascii.eqb c "'" then read_string_body s' else None
  | EmptyString => None
  end.

(** The cell of a row under a label, in a frame whose labels are
    distinct. *)
Definition at_label (cols : list string) (row : list pyval) (col : string)
  : pyval :=
  match DuckDB.position cols col with
  | Some i => nth i row PNaN
  | None => PNaN
  end.

(** The cells of a frame under a label. *)
Definition cells_under (df : DataFrame) (name : string) : list pyval :=
  map (fun row => at_label (columns df) row name) (rows df).

(** The cell of the first row under a label. *)
Definition first_cell (df : DataFrame) (name : string) : pyval :=
  match rows df with
  | row :: _ => at_label (columns df) row name
  | [] => PNaN
  end.

(** The entry a partition column contributes to the metadata: none when
    the frame lacks the column or holds only nulls in it. *)
Definition entry (df : DataFrame) (name : string) : dict :=
  if mem name (columns df)
     && negb (Columns.isna_all (cells_under df name))
  then [(name, first_cell df name)] else [].


Definition starts_with_quote (s : string) : bool :=
  match s with
  | String c _ => Ascii.eqb c "'"
  | EmptyString => false
  end.

End Shapes.

(** ** Further scenarios *)

Module MoreScenarios.

Import Frame H5N1 DuckDB.

Definition afternoon : datetime := mkDatetime 2024 3 9 15 4 5 0.

(** A frame of two records with a missing region in the first. *)
Definition two_rows : DataFrame :=
  mkDataFrame ["case_id"; "region"; "source"]
    [[PStr "k1"; PNaN; PStr "IBAMA"]; [PStr "k2"; PStr "Sul"; PNone]].

Definition empty_server : ObjectStore.server := [].

(** A numeral of [n] zeros. *)
Fixpoint zeros (n : nat) : string :=
  match n with
  | O => EmptyString
  | S n' => String "0" (zeros n')
  end.

(** A table with an INTEGER column.  Values are written as text: a value
    converts to INTEGER when it is a decimal numeral, and is stored as
    the print of its number; VARCHAR takes every text as it is. *)
Definition declared_types (table column v : string) : option string :=
  if String.eqb column "birds" then
    match Py.int v with
    | inr n => Some (Py.str n)
    | inl _ => None
    end
  else Some v.

Definition typed_text : SqlValue string :=
  {| veqb := String.eqb; veqb_eq := String.eqb_eq;
     convert := declared_types |}.

Definition counts_table : table string :=
  mkTable [("site", true); ("birds", false)] [[Some "A"; Some "3"]].

Definition counts_start : connection string :=
  mkConnection [("surveillance", counts_table)] [] [].

Definition new_counts : relation string :=
  mkRelation ["site"; "birds"] [[Some "B"; Some "012"]; [Some "C"; None]].

Definition bad_counts : relation string :=
  mkRelation ["site"; "birds"] [[Some "B"; Some "12"]; [Some "C"; Some "x7"]].

(** Libraries for the scenarios: a client that refuses bucket names
    shorter than three characters, and an encoder that refuses repeated
    column labels and otherwise writes the labels. *)
Definition name_check (bucket_name : string) : result unit :=
  if String.length bucket_name <? 3
  then raise (ValueError "Bucket name cannot be less than 3 characters")
  else ok tt.

Definition encoder (df : DataFrame) : result ObjectStore.bytes :=
  if Batch.distinct (columns df)
  then ok (Query.join "," (columns df))
  else raise (ValueError "Duplicate column names found").

End MoreScenarios.

(** * Part III.  Properties *)

(** ** The embedding at a few inputs *)

Example split_path :
  Py.split "/" "a/b//c" = ["a"; "b"; ""; "c"].
Proof. reflexivity. Qed.

Example split_empty : Py.split "/" "" = [""].
Proof. reflexivity. Qed.

Example str_2023 :
  Py.str 2023 = "2023" /\ Py.fmt_02d 5 = "05" /\ Py.str 0 = "0"
  /\ Py.str 1000 = "1000" /\ Py.str 999 = "999" /\ Py.fmt_02d 12 = "12".
Proof. repeat split; reflexivity. Qed.

Example lower_replace :
  Py.replace " " "_" (Py.lower "OIE WAHIS") = "oie_wahis".
Proof. reflexivity. Qed.

Example from_path_good :
  Storage.from_path Storage.RAW
    "avian_cases/oie_wahis/year=2023/month=05/day=15/data.parquet"
  = inr (Storage.mkStorageKey Storage.RAW Storage.AVIAN_CASES "oie_wahis"
           "2023" "05" "15" "data.parquet").
Proof. reflexivity. Qed.

Example from_path_keys_unchecked :
  Storage.from_path Storage.RAW "avian_cases/s/a=2023/b=05/c=15/f"
  = inr (Storage.mkStorageKey Storage.RAW Storage.AVIAN_CASES "s"
           "2023" "05" "15" "f").
Proof. reflexivity. Qed.

Example from_path_no_equals :
  Storage.from_path Storage.RAW "avian_cases/s/2023/05/15/f"
  = inl (IndexError "list index out of range").
Proof. reflexivity. Qed.

(** ** Facts about the string primitives *)

Section StringFacts.

Import Py.

Lemma append_assoc (a b c : string) :
  String.append (String.append a b) c = String.append a (String.append b c).
Proof.
  induction a as [|x a IH]; simpl; [reflexivity | now rewrite IH].
Qed.

Lemma split_not_nil sep s : split sep s <> [].
Proof.
  destruct s as [|c s]; simpl; [discriminate|].
  destruct (Ascii.eqb c sep); [discriminate|].
  destruct (split sep s); discriminate.
Qed.

Lemma contains_char_cons c x s :
  contains_char c (String x s) = false ->
  Ascii.eqb x c = false /\ contains_char c s = false.
Proof.
  unfold contains_char; simpl.
  destruct (Ascii.eqb x c); simpl; [discriminate|].
  intros H; split; [reflexivity | exact H].
Qed.

(** A segment free of the separator followed by the separator is cut
    off as the first element. *)
Lemma split_segment sep a rest :
  contains_char sep a = false ->
  split sep (String.append a (String sep rest)) = a :: split sep rest.
Proof.
  induction a as [|x a IH]; intros H; simpl.
  - now rewrite Ascii.eqb_refl.
  - apply contains_char_cons in H as [Hx Ha].
    rewrite Hx, (IH Ha). reflexivity.
Qed.

Lemma split_last sep a :
  contains_char sep a = false -> split sep a = [a].
Proof.
  induction a as [|x a IH]; intros H; simpl; [reflexivity|].
  apply contains_char_cons in H as [Hx Ha].
  rewrite Hx, (IH Ha). reflexivity.
Qed.

Lemma contains_char_append c a b :
  contains_char c a = false -> contains_char c b = false ->
  contains_char c (String.append a b) = false.
Proof.
  induction a as [|x a IH]; simpl; intros Ha Hb; [exact Hb|].
  apply contains_char_cons in Ha as [Hx Ha].
  unfold contains_char in *; simpl. rewrite Hx; simpl.
  now apply IH.
Qed.

Lemma all_chars_excludes (p : ascii -> bool) c s :
  all_chars p s = true -> p c = false -> contains_char c s = false.
Proof.
  intros Hs Hc. induction s as [|x s IH]; [reflexivity|].
  simpl in Hs. apply andb_prop in Hs as [Hx Hs].
  unfold contains_char in *; simpl.
  destruct (Ascii.eqb_spec x c) as [->|_]; [congruence|].
  simpl. now apply IH.
Qed.

Lemma isdigit_all s : isdigit s = true -> all_chars is_digit_char s = true.
Proof. destruct s; [discriminate | trivial]. Qed.

Lemma isdigit_no_slash s : isdigit s = true -> contains_char "/" s = false.
Proof.
  intros H. apply all_chars_excludes with (p := is_digit_char);
    [now apply isdigit_all | reflexivity].
Qed.

Lemma isdigit_no_equals s : isdigit s = true -> contains_char "=" s = false.
Proof.
  intros H. apply all_chars_excludes with (p := is_digit_char);
    [now apply isdigit_all | reflexivity].
Qed.

Lemma decimal_is_digit s :
  all_chars is_decimal_char s = true -> all_chars is_digit_char s = true.
Proof.
  induction s as [|x s IH]; simpl; [trivial|].
  intros H. apply andb_prop in H as [Hx Hs].
  rewrite (IH Hs). unfold is_digit_char. rewrite Hx. reflexivity.
Qed.

(** [int] succeeds exactly on the non-empty all-decimal strings, and
    those satisfy [isdigit]. *)
Lemma int_ok_inv s n :
  int s = inr n ->
  s <> EmptyString /\ all_chars is_decimal_char s = true /\ n = int_acc 0 s.
Proof.
  unfold int. destruct s as [|c s]; [discriminate|].
  destruct (all_chars is_decimal_char (String c s)) eqn:E; [|discriminate].
  destruct (4300 <? Z.of_nat (len (String c s)))%Z; [discriminate|].
  intros [= <-]. split; [discriminate | split; trivial].
Qed.

Lemma int_cases s :
  (exists n, int s = inr n) \/ exists msg, int s = inl (ValueError msg).
Proof.
  unfold int. destruct s as [|c s]; [right; eexists; reflexivity|].
  destruct (all_chars is_decimal_char (String c s));
    [|right; eexists; reflexivity].
  destruct (4300 <? Z.of_nat (len (String c s)))%Z;
    [right | left]; eexists; reflexivity.
Qed.

Lemma int_ok_isdigit s n : int s = inr n -> isdigit s = true.
Proof.
  intros H. apply int_ok_inv in H as (Hne & Hd & _).
  destruct s; [congruence|]. now apply decimal_is_digit.
Qed.

(** A key=value segment whose value has no '=': [split("=")[1]] is the
    value, whatever the key is. *)
Lemma split_key_value key v :
  contains_char "=" key = false -> contains_char "=" v = false ->
  index (split "=" (String.append key (String "=" v))) 1 = inr v.
Proof.
  intros Hk Hv. rewrite (split_segment _ _ _ Hk), (split_last _ _ Hv).
  reflexivity.
Qed.

End StringFacts.

(** ** StorageKey: what the constructor accepts *)

Module StorageFacts.

Import Storage Validity.

Lemma in_range_spec lo hi n :
  in_range lo hi n = true <-> (lo <= n <= hi)%Z.
Proof. unfold in_range. rewrite andb_true_iff, !Z.leb_le. tauto. Qed.

Lemma year_valid_isdigit y :
  year_valid y <-> Py.isdigit y = true /\ (Py.len y =? 4) = true.
Proof.
  unfold year_valid. rewrite Nat.eqb_eq. split.
  - intros [Hl Ha]. split; [|exact Hl].
    destruct y; [discriminate Hl | exact Ha].
  - intros [Hd Hl]. split; [exact Hl | now apply isdigit_all].
Qed.

Lemma field_check_pass lo hi s :
  field_check lo hi s = inr false <-> numeral_in lo hi s.
Proof.
  unfold field_check, numeral_in. destruct (Py.isdigit s); simpl.
  - destruct (Py.int s) as [e|n]; simpl.
    + split; [discriminate | intros [_ (n & [=] & _)]].
    + destruct (in_range lo hi n) eqn:E; simpl.
      * split; [intros _ | reflexivity].
        split; [reflexivity | exists n; split; [reflexivity|]].
        now apply in_range_spec.
      * split; [discriminate | intros [_ (n' & [= <-] & Hr)]].
        apply in_range_spec in Hr. congruence.
  - split; [discriminate | intros [[=] _]].
Qed.

Lemma post_init_unfold k :
  __post_init__ k =
    if negb (Py.isdigit (year k)) || negb (Py.len (year k) =? 4)
    then raise (ValueError (String.append "Formato de ano "
                              (String.append invalido (year k))))
    else
      m_bad <- field_check 1 12 (month k) ;;
      if (m_bad : bool) then
        raise (ValueError (String.append "Formato de m"
                 (String (Py.chr 234)
                    (String.append "s " (String.append invalido (month k))))))
      else
        d_bad <- field_check 1 31 (day k) ;;
        if (d_bad : bool) then
          raise (ValueError (String.append "Formato de dia "
                               (String.append invalido (day k))))
        else ok tt.
Proof. reflexivity. Qed.

Lemma field_check_cases lo hi s :
  field_check lo hi s = inr false
  \/ field_check lo hi s = inr true
  \/ exists msg, field_check lo hi s = inl (ValueError msg).
Proof.
  unfold field_check. destruct (Py.isdigit s); simpl; [|auto].
  destruct (int_cases s) as [[n ->]|[msg ->]]; simpl; [|eauto].
  destruct (in_range lo hi n); simpl; auto.
Qed.

Lemma post_init_ok_iff k :
  __post_init__ k = inr tt <-> date_fields_valid (year k) (month k) (day k).
Proof.
  rewrite post_init_unfold. unfold date_fields_valid.
  rewrite year_valid_isdigit, <- !field_check_pass.
  destruct (Py.isdigit (year k)); simpl;
    [|split; [discriminate | intros [[[=] _] _]]].
  destruct (Py.len (year k) =? 4); simpl;
    [|split; [discriminate | intros [[_ [=]] _]]].
  destruct (field_check 1 12 (month k)) as [e|[|]]; simpl;
    try (split; [discriminate | intros (_ & [=] & _)]).
  destruct (field_check 1 31 (day k)) as [e|[|]]; simpl;
    try (split; [discriminate | intros (_ & _ & [=])]).
  split; auto.
Qed.

Lemma post_init_result k :
  __post_init__ k = inr tt
  \/ exists msg, __post_init__ k = inl (ValueError msg).
Proof.
  rewrite post_init_unfold.
  destruct (negb _ || negb _); [right; eexists; reflexivity|].
  destruct (field_check_cases 1 12 (month k)) as [-> | [-> | [msg ->]]];
    simpl; try (right; eexists; reflexivity).
  destruct (field_check_cases 1 31 (day k)) as [-> | [-> | [msg ->]]];
    simpl; try (right; eexists; reflexivity).
  now left.
Qed.

Lemma StorageKey_new_ok b c s y m d f k :
  StorageKey_new b c s y m d f = inr k ->
  k = mkStorageKey b c s y m d f /\ date_fields_valid y m d.
Proof.
  unfold StorageKey_new.
  destruct (__post_init__ _) as [e|[]] eqn:E; simpl; [discriminate|].
  intros [= <-]. split; [reflexivity|].
  now apply post_init_ok_iff in E.
Qed.

Lemma StorageKey_new_valid b c s y m d f :
  date_fields_valid y m d ->
  StorageKey_new b c s y m d f = inr (mkStorageKey b c s y m d f).
Proof.
  intros H. unfold StorageKey_new.
  apply (post_init_ok_iff (mkStorageKey b c s y m d f)) in H.
  now rewrite H.
Qed.

Lemma StorageKey_new_invalid b c s y m d f :
  ~ date_fields_valid y m d ->
  exists msg, StorageKey_new b c s y m d f = inl (ValueError msg).
Proof.
  intros H. unfold StorageKey_new.
  destruct (post_init_result (mkStorageKey b c s y m d f)) as [E|[msg E]].
  - apply post_init_ok_iff in E. contradiction.
  - rewrite E. now exists msg.
Qed.

End StorageFacts.

(** ** Parsing a path: the six leading segments *)

Module PathFacts.

Import Storage Validity Segments StorageFacts.

Lemma index_nth {A} (xs : list A) i d :
  i < length xs -> Py.index xs i = inr (nth i xs d).
Proof.
  intros H. unfold Py.index.
  rewrite (nth_error_nth' xs d H). reflexivity.
Qed.

Lemma index_out {A} (xs : list A) i :
  length xs <= i ->
  Py.index xs i = inl (IndexError "list index out of range").
Proof.
  intros H. unfold Py.index.
  apply nth_error_None in H. now rewrite H.
Qed.

(** A segment has a second '='-piece exactly when it contains '='. *)
Lemma split_length_contains sep s :
  (2 <=? length (Py.split sep s)) = Py.contains_char sep s.
Proof.
  induction s as [|c s IH]; [reflexivity|].
  unfold Py.contains_char in *. simpl.
  destruct (Ascii.eqb c sep) eqn:E; simpl.
  - pose proof (split_not_nil sep s).
    destruct (Py.split sep s); [congruence | reflexivity].
  - rewrite <- IH. pose proof (split_not_nil sep s).
    destruct (Py.split sep s); [congruence | reflexivity].
Qed.

Lemma value_index_some seg :
  Py.contains_char "=" seg = true ->
  Py.index (Py.split "=" seg) 1 = inr (value_of seg).
Proof.
  intros H. apply index_nth.
  rewrite <- split_length_contains in H. apply Nat.leb_le in H. lia.
Qed.

Lemma value_index_none seg :
  Py.contains_char "=" seg = false ->
  Py.index (Py.split "=" seg) 1
  = inl (IndexError "list index out of range").
Proof.
  intros H. apply index_out.
  rewrite <- split_length_contains in H. apply Nat.leb_gt in H. lia.
Qed.

(** [from_path] once the length check has passed. *)
Lemma from_path_long b path :
  6 <= segment_count path ->
  from_path b path =
    (y <- Py.index (Py.split "=" (segment path 2)) 1 ;;
     m <- Py.index (Py.split "=" (segment path 3)) 1 ;;
     d <- Py.index (Py.split "=" (segment path 4)) 1 ;;
     c <- match DataCategory_of (segment path 0) with
          | inr c => ok c
          | inl _ =>
              raise (ValueError (String.append "Categoria "
                       (String.append "inv" (String (Py.chr 225)
                          (String.append "lida: " (segment path 0))))))
          end ;;
     StorageKey_new b c (segment path 1) y m d (segment path 5)).
Proof.
  unfold segment_count, segment, from_path. intros H.
  destruct (length (Py.split "/" path) <? 6) eqn:E;
    [apply Nat.ltb_lt in E; lia|].
  rewrite !(index_nth _ _ EmptyString) by lia. reflexivity.
Qed.

Lemma from_path_short b path :
  segment_count path < 6 ->
  from_path b path
  = inl (ValueError (String.append "Caminho " (String.append invalido path))).
Proof.
  unfold segment_count, from_path. intros H.
  apply Nat.ltb_lt in H. now rewrite H.
Qed.

Lemma legacy_from_path_long b path :
  6 <= segment_count path ->
  Legacy.from_path b path =
    (y <- Py.index (Py.split "=" (segment path 2)) 1 ;;
     m <- Py.index (Py.split "=" (segment path 3)) 1 ;;
     d <- Py.index (Py.split "=" (segment path 4)) 1 ;;
     c <- match Legacy.DataCategory_of (segment path 0) with
          | inr c => ok c
          | inl _ =>
              raise (ValueError (String.append "Categoria "
                       (String.append "inv" (String (Py.chr 225)
                          (String.append "lida: " (segment path 0))))))
          end ;;
     Legacy.StorageKey_new b c (segment path 1) y m d (segment path 5)).
Proof.
  unfold segment_count, segment, Legacy.from_path. intros H.
  destruct (length (Py.split "/" path) <? 6) eqn:E;
    [apply Nat.ltb_lt in E; lia|].
  rewrite !(index_nth _ _ EmptyString) by lia. reflexivity.
Qed.

End PathFacts.

Example wahis_key :
  H5N1.to_storage_key Scenario.wahis "data.parquet"
  = inr (Storage.mkStorageKey Storage.RAW Storage.AVIAN_CASES "oie_wahis"
           "2023" "05" "15" "data.parquet").
Proof. reflexivity. Qed.

Example early_year_rejected :
  exists msg,
    H5N1.to_storage_key
      (Scenario.case_from "x" (Scenario.midnight 999 5 15)) "f"
    = inl (ValueError msg).
Proof. eexists. reflexivity. Qed.

(** ** Building a path and parsing it back *)

Module RoundTrip.

Import Storage Validity Segments StorageFacts PathFacts.

Lemma category_value_no_slash c :
  Py.contains_char "/" (category_value c) = false.
Proof. destruct c; reflexivity. Qed.

Lemma DataCategory_of_value c : DataCategory_of (category_value c) = inr c.
Proof. destruct c; reflexivity. Qed.

Lemma numeral_isdigit lo hi s : numeral_in lo hi s -> Py.isdigit s = true.
Proof. now intros [H _]. Qed.

Lemma year_isdigit y : year_valid y -> Py.isdigit y = true.
Proof. intros H. now apply year_valid_isdigit in H. Qed.

Lemma full_path_shape k :
  full_path k =
    String.append (category_value (category k))
   (String "/" (String.append (source k)
   (String "/" (String.append (String.append "year" (String "=" (year k)))
   (String "/" (String.append (String.append "month" (String "=" (month k)))
   (String "/" (String.append (String.append "day" (String "=" (day k)))
   (String "/" (filename k)))))))))).
Proof. reflexivity. Qed.

Lemma key_value_no_slash key v :
  Py.contains_char "/" key = false -> Py.isdigit v = true ->
  Py.contains_char "/" (String.append key (String "=" v)) = false.
Proof.
  intros Hk Hv. apply contains_char_append; [exact Hk|].
  apply isdigit_no_slash in Hv. unfold Py.contains_char in *. simpl.
  exact Hv.
Qed.

(** The six segments of the path of a key whose date fields are digit
    strings and whose source and file name hold no '/'. *)
Lemma full_path_split k :
  Py.isdigit (year k) = true -> Py.isdigit (month k) = true ->
  Py.isdigit (day k) = true ->
  Py.contains_char "/" (source k) = false ->
  Py.contains_char "/" (filename k) = false ->
  Py.split "/" (full_path k) =
    [category_value (category k); source k;
     String.append "year" (String "=" (year k));
     String.append "month" (String "=" (month k));
     String.append "day" (String "=" (day k));
     filename k].
Proof.
  intros Hy Hm Hd Hs Hf. rewrite full_path_shape.
  rewrite split_segment by apply category_value_no_slash.
  rewrite split_segment by exact Hs.
  rewrite split_segment by (apply key_value_no_slash; [reflexivity|exact Hy]).
  rewrite split_segment by (apply key_value_no_slash; [reflexivity|exact Hm]).
  rewrite split_segment by (apply key_value_no_slash; [reflexivity|exact Hd]).
  rewrite split_last by exact Hf. reflexivity.
Qed.

Lemma from_path_full_path_valid k :
  date_fields_valid (year k) (month k) (day k) ->
  Py.contains_char "/" (source k) = false ->
  Py.contains_char "/" (filename k) = false ->
  from_path (bucket k) (full_path k) = inr k.
Proof.
  intros (Hy & Hm & Hd) Hs Hf.
  pose proof (year_isdigit _ Hy) as Dy.
  pose proof (numeral_isdigit _ _ _ Hm) as Dm.
  pose proof (numeral_isdigit _ _ _ Hd) as Dd.
  unfold from_path. rewrite (full_path_split k Dy Dm Dd Hs Hf).
  cbn [length Nat.ltb Nat.leb Py.index nth_error bind ok].
  rewrite !split_key_value
    by (try reflexivity; now apply isdigit_no_equals).
  cbn [bind]. rewrite DataCategory_of_value. cbn [bind ok].
  destruct k as [b c s y m d f]; cbn [bucket year month day] in *.
  apply StorageKey_new_valid. unfold date_fields_valid. auto.
Qed.

End RoundTrip.

(** ** Parsing a path: outcomes *)

Module ParseFacts.

Import Storage Validity Segments StorageFacts PathFacts RoundTrip.

Lemma has_values_true path :
  has_values path = true ->
  Py.contains_char "=" (segment path 2) = true
  /\ Py.contains_char "=" (segment path 3) = true
  /\ Py.contains_char "=" (segment path 4) = true.
Proof.
  unfold has_values. rewrite !andb_true_iff. tauto.
Qed.

Lemma from_path_with_values b path :
  6 <= segment_count path -> has_values path = true ->
  from_path b path =
    (c <- match DataCategory_of (segment path 0) with
          | inr c => ok c
          | inl _ => raise (categoria_invalida (segment path 0))
          end ;;
     StorageKey_new b c (segment path 1) (value_of (segment path 2))
       (value_of (segment path 3)) (value_of (segment path 4))
       (segment path 5)).
Proof.
  intros Hn Hv. apply has_values_true in Hv as (H2 & H3 & H4).
  rewrite (from_path_long b path Hn).
  rewrite !value_index_some by assumption. reflexivity.
Qed.

Lemma from_path_without_values b path :
  6 <= segment_count path -> has_values path = false ->
  from_path b path = inl (IndexError "list index out of range").
Proof.
  intros Hn Hv. rewrite (from_path_long b path Hn).
  unfold has_values in Hv.
  destruct (Py.contains_char "=" (segment path 2)) eqn:E2.
  - rewrite (value_index_some _ E2).
    destruct (Py.contains_char "=" (segment path 3)) eqn:E3.
    + rewrite (value_index_some _ E3).
      destruct (Py.contains_char "=" (segment path 4)) eqn:E4;
        [discriminate|].
      now rewrite (value_index_none _ E4).
    + now rewrite (value_index_none _ E3).
  - now rewrite (value_index_none _ E2).
Qed.

Lemma DataCategory_of_cases s :
  (s = "avian_cases" /\ DataCategory_of s = inr AVIAN_CASES)
  \/ (s <> "avian_cases" /\ exists e, DataCategory_of s = inl e).
Proof.
  unfold DataCategory_of. destruct (String.eqb_spec s "avian_cases").
  - left. now split.
  - right. split; [assumption | eexists; reflexivity].
Qed.

(** Only the first six segments are read. *)
Lemma from_path_first_six b p q :
  6 <= segment_count p ->
  firstn 6 (Py.split "/" p) = firstn 6 (Py.split "/" q) ->
  from_path b p = from_path b q.
Proof.
  intros Hp Heq.
  assert (Hq : 6 <= segment_count q).
  { unfold segment_count in *.
    apply (f_equal (@length string)) in Heq.
    rewrite !length_firstn in Heq. lia. }
  assert (Hseg : forall i, i < 6 -> segment p i = segment q i).
  { intros i Hi. unfold segment.
    pose proof (nth_firstn 6 (Py.split "/" p) i EmptyString) as Ep.
    pose proof (nth_firstn 6 (Py.split "/" q) i EmptyString) as Eq.
    apply Nat.ltb_lt in Hi. rewrite Hi in Ep, Eq.
    rewrite <- Ep, <- Eq, Heq. reflexivity. }
  rewrite (from_path_long b p Hp), (from_path_long b q Hq).
  rewrite !(Hseg 0), !(Hseg 1), !(Hseg 2), !(Hseg 3), !(Hseg 4), !(Hseg 5)
    by lia.
  reflexivity.
Qed.

End ParseFacts.

(** ** Segments and number formats *)

Module FormatFacts.

Import Storage Validity Segments Ranges.
Import StorageFacts PathFacts RoundTrip ParseFacts.

Lemma split_clean sep s :
  Forall (fun x => Py.contains_char sep x = false) (Py.split sep s).
Proof.
  induction s as [|c s IH]; simpl.
  - constructor; [reflexivity | constructor].
  - destruct (Ascii.eqb c sep) eqn:E.
    + constructor; [reflexivity | exact IH].
    + destruct (Py.split sep s) as [|h t]; [repeat constructor|].
      * unfold Py.contains_char. simpl. now rewrite E.
      * inversion IH as [|? ? Hh Ht]; subst. constructor; [|exact Ht].
        unfold Py.contains_char in *. simpl. rewrite E. exact Hh.
Qed.

Lemma segment_no_slash path i :
  Py.contains_char "/" (segment path i) = false.
Proof.
  unfold segment.
  destruct (Nat.lt_ge_cases i (length (Py.split "/" path))) as [H|H].
  - pose proof (split_clean "/" path) as F.
    rewrite Forall_forall in F. apply F. now apply nth_In.
  - now rewrite nth_overflow.
Qed.

Lemma replace_removes a b s :
  Ascii.eqb b a = false -> Py.contains_char a (Py.replace a b s) = false.
Proof.
  intros Hab. induction s as [|c s IH]; [reflexivity|].
  unfold Py.replace, Py.contains_char in *. simpl.
  destruct (Ascii.eqb c a) eqn:E; [rewrite Hab | rewrite E]; exact IH.
Qed.

Lemma zrange_In cnt : forall lo n,
  (lo <= n < lo + Z.of_nat cnt)%Z -> In n (zrange lo cnt).
Proof.
  induction cnt as [|cnt IH]; intros lo n Hn; [lia|].
  simpl. destruct (Z.eq_dec lo n) as [->|Hne]; [now left|].
  right. apply IH. lia.
Qed.

Lemma Z_range_forallb (p : Z -> bool) lo hi :
  forallb p (zrange lo (Z.to_nat (hi - lo + 1))) = true ->
  forall n, (lo <= n <= hi)%Z -> p n = true.
Proof.
  intros H n Hn. rewrite forallb_forall in H. apply H.
  apply zrange_In. lia.
Qed.

Lemma result_is_eq r n : result_is r n = true -> r = inr n.
Proof.
  destruct r as [e|m]; simpl; [discriminate|].
  intros H. apply Z.eqb_eq in H. now subst.
Qed.

(** Two-digit formatting of a month or day number: two characters whose
    value is the number. *)
Lemma fmt_02d_small n :
  (1 <= n <= 31)%Z ->
  Py.len (Py.fmt_02d n) = 2 /\ Py.int (Py.fmt_02d n) = inr n.
Proof.
  intros Hn.
  pose proof (Z_range_forallb
    (fun n => (Py.len (Py.fmt_02d n) =? 2)
              && result_is (Py.int (Py.fmt_02d n)) n) 1 31) as H.
  specialize (H ltac:(vm_compute; reflexivity) n Hn).
  apply andb_prop in H as [H1 H2].
  split; [now apply Nat.eqb_eq | now apply result_is_eq].
Qed.

Lemma str_year n :
  (1000 <= n <= 9999)%Z ->
  Py.len (Py.str n) = 4 /\ Py.int (Py.str n) = inr n.
Proof.
  intros Hn.
  pose proof (Z_range_forallb
    (fun n => (Py.len (Py.str n) =? 4)
              && result_is (Py.int (Py.str n)) n) 1000 9999) as H.
  specialize (H ltac:(vm_compute; reflexivity) n Hn).
  apply andb_prop in H as [H1 H2].
  split; [now apply Nat.eqb_eq | now apply result_is_eq].
Qed.

End FormatFacts.

(** ** Storage keys: parsing *)

Module ParseClaims.

Import Storage Validity Segments Ranges.
Import StorageFacts PathFacts RoundTrip ParseFacts FormatFacts.

(** C3.  Every StorageKey the constructor accepts, whose source and file
    name contain no '/', is reconstructed field by field when its
    [full_path] is parsed with [from_path] under the same bucket. *)
Theorem from_path_full_path_round_trip
    (b : BucketName) (c : DataCategory) (src y m d f : string)
    (k : StorageKey) :
  StorageKey_new b c src y m d f = inr k ->
  Py.contains_char "/" src = false ->
  Py.contains_char "/" f = false ->
  from_path b (full_path k) = inr k.
Proof.
  intros Hk Hs Hf. apply StorageKey_new_ok in Hk as [-> Hv].
  now apply (from_path_full_path_valid (mkStorageKey b c src y m d f)).
Qed.

(** C3 at the key of the OIE WAHIS scenario. *)
Lemma from_path_full_path_round_trip_witness :
  StorageKey_new RAW AVIAN_CASES "oie_wahis" "2023" "05" "15" "data.parquet"
  = inr (mkStorageKey RAW AVIAN_CASES "oie_wahis" "2023" "05" "15"
           "data.parquet")
  /\ from_path RAW
       (full_path (mkStorageKey RAW AVIAN_CASES "oie_wahis" "2023" "05" "15"
                     "data.parquet"))
     = inr (mkStorageKey RAW AVIAN_CASES "oie_wahis" "2023" "05" "15"
              "data.parquet").
Proof.
  split; [reflexivity|].
  apply (from_path_full_path_round_trip RAW AVIAN_CASES "oie_wahis"
           "2023" "05" "15" "data.parquet"); reflexivity.
Defined.

(** The same for keys built by [AvianFluCase.to_storage_key]. *)
Lemma to_storage_key_round_trip (c : H5N1.AvianFluCase) (f : string)
    (k : StorageKey) :
  H5N1.to_storage_key c f = inr k ->
  Py.contains_char "/" (H5N1.normalized_source c) = false ->
  Py.contains_char "/" f = false ->
  from_path RAW (full_path k) = inr k.
Proof.
  unfold H5N1.to_storage_key. intros Hk Hs Hf.
  apply StorageKey_new_ok in Hk as [-> Hv].
  now apply (from_path_full_path_valid
               (mkStorageKey RAW AVIAN_CASES _ _ _ _ f)).
Qed.

(** C4 as stated fails: a path whose third to fifth segments carry other
    keys than year, month and day is malformed in the stated sense, and
    [from_path] accepts it. *)
Lemma from_path_accepts_unexpected_keys :
  malformed "avian_cases/s/a=2023/b=05/c=15/f" = true
  /\ from_path RAW "avian_cases/s/a=2023/b=05/c=15/f"
     = inr (mkStorageKey RAW AVIAN_CASES "s" "2023" "05" "15" "f").
Proof. split; reflexivity. Qed.

(** C4, amended.  [from_path] raises ValueError on fewer than six
    segments.  When the third, fourth and fifth segments each contain
    '=', it raises ValueError if the leading segment is not a category
    value; otherwise it is the constructor applied to the second
    '='-piece of each of those segments, which succeeds exactly when the
    date fields are valid and raises ValueError when they are not.  The
    text before '=' is never compared with the key names. *)
Theorem from_path_error_behaviour (b : BucketName) (path : string) :
  (segment_count path < 6 ->
     from_path b path = inl (caminho_invalido path))
  /\ (6 <= segment_count path -> has_values path = true ->
        segment path 0 <> "avian_cases" ->
        from_path b path = inl (categoria_invalida (segment path 0)))
  /\ (6 <= segment_count path -> has_values path = true ->
        segment path 0 = "avian_cases" ->
        from_path b path
        = StorageKey_new b AVIAN_CASES (segment path 1)
            (value_of (segment path 2)) (value_of (segment path 3))
            (value_of (segment path 4)) (segment path 5)
        /\ (succeeds (from_path b path) <->
              date_fields_valid (value_of (segment path 2))
                (value_of (segment path 3)) (value_of (segment path 4)))
        /\ (succeeds (from_path b path) \/ is_ValueError (from_path b path))).
Proof.
  split; [apply from_path_short|].
  split.
  - intros Hn Hv Hc. rewrite (from_path_with_values b path Hn Hv).
    destruct (DataCategory_of_cases (segment path 0))
      as [[E _]|[_ [e ->]]]; [contradiction | reflexivity].
  - intros Hn Hv Hc. rewrite (from_path_with_values b path Hn Hv).
    destruct (DataCategory_of_cases (segment path 0))
      as [[_ ->]|[E _]]; [|contradiction].
    cbn [bind ok]. split; [reflexivity|]. split.
    + split.
      * intros [k Hk]. now apply StorageKey_new_ok in Hk.
      * intros Hd. eexists. now apply StorageKey_new_valid.
    + unfold StorageKey_new.
      destruct (post_init_result
                  (mkStorageKey b AVIAN_CASES (segment path 1)
                     (value_of (segment path 2)) (value_of (segment path 3))
                     (value_of (segment path 4)) (segment path 5)))
        as [->|[msg ->]].
      * left. eexists. reflexivity.
      * right. exists msg. reflexivity.
Qed.

(** X2.  A third, fourth or fifth segment without '=' ends [from_path]
    with the IndexError of [split("=")[1]], whatever the category is:
    the values are extracted before the category is looked up. *)
Lemma from_path_segment_without_equals (b : BucketName) (path : string) :
  6 <= segment_count path -> has_values path = false ->
  is_IndexError (from_path b path).
Proof.
  intros Hn Hv. eexists. now apply from_path_without_values.
Qed.

Example from_path_error_cases :
  from_path RAW "avian_cases/s/year=2023/month=05/day=15"
  = inl (caminho_invalido "avian_cases/s/year=2023/month=05/day=15")
  /\ from_path RAW "avian_cases/s/year=2023/month/day=15/f"
     = inl (IndexError "list index out of range")
  /\ from_path RAW "humans/s/year2023/month=05/day=15/f"
     = inl (IndexError "list index out of range")
  /\ from_path RAW "humans/s/year=2023/month=05/day=15/f"
     = inl (categoria_invalida "humans")
  /\ is_ValueError (from_path RAW "avian_cases/s/year=2023/month=13/day=15/f")
  /\ is_ValueError
       (from_path RAW
          (String.append "avian_cases/s/year=2023/month="
             (String (Py.chr 178) "/day=15/f"))).
Proof.
  repeat split; try reflexivity; eexists; reflexivity.
Qed.

End ParseClaims.

(** ** Storage keys: construction and building *)

Module BuildClaims.

Import Storage Validity Segments Ranges.
Import StorageFacts PathFacts RoundTrip ParseFacts FormatFacts.

(** X1.  The constructor of schemas/storage.py accepts exactly the date
    fields that are valid: a year of four characters that [isdigit]
    takes, a month and a day that [isdigit] takes and [int] converts
    (decimal digits, at most 4300 of them) to a value in 1..12 and
    1..31.  On every other input it raises ValueError, and a key it
    returns holds the arguments unchanged. *)
Theorem StorageKey_new_succeeds_iff
    (b : BucketName) (c : DataCategory) (src y m d f : string) :
  (succeeds (StorageKey_new b c src y m d f) <-> date_fields_valid y m d)
  /\ (~ date_fields_valid y m d ->
        is_ValueError (StorageKey_new b c src y m d f))
  /\ (forall k, StorageKey_new b c src y m d f = inr k ->
        k = mkStorageKey b c src y m d f
        /\ date_fields_valid (year k) (month k) (day k)).
Proof.
  split; [split|split].
  - intros [k Hk]. now apply StorageKey_new_ok in Hk.
  - intros H. eexists. now apply StorageKey_new_valid.
  - apply StorageKey_new_invalid.
  - intros k Hk. apply StorageKey_new_ok in Hk as [-> Hv]. now split.
Qed.

Lemma not_valid_abcd : ~ date_fields_valid "abcd" "13" "0".
Proof. intros [[_ H] _]. discriminate H. Qed.

(** C6 at the older StorageKey of src/schemas/storage.py: a year that is
    not numeric, month 13 and day 0 are stored without any error, by the
    constructor and by [from_path]. *)
Theorem legacy_StorageKey_unvalidated :
  Legacy.StorageKey_new Legacy.RAW Legacy.AVIAN_CASES "s" "abcd" "13" "0" "f"
  = inr (Legacy.mkStorageKey Legacy.RAW Legacy.AVIAN_CASES "s"
           "abcd" "13" "0" "f")
  /\ Legacy.from_path Legacy.RAW "avian_cases/s/year=abcd/month=13/day=0/f"
     = inr (Legacy.mkStorageKey Legacy.RAW Legacy.AVIAN_CASES "s"
              "abcd" "13" "0" "f")
  /\ ~ date_fields_valid "abcd" "13" "0"
  /\ is_ValueError (StorageKey_new RAW AVIAN_CASES "s" "abcd" "13" "0" "f").
Proof.
  split; [reflexivity|]. split; [reflexivity|].
  split; [exact not_valid_abcd|]. eexists. reflexivity.
Qed.

(** C7 as stated fails in its general part: a hyphen is not alphanumeric
    and stays in the source of the key. *)
Lemma to_storage_key_keeps_hyphen :
  H5N1.to_storage_key Scenario.wahis_hyphen "data.parquet"
  = inr (mkStorageKey RAW AVIAN_CASES "oie-wahis" "2023" "05" "15"
           "data.parquet")
  /\ normalize_non_alnum "OIE-WAHIS" = "oie_wahis"
  /\ "oie-wahis" <> normalize_non_alnum "OIE-WAHIS".
Proof.
  split; [reflexivity|]. split; [reflexivity|]. discriminate.
Qed.

(** C7, amended.  The scenario key has exactly the stated path; in
    general the source of a built key is the lower-cased source with each
    space replaced by '_' (so it holds no space), the year is [str] of the
    year, and month and day are two characters whose value is the month
    and the day. *)
Theorem to_storage_key_normalizes :
  (exists k, H5N1.to_storage_key Scenario.wahis "data.parquet" = inr k
     /\ full_path k
        = "avian_cases/oie_wahis/year=2023/month=05/day=15/data.parquet")
  /\ (forall (c : H5N1.AvianFluCase) (f : string) (k : StorageKey),
        H5N1.datetime_valid (H5N1.detection_date c) ->
        H5N1.to_storage_key c f = inr k ->
        source k
        = Py.replace " " "_" (Py.lower (H5N1.source (H5N1.metadata c)))
        /\ Py.len (source k) = Py.len (H5N1.source (H5N1.metadata c))
        /\ Py.contains_char " " (source k) = false
        /\ year k = Py.str (H5N1.dt_year (H5N1.detection_date c))
        /\ Py.len (month k) = 2
        /\ Py.int (month k) = inr (H5N1.dt_month (H5N1.detection_date c))
        /\ Py.len (day k) = 2
        /\ Py.int (day k) = inr (H5N1.dt_day (H5N1.detection_date c))
        /\ category k = AVIAN_CASES /\ filename k = f).
Proof.
  split.
  - eexists. split; reflexivity.
  - intros c f k (Hy & Hm & Hd) Hk. unfold H5N1.to_storage_key in Hk.
    apply StorageKey_new_ok in Hk as [-> _].
    cbn [source year month day category filename].
    destruct (fmt_02d_small (H5N1.dt_month (H5N1.detection_date c)))
      as [Lm Im]; [lia|].
    destruct (fmt_02d_small (H5N1.dt_day (H5N1.detection_date c)))
      as [Ld Id]; [lia|].
    repeat split; try assumption.
    + unfold H5N1.normalized_source, Py.replace, Py.lower, Py.len.
      induction (H5N1.source (H5N1.metadata c)) as [|x s IH];
        [reflexivity | simpl; now rewrite IH].
    + apply replace_removes. reflexivity.
Qed.

(** A built key exists exactly from year 1000 on: [str] of an earlier
    year has fewer than four digits. *)
Lemma to_storage_key_succeeds (c : H5N1.AvianFluCase) (f : string) :
  H5N1.datetime_valid (H5N1.detection_date c) ->
  (1000 <= H5N1.dt_year (H5N1.detection_date c))%Z ->
  succeeds (H5N1.to_storage_key c f).
Proof.
  intros (Hy & Hm & Hd) Hy'. eexists. unfold H5N1.to_storage_key.
  apply StorageKey_new_valid.
  destruct (fmt_02d_small (H5N1.dt_month (H5N1.detection_date c)))
    as [Lm Im]; [lia|].
  destruct (fmt_02d_small (H5N1.dt_day (H5N1.detection_date c)))
    as [Ld Id]; [lia|].
  destruct (str_year (H5N1.dt_year (H5N1.detection_date c)))
    as [Ly Iy]; [lia|].
  split; [|split].
  - split; [exact Ly|]. apply isdigit_all. eapply int_ok_isdigit, Iy.
  - split; [eapply int_ok_isdigit, Im | eexists; split; [exact Im | lia]].
  - split; [eapply int_ok_isdigit, Id | eexists; split; [exact Id | lia]].
Qed.

End BuildClaims.

(** ** Storage keys: paths with extra segments *)

Module ExtraSegments.

Import Storage Validity Segments Ranges.
Import StorageFacts PathFacts RoundTrip ParseFacts FormatFacts.

Lemma full_path_six_segments k :
  date_fields_valid (year k) (month k) (day k) ->
  Py.contains_char "/" (source k) = false ->
  Py.contains_char "/" (filename k) = false ->
  segment_count (full_path k) = 6.
Proof.
  intros (Hy & Hm & Hd) Hs Hf. unfold segment_count.
  rewrite full_path_split; try assumption; try reflexivity.
  - now apply year_isdigit.
  - now apply numeral_isdigit in Hm.
  - now apply numeral_isdigit in Hd.
Qed.

(** C10 as stated fails: more than six segments, a known category and
    '=' in the third to fifth segments do not make [from_path] succeed;
    the constructor still checks the date fields. *)
Lemma from_path_extra_segments_rejected :
  segment_count "avian_cases/s/year=20x3/month=05/day=15/f/extra" = 7
  /\ segment "avian_cases/s/year=20x3/month=05/day=15/f/extra" 0
     = "avian_cases"
  /\ has_values "avian_cases/s/year=20x3/month=05/day=15/f/extra" = true
  /\ is_ValueError
       (from_path RAW "avian_cases/s/year=20x3/month=05/day=15/f/extra").
Proof.
  repeat split; try reflexivity. eexists. reflexivity.
Qed.

(** C10, amended.  A path of more than six segments whose first segment
    is a category value, whose third to fifth segments contain '=' and
    whose extracted year, month and day pass the constructor's checks is
    parsed from its first six segments alone: every path with the same
    first six segments parses to the same key, the key's [full_path]
    differs from the path, and it parses to the same key too, so
    [from_path] is not injective. *)
Theorem from_path_extra_segments (b : BucketName) (p : string) :
  6 < segment_count p ->
  segment p 0 = "avian_cases" ->
  has_values p = true ->
  date_fields_valid (value_of (segment p 2)) (value_of (segment p 3))
    (value_of (segment p 4)) ->
  let k := mkStorageKey b AVIAN_CASES (segment p 1)
             (value_of (segment p 2)) (value_of (segment p 3))
             (value_of (segment p 4)) (segment p 5) in
  from_path b p = inr k
  /\ (forall q, firstn 6 (Py.split "/" q) = firstn 6 (Py.split "/" p) ->
        from_path b q = inr k)
  /\ full_path k <> p
  /\ from_path b (full_path k) = inr k.
Proof.
  intros Hn Hc Hv Hd k.
  assert (Hp : from_path b p = inr k).
  { rewrite (from_path_with_values b p) by (lia || assumption).
    rewrite Hc. cbn [DataCategory_of String.eqb Ascii.eqb Bool.eqb bind ok].
    now apply StorageKey_new_valid. }
  split; [exact Hp|]. split; [|split].
  - intros q Hq. rewrite <- Hp. symmetry.
    apply from_path_first_six; [lia | now symmetry].
  - intros E.
    assert (H6 : segment_count (full_path k) = 6).
    { apply full_path_six_segments; try exact Hd;
        apply segment_no_slash. }
    rewrite E in H6. lia.
  - apply (from_path_full_path_valid k); try exact Hd;
      apply segment_no_slash.
Qed.

(** C10 at the scenario path followed by one more segment. *)
Lemma from_path_extra_segments_witness :
  6 < segment_count
        "avian_cases/oie_wahis/year=2023/month=05/day=15/data.parquet/x"
  /\ from_path RAW
       "avian_cases/oie_wahis/year=2023/month=05/day=15/data.parquet/x"
     = inr (mkStorageKey RAW AVIAN_CASES "oie_wahis" "2023" "05" "15"
              "data.parquet")
  /\ full_path (mkStorageKey RAW AVIAN_CASES "oie_wahis" "2023" "05" "15"
                  "data.parquet")
     <> "avian_cases/oie_wahis/year=2023/month=05/day=15/data.parquet/x".
Proof.
  pose proof (from_path_extra_segments RAW
    "avian_cases/oie_wahis/year=2023/month=05/day=15/data.parquet/x") as H.
  assert (H6 : 6 < segment_count
    "avian_cases/oie_wahis/year=2023/month=05/day=15/data.parquet/x")
    by (vm_compute; lia).
  assert (Hd : date_fields_valid "2023" "05" "15").
  { split; [split; reflexivity|].
    split; (split; [reflexivity|]).
    - exists 5%Z. split; [reflexivity | lia].
    - exists 15%Z. split; [reflexivity | lia]. }
  destruct (H H6 eq_refl eq_refl Hd) as (H1 & _ & H3 & _).
  split; [exact H6|]. split; [exact H1 | exact H3].
Defined.

(** On the older class of src/schemas/storage.py, which has no
    constructor checks, the same holds with no condition on the values. *)
Lemma legacy_from_path_extra_segments (b : Legacy.BucketName) (p : string) :
  6 < segment_count p ->
  segment p 0 = "avian_cases" \/ segment p 0 = "surveillance" ->
  has_values p = true ->
  exists c,
    Legacy.from_path b p
    = inr (Legacy.mkStorageKey b c (segment p 1)
             (value_of (segment p 2)) (value_of (segment p 3))
             (value_of (segment p 4)) (segment p 5)).
Proof.
  intros Hn Hc Hv. apply has_values_true in Hv as (H2 & H3 & H4).
  rewrite legacy_from_path_long by lia.
  rewrite !value_index_some by assumption. cbn [bind].
  destruct Hc as [-> | ->]; eexists; reflexivity.
Qed.

End ExtraSegments.

(** ** Frames built from records *)

Module FrameFacts.

Import Frame.

Lemma mem_In x xs : mem x xs = true <-> In x xs.
Proof.
  induction xs as [|y ys IH]; simpl; [split; [discriminate | tauto]|].
  rewrite orb_true_iff, IH, String.eqb_eq. tauto.
Qed.

Lemma mem_not_In x xs : mem x xs = false <-> ~ In x xs.
Proof.
  rewrite <- mem_In. destruct (mem x xs); split; congruence.
Qed.

Lemma add_new_fresh ks : forall acc,
  NoDup (acc ++ ks) -> add_new acc ks = acc ++ ks.
Proof.
  induction ks as [|k ks IH]; intros acc H; simpl.
  - now rewrite app_nil_r.
  - assert (Hk : mem k acc = false).
    { apply mem_not_In. intros Hin.
      apply NoDup_remove_2 in H. apply H, in_or_app. now left. }
    rewrite Hk. replace (acc ++ k :: ks) with ((acc ++ [k]) ++ ks) in *
      by (now rewrite <- app_assoc).
    now apply IH.
Qed.

Lemma add_new_known ks : forall acc,
  (forall k, In k ks -> In k acc) -> add_new acc ks = acc.
Proof.
  induction ks as [|k ks IH]; intros acc H; simpl; [reflexivity|].
  assert (Hk : mem k acc = true) by (apply mem_In, H; now left).
  rewrite Hk. apply IH. intros k' Hk'. apply H. now right.
Qed.

(** Records that all have the same keys give exactly those columns. *)
Lemma union_keys_uniform fields records :
  NoDup fields -> records <> [] ->
  Forall (fun d => keys d = fields) records ->
  union_keys records = fields.
Proof.
  intros Hnd Hne Hall. unfold union_keys.
  destruct records as [|d ds]; [congruence|].
  inversion Hall as [|? ? Hd Hds]; subst. simpl.
  rewrite (add_new_fresh (keys d) []) by exact Hnd. simpl.
  clear Hne Hall. induction ds as [|d' ds IH]; [reflexivity|].
  inversion Hds as [|? ? Hd' Hds']; subst. simpl.
  rewrite add_new_known by (rewrite Hd'; auto).
  now apply IH.
Qed.

Lemma cell_head k v d : cell ((k, v) :: d) k = v.
Proof. unfold cell. simpl. now rewrite String.eqb_refl. Qed.

Lemma cell_tail k v d k' : k <> k' -> cell ((k, v) :: d) k' = cell d k'.
Proof.
  intros H. unfold cell. simpl.
  destruct (String.eqb_spec k k'); [contradiction | reflexivity].
Qed.

(** A row read back with its column labels is the record it came
    from. *)
Lemma to_dict_cells d :
  NoDup (keys d) -> to_dict (keys d) (map (cell d) (keys d)) = d.
Proof.
  unfold to_dict. induction d as [|[k v] d IH]; intros H; [reflexivity|].
  simpl in *. inversion H as [|? ? Hk Hd]; subst.
  rewrite cell_head. f_equal.
  transitivity (combine (keys d) (map (cell d) (keys d))); [|now apply IH].
  f_equal. apply map_ext_in. intros k' Hk'. apply cell_tail.
  intros ->. contradiction.
Qed.

Lemma from_records_uniform fields records :
  NoDup fields -> records <> [] ->
  Forall (fun d => keys d = fields) records ->
  from_records records
  = mkDataFrame fields (map (fun d => map (cell d) fields) records).
Proof.
  intros Hnd Hne Hall. unfold from_records.
  now rewrite (union_keys_uniform fields records Hnd Hne Hall).
Qed.

End FrameFacts.

(** ** The conversion loop *)

Module TransformerFacts.

Import Frame FrameFacts Transformer Outcome.

Section ModelClass.

Context {M : Type}.
Variable model_name : string.
Variable model_dump : M -> dict.
Variable model_validate : dict -> result M.

Lemma convert_rows_spec cols rs : forall models errors logs,
  convert_rows model_name model_validate cols rs models errors logs
  = (models ++ successes model_validate cols rs,
     errors ++ map str_exn (failures model_validate cols rs),
     logs ++ map (fun e => (ERROR, erro_ao_converter model_name e))
               (failures model_validate cols rs)).
Proof.
  induction rs as [|row rs IH]; intros models errors logs; simpl.
  - now rewrite !app_nil_r.
  - destruct (convert_row model_validate cols row) as [e|m];
      rewrite IH; simpl; now rewrite <- !app_assoc.
Qed.

Lemma successes_failures_length cols rs :
  length (successes model_validate cols rs)
  + length (failures model_validate cols rs) = length rs.
Proof.
  induction rs as [|row rs IH]; simpl; [reflexivity|].
  destruct (convert_row model_validate cols row); simpl; lia.
Qed.

Lemma count_level_app l a b :
  count_level l (a ++ b) = count_level l a + count_level l b.
Proof. unfold count_level. now rewrite filter_app, length_app. Qed.

Lemma count_error_map (es : list exn) :
  count_level ERROR
    (map (fun e => (ERROR, erro_ao_converter model_name e)) es)
  = length es.
Proof.
  unfold count_level. induction es as [|e es IH]; simpl; [reflexivity|].
  now rewrite IH.
Qed.

Lemma dataframe_to_models_nonempty df :
  empty df = false ->
  dataframe_to_models model_name model_validate df
  = (successes model_validate (columns df) (rows df),
     (map (fun e => (ERROR, erro_ao_converter model_name e))
        (failures model_validate (columns df) (rows df))
      ++ match failures model_validate (columns df) (rows df) with
         | [] => []
         | _ => [(WARNING,
                  ocorreram
                    (length (failures model_validate (columns df) (rows df))))]
         end)
     ++ [(INFO, String.append "Convertidas "
                  (String.append
                     (str_len (successes model_validate (columns df) (rows df)))
                     (String.append " linhas para modelos " model_name)))]).
Proof.
  intros He. unfold dataframe_to_models. rewrite He, convert_rows_spec.
  simpl.
  destruct (failures model_validate (columns df) (rows df)) as [|e es]; simpl.
  - reflexivity.
  - now rewrite length_map.
Qed.

End ModelClass.

End TransformerFacts.

(** ** AvianFluCase through a frame *)

Module Conversion.

Import Frame FrameFacts Transformer Outcome TransformerFacts H5N1 CaseModel.

Lemma model_dump_keys c : keys (model_dump c) = fields.
Proof. reflexivity. Qed.

Lemma model_dump_dropna c : dropna (model_dump c) = model_dump c.
Proof. reflexivity. Qed.

Lemma validate_bird_dump b : validate_bird (dump_bird b) = inr b.
Proof.
  destruct b as [s t p]. unfold validate_bird, dump_bird. simpl.
  destruct t, p; reflexivity.
Qed.

Lemma validate_location_dump l :
  out_of_range (inject_Z 90) (latitude l) = false ->
  out_of_range (inject_Z 180) (longitude l) = false ->
  validate_location (dump_location l) = inr l.
Proof.
  destruct l as [r c la lo]. simpl. intros Hla Hlo.
  unfold validate_location, dump_location, with_default. simpl.
  assert (Er : as_opt_str "region" (opt_str r) = inr r)
    by (destruct r; reflexivity).
  assert (Ec : as_opt_str "city" (opt_str c) = inr c)
    by (destruct c; reflexivity).
  assert (Ela : as_opt_float "latitude" (opt_float la) = inr la)
    by (destruct la; reflexivity).
  assert (Elo : as_opt_float "longitude" (opt_float lo) = inr lo)
    by (destruct lo; reflexivity).
  rewrite Er, Ec, Ela, Elo. simpl.
  unfold validate_latitude, validate_longitude. rewrite Hla, Hlo.
  reflexivity.
Qed.

Lemma validate_metadata_dump now m :
  validate_metadata now (dump_metadata m) = inr m.
Proof.
  destruct m as [s c t b]. unfold validate_metadata, dump_metadata. simpl.
  destruct c; reflexivity.
Qed.

(** A validated record is recovered from its own dump. *)
Lemma model_validate_dump now c :
  validated c -> model_validate now (model_dump c) = inr c.
Proof.
  intros [Hla Hlo]. destruct c as [i t b l m]. simpl in Hla, Hlo.
  unfold model_validate, model_dump. simpl.
  rewrite validate_bird_dump. simpl.
  rewrite (validate_location_dump l Hla Hlo). simpl.
  rewrite validate_metadata_dump. reflexivity.
Qed.

Section ModelClass.

Context {M : Type}.
Variable model_name : string.
Variable model_dump : M -> dict.
Variable model_validate : dict -> result M.

Lemma successes_all cols (rs : list (list pyval)) (ms : list M) :
  Forall2 (fun row m => convert_row model_validate cols row = inr m) rs ms ->
  successes model_validate cols rs = ms
  /\ failures model_validate cols rs = [].
Proof.
  induction 1 as [|row m rs ms Hrow _ [IHs IHf]]; simpl; [now split|].
  rewrite Hrow, IHs, IHf. now split.
Qed.

(** Records of one class, with uniform keys, no null at top level, each
    recovered by validation from its dump, come back unchanged. *)
Lemma round_trip_uniform (flds : list string) (ms : list M) :
  flds <> [] -> NoDup flds -> ms <> [] ->
  Forall (fun m => keys (model_dump m) = flds) ms ->
  Forall (fun m => model_validate (dropna (model_dump m)) = inr m) ms ->
  let df := fst (model_to_dataframe model_dump ms) in
  successes model_validate (columns df) (rows df) = ms
  /\ failures model_validate (columns df) (rows df) = []
  /\ empty df = false
  /\ length (rows df) = length ms.
Proof.
  intros Hf Hnd Hne Hk Hv df.
  assert (Edf : df = mkDataFrame flds
                       (map (fun d => map (cell d) flds)
                          (map model_dump ms))).
  { unfold df, model_to_dataframe. destruct ms as [|m ms']; [congruence|].
    cbn [fst]. apply from_records_uniform; [assumption | discriminate |].
    apply Forall_map. exact Hk. }
  rewrite Edf. cbn [columns rows].
  assert (F2 : Forall2
    (fun row m => convert_row model_validate flds row = inr m)
    (map (fun d => map (cell d) flds) (map model_dump ms)) ms).
  { clear Hne Edf df. induction ms as [|m ms IH]; [constructor|].
    pose proof (Forall_inv Hk) as Hk1. pose proof (Forall_inv_tail Hk) as Hk2.
    pose proof (Forall_inv Hv) as Hv1. pose proof (Forall_inv_tail Hv) as Hv2.
    simpl in Hk1, Hv1. simpl. constructor; [|now apply IH].
    unfold convert_row. rewrite <- Hk1 at 1 2.
    rewrite to_dict_cells by (rewrite Hk1; exact Hnd). exact Hv1. }
  destruct (successes_all _ _ _ F2) as [Es Ef].
  split; [exact Es|]. split; [exact Ef|]. split.
  - unfold empty. cbn [columns rows].
    destruct flds; [congruence|]. destruct ms; [congruence | reflexivity].
  - now rewrite !length_map.
Qed.

End ModelClass.

End Conversion.

(** ** Model and table conversion *)

Module ConversionClaims.

Import Frame FrameFacts Transformer Outcome TransformerFacts H5N1 CaseModel.
Import Conversion.

Lemma distinct_NoDup xs : Batch.distinct xs = true -> NoDup xs.
Proof.
  induction xs as [|x xs IH]; simpl; intros H; constructor.
  - apply andb_prop in H as [H _]. apply negb_true_iff in H.
    now apply mem_not_In.
  - apply andb_prop in H as [_ H]. now apply IH.
Qed.

Lemma fields_NoDup : NoDup fields.
Proof. apply distinct_NoDup. reflexivity. Qed.

Lemma successes_In {M} (validate : dict -> result M) cols rs m :
  In m (successes validate cols rs) <->
  exists row, In row rs /\ convert_row validate cols row = inr m.
Proof.
  induction rs as [|row rs IH]; simpl.
  - split; [tauto | intros (? & [] & _)].
  - destruct (convert_row validate cols row) as [e|m'] eqn:E; simpl.
    + rewrite IH. split.
      * intros (r & Hr & Hm). exists r. auto.
      * intros (r & [<-|Hr] & Hm); [congruence | exists r; auto].
    + rewrite IH. split.
      * intros [<-|(r & Hr & Hm)]; [exists row; auto | exists r; auto].
      * intros (r & [<-|Hr] & Hm); [left; congruence | right; exists r; auto].
Qed.

(** C8.  Validated AvianFluCase records, in particular ten of them with
    distinct [case_id], are recovered exactly, in order and field by
    field, by [model_to_dataframe] followed by [dataframe_to_models]; no
    row is reported as a conversion error. *)
Theorem model_dataframe_round_trip (now : datetime) (ms : list AvianFluCase) :
  Forall validated ms ->
  let df := fst (model_to_dataframe model_dump ms) in
  let out := dataframe_to_models "AvianFluCase" (model_validate now) df in
  fst out = ms
  /\ length (fst out) = length ms
  /\ count_level ERROR (snd out) = 0.
Proof.
  intros Hv. destruct ms as [|m ms']; [repeat split|].
  assert (Hne : m :: ms' <> []) by discriminate.
  revert Hv Hne. generalize (m :: ms'). clear m ms'.
  intros ms Hv Hne df out.
  destruct (round_trip_uniform model_dump (model_validate now) fields ms)
    as (Es & Ef & He & _); try assumption.
  - discriminate.
  - exact fields_NoDup.
  - apply Forall_forall. intros c _. apply model_dump_keys.
  - apply Forall_forall. intros c Hc. rewrite model_dump_dropna.
    apply model_validate_dump. rewrite Forall_forall in Hv. now apply Hv.
  - fold df in Es, Ef, He. unfold out.
    rewrite (dataframe_to_models_nonempty _ _ _ He), Es, Ef. cbn [fst snd].
    repeat split; reflexivity.
Qed.

(** C8 at ten validated cases with distinct [case_id]. *)
Lemma model_dataframe_round_trip_witness :
  length Batch.ten_cases = 10
  /\ NoDup (map case_id Batch.ten_cases)
  /\ Forall validated Batch.ten_cases
  /\ fst (dataframe_to_models "AvianFluCase" (model_validate Batch.noon)
            (fst (model_to_dataframe model_dump Batch.ten_cases)))
     = Batch.ten_cases.
Proof.
  split; [reflexivity|].
  split; [apply distinct_NoDup; reflexivity|].
  assert (Hv : Forall validated Batch.ten_cases)
    by (repeat constructor).
  split; [exact Hv|].
  exact (proj1 (model_dataframe_round_trip Batch.noon Batch.ten_cases Hv)).
Defined.

Lemma error_count (model_name : string) (bad : list exn)
    (tail : list log_record) :
  count_level ERROR
    ((map (fun e => (ERROR, erro_ao_converter model_name e)) bad
      ++ match bad with
         | [] => []
         | _ :: _ => [(WARNING, ocorreram (length bad))]
         end)
     ++ tail)
  = length bad + count_level ERROR tail.
Proof.
  rewrite !count_level_app, count_error_map.
  destruct bad; unfold count_level; simpl; lia.
Qed.

(** C9.  [dataframe_to_models] returns on every frame.  An empty frame
    is answered with the empty list and one warning.  On any other frame
    it returns the records of exactly the rows that validate, in row
    order, logs one error per row that does not and a warning with their
    number; a row that fails never stops the loop.  Ten rows of which two
    fail give eight records and two logged errors. *)
Theorem dataframe_to_models_skips_failures {M : Type}
    (model_name : string) (model_validate : dict -> result M)
    (df : DataFrame) :
  let out := dataframe_to_models model_name model_validate df in
  let bad := failures model_validate (columns df) (rows df) in
  (empty df = true ->
     out = ([], [(WARNING,
                  String.append "DataFrame vazio, retornando lista vazia de "
                    model_name)]))
  /\ (empty df = false ->
        fst out = successes model_validate (columns df) (rows df)
        /\ (forall m, In m (fst out) <->
              exists row, In row (rows df)
                /\ convert_row model_validate (columns df) row = inr m)
        /\ count_level ERROR (snd out) = length bad
        /\ length (fst out) + count_level ERROR (snd out) = length (rows df)
        /\ (bad <> [] -> In (WARNING, ocorreram (length bad)) (snd out))
        /\ (length (rows df) = 10 -> length bad = 2 ->
              length (fst out) = 8 /\ count_level ERROR (snd out) = 2)).
Proof.
  intros out bad. split.
  { intros He. unfold out, dataframe_to_models. now rewrite He. }
  intros He. unfold out.
  rewrite (dataframe_to_models_nonempty _ _ _ He). cbn [fst snd]. fold bad.
  pose proof (successes_failures_length model_validate (columns df) (rows df))
    as Hlen. fold bad in Hlen.
  rewrite (error_count model_name).
  change (count_level ERROR [(INFO, _)]) with 0. rewrite Nat.add_0_r.
  split; [reflexivity|]. split; [intros m; apply successes_In|].
  split; [reflexivity|]. split; [exact Hlen|]. split.
  - intros Hb. apply in_or_app. left. apply in_or_app. right.
    destruct bad; [congruence | now left].
  - intros H10 H2. split; lia.
Qed.

(** C9 at the ten-row frame with two damaged rows. *)
Lemma dataframe_to_models_skips_failures_witness :
  empty Batch.damaged_frame = false
  /\ length (rows Batch.damaged_frame) = 10
  /\ length (fst (dataframe_to_models "AvianFluCase"
                    (model_validate Batch.noon) Batch.damaged_frame)) = 8
  /\ count_level ERROR
       (snd (dataframe_to_models "AvianFluCase"
               (model_validate Batch.noon) Batch.damaged_frame)) = 2.
Proof.
  split; [reflexivity|]. split; [reflexivity|].
  exact (proj2 (proj2 (proj2 (proj2 (proj2
    (proj2 (dataframe_to_models_skips_failures "AvianFluCase"
              (model_validate Batch.noon) Batch.damaged_frame) eq_refl)))))
    eq_refl eq_refl).
Defined.

Example damaged_frame_result :
  fst (dataframe_to_models "AvianFluCase" (model_validate Batch.noon)
         Batch.damaged_frame)
  = [Batch.numbered 0 None; Batch.numbered 1 (Some (inject_Z (- 30)));
     Batch.numbered 3 (Some (inject_Z 5));
     Batch.numbered 4 None; Batch.numbered 5 (Some (Qmake (- 45) 2));
     Batch.numbered 7 (Some (inject_Z 90));
     Batch.numbered 8 None; Batch.numbered 9 (Some (inject_Z (- 90)))].
Proof. reflexivity. Qed.

End ConversionClaims.

Example uris_of_scenario :
  Minio.get_parquet_uris SyncScenario.one_object "raw" "avian_cases/"
  = inr ["s3://raw/avian_cases/ibama/year=2024/month=03/day=09/a.parquet"].
Proof. reflexivity. Qed.

Example sync_first_call :
  fst (Orchestrator.load_storage_to_database (SyncScenario.the_world true)
         "raw" "avian_cases/" "avian_cases" "20240309120000"
         SyncScenario.start)
  = inl (ValueError "The truth value of a DataFrame is ambiguous. Use a.empty, a.bool(), a.item(), a.any() or a.all().").
Proof. reflexivity. Qed.

Example insert_with_flag :
  fst (DuckDB.insert_dataframe false "avian_cases" (DuckDB.ArgBool true)
         "20240309120000" (Some SyncScenario.staged) SyncScenario.start)
  = inl (BinderException "Ambiguous reference to column name case_id (use: t.case_id or e.case_id)").
Proof. reflexivity. Qed.

Example insert_no_key :
  fst (DuckDB.insert_dataframe false "audit_log" (DuckDB.ArgBool true)
         "20240309120000" (Some SyncScenario.staged) SyncScenario.start)
  = inr 3%Z.
Proof. reflexivity. Qed.

Example insert_missing_column :
  fst (DuckDB.insert_dataframe false "audit_log" (DuckDB.ArgBool false)
         "20240309120000"
         (Some (DuckDB.mkRelation ["case_id"] [[Some "k9"]]))
         SyncScenario.start)
  = inl (BinderException "Referenced column region not found in FROM clause!").
Proof. reflexivity. Qed.

Example insert_without_flag_hits_key :
  fst (DuckDB.insert_dataframe false "avian_cases" (DuckDB.ArgBool false)
         "20240309120000" (Some SyncScenario.staged) SyncScenario.start)
  = inl (ConstraintException
           "Duplicate key or NULL violates primary key constraint")
  /\ fst (DuckDB.insert_dataframe false "avian_cases" (DuckDB.ArgBool false)
            "20240309120000" (Some SyncScenario.fresh) SyncScenario.start)
     = inr 2%Z.
Proof. split; reflexivity. Qed.

Example read_projects_on_table_columns :
  fst (DuckDB.read_external_parquet
         (fun _ => ok (DuckDB.mkRelation ["extra"; "region"; "case_id"]
                         [[Some "x"; Some "Sul"; Some "k7"]]))
         ["s3://raw/a.parquet"] (Some "avian_cases") SyncScenario.start)
  = inr (DuckDB.mkRelation ["case_id"; "region"] [[Some "k7"; Some "Sul"]]).
Proof. reflexivity. Qed.

Example sync_read_only_client :
  fst (Orchestrator.load_storage_to_database
         (Orchestrator.mkWorld SyncScenario.one_object SyncScenario.reader
            true true)
         "raw" "avian_cases/" "avian_cases" "20240309120000"
         SyncScenario.start)
  = inr 0%Z.
Proof. reflexivity. Qed.

(** ** The insert path *)

Module InsertFacts.

Import DuckDB Effects.

Section Facts.

Context {V : Type} `{SqlValue V}.

Lemma execute_no_faults {A} (run : db V A) (c : connection V) :
  faults c = [] -> execute run c = run c.
Proof. unfold execute. now intros ->. Qed.

Lemma keeps_execute {A} (run : db V A) :
  keeps_catalog run -> keeps_catalog (execute run).
Proof.
  intros Hr c. unfold execute.
  destruct (faults c) as [|[e|] fs]; [apply Hr | reflexivity |].
  now rewrite Hr.
Qed.

Lemma keeps_dbind {A B} (m : db V A) (k : A -> db V B) :
  keeps_catalog m -> (forall a, keeps_catalog (k a)) ->
  keeps_catalog (dbind m k).
Proof.
  intros Hm Hk c. unfold dbind. specialize (Hm c).
  destruct (m c) as [[e|a] c']; simpl in *; [exact Hm|].
  now rewrite Hk.
Qed.

Lemma keeps_catch {A} (m : db V A) (h : exn -> db V A) :
  keeps_catalog m -> (forall e, keeps_catalog (h e)) ->
  keeps_catalog (catch m h).
Proof.
  intros Hm Hh c. unfold catch. specialize (Hm c).
  destruct (m c) as [[e|a] c']; simpl in *; [|exact Hm].
  now rewrite Hh.
Qed.

Lemma keeps_ret {A} (a : A) : keeps_catalog (V := V) (ret a).
Proof. intros c. reflexivity. Qed.

Lemma keeps_throw {A} (e : exn) : keeps_catalog (V := V) (A := A) (throw e).
Proof. intros c. reflexivity. Qed.

Lemma keeps_lift {A} (r : result A) : keeps_catalog (V := V) (lift r).
Proof. intros c. reflexivity. Qed.

Lemma keeps_find_table name : keeps_catalog (V := V) (find_table name).
Proof. intros c. unfold find_table. now destruct (assoc name (catalog c)). Qed.

Lemma keeps_count_rows name : keeps_catalog (V := V) (count_rows name).
Proof.
  apply keeps_dbind; [apply keeps_find_table | intros; apply keeps_ret].
Qed.

Lemma keeps_table_info name : keeps_catalog (V := V) (table_info name).
Proof.
  apply keeps_dbind; [apply keeps_find_table | intros; apply keeps_ret].
Qed.

Lemma keeps_create_temp name scanned :
  keeps_catalog (V := V) (create_temp_as name scanned).
Proof.
  intros c. unfold create_temp_as. destruct scanned; [|reflexivity].
  now destruct (assoc name (temp c)).
Qed.

Lemma keeps_get_table_columns name :
  keeps_catalog (V := V) (get_table_columns name).
Proof.
  apply keeps_catch; [|intros; apply keeps_throw].
  apply keeps_dbind; [|intros; apply keeps_ret].
  apply keeps_execute, keeps_table_info.
Qed.

Lemma raises_dbind_right {A B} (m : db V A) (k : A -> db V B) :
  (forall a, always_raises (k a)) -> always_raises (dbind m k).
Proof.
  intros Hk c. unfold dbind.
  destruct (m c) as [[e|a] c']; [now exists e | apply Hk].
Qed.

Lemma raises_catch_rethrow {A} (m : db V A) :
  always_raises m -> always_raises (catch m (fun e => throw e)).
Proof.
  intros Hm c. unfold catch. destruct (Hm c) as [e He].
  destruct (m c) as [[e'|a] c']; simpl in *; [now exists e' | discriminate].
Qed.

(** With a frame where the flag belongs, the body of [insert_dataframe]
    raises before any row is inserted: at the latest when the frame is
    asked for its truth value. *)
Lemma insert_body_frame_raises table df now scanned :
  always_raises (insert_body table (ArgFrame df) now scanned)
  /\ keeps_catalog (insert_body table (ArgFrame df) now scanned).
Proof.
  unfold insert_body. split.
  - apply raises_dbind_right. intros u.
    apply raises_dbind_right. intros n.
    intros c. unfold dbind, lift, truth. simpl. eexists. reflexivity.
  - apply keeps_dbind; [apply keeps_execute, keeps_create_temp|]. intros u.
    apply keeps_dbind; [apply keeps_execute, keeps_count_rows|]. intros n.
    intros c. reflexivity.
Qed.

Lemma insert_dataframe_frame_raises table df now scanned (c : connection V) :
  (exists e,
     fst (insert_dataframe false table (ArgFrame df) now scanned c) = inl e)
  /\ catalog (snd (insert_dataframe false table (ArgFrame df) now scanned c))
     = catalog c.
Proof.
  destruct (insert_body_frame_raises table df now scanned) as [Hr Hk].
  unfold insert_dataframe. split.
  - now apply raises_catch_rethrow.
  - apply keeps_catch; [exact Hk | intros; apply keeps_throw].
Qed.

End Facts.

End InsertFacts.

(** ** The orchestrator *)

Module SyncFacts.

Import DuckDB Orchestrator Effects InsertFacts.

Section Facts.

Context {V : Type} `{SqlValue V}.

Lemma keeps_read_external_parquet rp uris target :
  keeps_catalog (V := V) (read_external_parquet rp uris target).
Proof.
  unfold read_external_parquet. destruct uris as [|u us]; [apply keeps_ret|].
  apply keeps_catch; [|intros; apply keeps_throw].
  apply keeps_dbind; [apply keeps_execute, keeps_lift|]. intros df.
  destruct target as [table|]; [|apply keeps_ret].
  apply keeps_dbind; [apply keeps_get_table_columns | intros; apply keeps_ret].
Qed.

Lemma get_parquet_uris_error (s : Minio.store) bucket prefix e :
  s bucket prefix = inl e -> Minio.get_parquet_uris s bucket prefix = inl e.
Proof.
  intros E. unfold Minio.get_parquet_uris, Minio.list_parquet_files,
    Minio.list_objects. now rewrite E.
Qed.

Lemma get_parquet_uris_ok (s : Minio.store) bucket prefix names :
  s bucket prefix = inr names ->
  Minio.get_parquet_uris s bucket prefix
  = inr (map (Minio.uri bucket) (filter (Minio.endswith ".parquet") names)).
Proof.
  intros E. unfold Minio.get_parquet_uris, Minio.list_parquet_files,
    Minio.list_objects. now rewrite E.
Qed.

(** [load_storage_to_database] once the URIs are known and not empty. *)
Lemma load_with_uris (w : world V) bucket prefix table now uris c :
  Minio.get_parquet_uris (storage w) bucket prefix = inr uris ->
  uris <> [] ->
  load_storage_to_database w bucket prefix table now c
  = dbind (read_external_parquet (read_parquet w) uris (Some table))
      (fun df =>
         if negb (rel_empty df) then
           dbind (insert_dataframe (db_read_only w) table (ArgFrame df) now
                    (if scan_frames w then Some df else None))
             (fun num_inserted => ret num_inserted)
         else ret 0%Z) c.
Proof.
  intros E Hne. unfold load_storage_to_database.
  unfold dbind at 1. unfold lift. rewrite E.
  destruct uris; [congruence | reflexivity].
Qed.

(** The tables are the same after [load_storage_to_database] as before,
    and a count it returns is 0. *)
Lemma load_outcome (w : world V) bucket prefix table now c r c2 :
  load_storage_to_database w bucket prefix table now c = (r, c2) ->
  catalog c2 = catalog c /\ forall n, r = inr n -> n = 0%Z.
Proof.
  intros Hl.
  destruct (Minio.get_parquet_uris (storage w) bucket prefix)
    as [e|[|u us]] eqn:E.
  - unfold load_storage_to_database, dbind, lift in Hl. rewrite E in Hl.
    injection Hl as <- <-. split; [reflexivity | discriminate].
  - unfold load_storage_to_database, dbind, lift in Hl. rewrite E in Hl.
    injection Hl as <- <-. split; [reflexivity | now intros n [= <-]].
  - rewrite (load_with_uris w bucket prefix table now (u :: us) c E) in Hl
      by discriminate.
    unfold dbind at 1 in Hl.
    pose proof (keeps_read_external_parquet (read_parquet w) (u :: us)
                  (Some table) c) as Hk.
    destruct (read_external_parquet (read_parquet w) (u :: us) (Some table) c)
      as [[e|df] c1]; cbn [fst snd] in Hk.
    { injection Hl as <- <-. split; [exact Hk | discriminate]. }
    destruct (rel_empty df); cbn [negb] in Hl.
    { injection Hl as <- <-. split; [exact Hk | now intros n [= <-]]. }
    destruct (db_read_only w).
    { injection Hl as <- <-. split; [exact Hk | now intros n [= <-]]. }
    destruct (insert_dataframe_frame_raises table df now
                (if scan_frames w then Some df else None) c1)
      as [[e He] Hc].
    unfold dbind in Hl.
    destruct (insert_dataframe false table (ArgFrame df) now _ c1)
      as [[e'|n'] c3]; cbn [fst snd] in *; [|discriminate].
    injection Hl as <- <-. split; [congruence | discriminate].
Qed.

Lemma load_never_counts (w : world V) bucket prefix table now c :
  catalog (snd (load_storage_to_database w bucket prefix table now c))
  = catalog c
  /\ forall n,
       fst (load_storage_to_database w bucket prefix table now c) = inr n ->
       n = 0%Z.
Proof.
  destruct (load_storage_to_database w bucket prefix table now c)
    as [r c2] eqn:E.
  exact (load_outcome w bucket prefix table now c r c2 E).
Qed.

(** Whenever staged rows reach a writable client, the call raises. *)
Lemma load_staged_rows_raise (w : world V) bucket prefix table now uris df
    c c' :
  db_read_only w = false ->
  Minio.get_parquet_uris (storage w) bucket prefix = inr uris ->
  uris <> [] ->
  read_external_parquet (read_parquet w) uris (Some table) c = (inr df, c') ->
  rel_empty df = false ->
  exists e,
    fst (load_storage_to_database w bucket prefix table now c) = inl e.
Proof.
  intros Hro Hu Hne Hr He.
  rewrite (load_with_uris w bucket prefix table now uris c Hu Hne).
  unfold dbind at 1. rewrite Hr, He, Hro. cbn [negb].
  destruct (insert_dataframe_frame_raises table df now
              (if scan_frames w then Some df else None) c') as [[e E] _].
  exists e. unfold dbind.
  destruct (insert_dataframe false table (ArgFrame df) now _ c')
    as [[e'|n'] c'']; cbn [fst snd] in *; [exact E | discriminate].
Qed.

End Facts.

End SyncFacts.

(** ** Deduplicating insert *)

Module DedupFacts.

Import DuckDB Effects InsertFacts FrameFacts.

Section Facts.

Context {V : Type} `{SqlValue V}.

Lemma dbind_ok {A B} (m : db V A) (k : A -> db V B) c a c' :
  m c = (inr a, c') -> dbind m k c = k a c'.
Proof. intros E. unfold dbind. now rewrite E. Qed.

Lemma dbind_err {A B} (m : db V A) (k : A -> db V B) c e c' :
  m c = (inl e, c') -> dbind m k c = (inl e, c').
Proof. intros E. unfold dbind. now rewrite E. Qed.

Lemma catch_rethrow {A} (m : db V A) c :
  catch m (fun e => throw e) c = m c.
Proof. unfold catch, throw. now destruct (m c) as [[e|a] c']. Qed.

Section Quiet.

(** A connection without planned failures that holds the table. *)
Variable c : connection V.
Variable name : string.
Variable t : table V.
Hypothesis quiet : faults c = [].
Hypothesis held : assoc name (catalog c) = Some t.

Lemma find_table_held : find_table name c = (inr t, c).
Proof. unfold find_table. now rewrite held. Qed.

Lemma count_rows_held :
  execute (count_rows name) c = (inr (Z.of_nat (length (tbl_rows t))), c).
Proof.
  rewrite execute_no_faults by exact quiet.
  unfold count_rows. now rewrite (dbind_ok _ _ _ _ _ find_table_held).
Qed.

Lemma table_info_held :
  execute (table_info name) c = (inr (tbl_columns t), c).
Proof.
  rewrite execute_no_faults by exact quiet.
  unfold table_info. now rewrite (dbind_ok _ _ _ _ _ find_table_held).
Qed.

Lemma get_table_columns_held :
  get_table_columns name c = (inr (column_names t), c).
Proof.
  unfold get_table_columns. rewrite catch_rethrow.
  now rewrite (dbind_ok _ _ _ _ _ table_info_held).
Qed.

Lemma get_primary_key_held :
  _get_primary_key name c
  = (inr match filter snd (tbl_columns t) with
         | [] => None
         | (pk, _) :: _ => Some pk
         end, c).
Proof.
  unfold _get_primary_key, catch.
  rewrite (dbind_ok _ _ _ _ _ table_info_held).
  now destruct (filter snd (tbl_columns t)) as [|[pk b] rest].
Qed.

End Quiet.

Lemma bind_all_ok {A} (f : string -> result A) (g : string -> A) cols :
  (forall col, In col cols -> f col = inr (g col)) ->
  bind_all f cols = inr (map g cols).
Proof.
  induction cols as [|col cols IH]; intros Hf; [reflexivity|].
  simpl. rewrite Hf by now left. simpl.
  rewrite IH by (intros; apply Hf; now right). reflexivity.
Qed.

Lemma bind_all_binder_error {A} (f : string -> result A) cols :
  (forall col, In col cols -> succeeds (f col) \/ binder_error (f col)) ->
  (exists col, In col cols /\ binder_error (f col)) ->
  binder_error (bind_all f cols).
Proof.
  induction cols as [|col cols IH]; intros Hall (bad & Hin & Hbad);
    [contradiction|].
  simpl. destruct (Hall col (or_introl eq_refl)) as [[a Ea]|[msg Em]].
  - rewrite Ea. simpl.
    destruct Hin as [<-|Hin]; [destruct Hbad; congruence|].
    destruct IH as [msg Em].
    + intros col' Hc. apply Hall. now right.
    + now exists bad.
    + rewrite Em. now exists msg.
  - rewrite Em. now exists msg.
Qed.

Lemma has_column_In cols col : has_column cols col = true <-> In col cols.
Proof. apply mem_In. Qed.

(** Every column of the table is ambiguous or bound to the table side
    in the join; a column the staged relation also has is ambiguous. *)
Lemma bind_unqualified_table_column t_cols e_cols col :
  In col e_cols ->
  succeeds (bind_unqualified t_cols e_cols col)
  \/ binder_error (bind_unqualified t_cols e_cols col).
Proof.
  intros He. apply has_column_In in He. unfold bind_unqualified.
  rewrite He. destruct (has_column t_cols col).
  - right. eexists. reflexivity.
  - left. eexists. reflexivity.
Qed.

Lemma bind_unqualified_both t_cols e_cols col :
  In col t_cols -> In col e_cols ->
  binder_error (bind_unqualified t_cols e_cols col).
Proof.
  intros Ht He. apply has_column_In in Ht, He. unfold bind_unqualified.
  rewrite Ht, He. eexists. reflexivity.
Qed.

Lemma bind_qualified_own cols :
  bind_all (bind_qualified cols) cols = inr (map (fun _ => tt) cols).
Proof.
  apply bind_all_ok. intros col Hc. unfold bind_qualified.
  apply has_column_In in Hc. now rewrite Hc.
Qed.

Lemma first_key_is_column (t : table V) pk b rest :
  filter snd (tbl_columns t) = (pk, b) :: rest -> In pk (column_names t).
Proof.
  intros E. unfold column_names.
  assert (Hin : In (pk, b) (filter snd (tbl_columns t)))
    by (rewrite E; now left).
  apply filter_In in Hin as [Hin _].
  apply in_map_iff. now exists (pk, b).
Qed.

(** The anti-join statement never binds: its key column is missing from
    the staged relation, or it is in both relations and the unqualified
    select list is ambiguous. *)
Lemma insert_anti_join_fails (c : connection V) name t temp_name r pk b rest :
  assoc name (catalog c) = Some t ->
  assoc temp_name (temp c) = Some r ->
  filter snd (tbl_columns t) = (pk, b) :: rest ->
  exists msg,
    insert_anti_join name (column_names t) (column_names t) temp_name pk c
    = (inl (BinderException msg), c).
Proof.
  intros Ht Hr Hpk. pose proof (first_key_is_column t pk b rest Hpk) as Hin.
  unfold insert_anti_join.
  rewrite (dbind_ok _ _ _ _ _ (find_table_held c name t Ht)).
  assert (Er : find_temp temp_name c = (inr r, c))
    by (unfold find_temp; now rewrite Hr).
  rewrite (dbind_ok _ _ _ _ _ Er).
  unfold lift. unfold dbind at 1. rewrite bind_qualified_own.
  unfold dbind at 1. unfold bind_qualified at 1.
  destruct (has_column (rel_columns r) pk) eqn:Et;
    [|eexists; reflexivity].
  unfold dbind at 1. unfold bind_qualified.
  apply has_column_In in Hin as Hin'. rewrite Hin'.
  destruct (bind_all_binder_error
              (bind_unqualified (rel_columns r) (column_names t))
              (column_names t)) as [msg Em].
  - intros col Hc. now apply bind_unqualified_table_column.
  - exists pk. split; [exact Hin|].
    apply bind_unqualified_both; [now apply has_column_In | exact Hin].
  - exists msg. unfold dbind. now rewrite Em.
Qed.

End Facts.

End DedupFacts.

(** ** What an insert leaves behind *)

Module InsertOutcome.

Import DuckDB Effects InsertFacts FrameFacts DedupFacts.

Section Facts.

Context {V : Type} `{SqlValue V}.

Lemma create_temp_fresh (c : connection V) now df :
  faults c = [] -> assoc (temp_name now) (temp c) = None ->
  execute (create_temp_as (temp_name now) (Some df)) c
  = (inr tt, staged_conn c now df).
Proof.
  intros Hq Hf. rewrite execute_no_faults by exact Hq.
  unfold create_temp_as. now rewrite Hf.
Qed.

Lemma assoc_update {A} name (a : A) xs old :
  assoc name xs = Some old -> assoc name (update name a xs) = Some a.
Proof.
  induction xs as [|[n a'] xs IH]; simpl; [discriminate|].
  destruct (String.eqb n name) eqn:E; simpl; rewrite E; [reflexivity|].
  exact IH.
Qed.

Lemma position_nth cols col :
  In col cols ->
  exists i, position cols col = Some i /\ nth_error cols i = Some col.
Proof.
  induction cols as [|c cs IH]; [contradiction|]. intros Hin. simpl.
  destruct (String.eqb_spec c col) as [->|Hne]; [now exists 0|].
  destruct Hin as [->|Hin]; [contradiction|].
  destruct (IH Hin) as (i & Hp & Hn). rewrite Hp. now exists (S i).
Qed.

Lemma value_at_map cols (f : string -> cell V) col :
  In col cols -> value_at cols (map f cols) col = f col.
Proof.
  intros Hin. unfold value_at.
  destruct (position_nth cols col Hin) as (i & -> & Hn).
  apply nth_error_split in Hn as (l1 & l2 & -> & <-).
  rewrite map_app. simpl. rewrite app_nth2; rewrite length_map; [|lia].
  now rewrite Nat.sub_diag.
Qed.

Lemma place_own (t : table V) (f : string -> cell V) :
  place t (column_names t) (map f (column_names t)) = map f (column_names t).
Proof.
  unfold place. apply map_ext_in. intros col Hc. now apply value_at_map.
Qed.

(** With the flag set and a primary key declared, [insert_dataframe]
    raises a binder error and inserts nothing; the temporary table is
    left behind. *)
Lemma insert_dataframe_dedup_raises (c : connection V) name t now df pk b rest :
  faults c = [] ->
  assoc name (catalog c) = Some t ->
  assoc (temp_name now) (temp c) = None ->
  filter snd (tbl_columns t) = (pk, b) :: rest ->
  pk <> EmptyString ->
  exists msg,
    insert_dataframe false name (ArgBool true) now (Some df) c
    = (inl (BinderException msg), staged_conn c now df).
Proof.
  intros Hq Ht Hf Hpk Hne.
  unfold insert_dataframe. rewrite catch_rethrow. unfold insert_body.
  fold (temp_name now).
  rewrite (dbind_ok _ _ _ _ _ (create_temp_fresh c now df Hq Hf)).
  set (c1 := staged_conn c now df).
  assert (Hq1 : faults c1 = []) by exact Hq.
  assert (Ht1 : assoc name (catalog c1) = Some t) by exact Ht.
  rewrite (dbind_ok _ _ _ _ _ (count_rows_held c1 name t Hq1 Ht1)).
  unfold lift at 1. unfold dbind at 1. cbn [truth ok].
  rewrite (dbind_ok _ _ _ _ _ (get_primary_key_held c1 name t Hq1 Ht1)).
  rewrite Hpk. cbn [andb truthy].
  apply String.eqb_neq in Hne. rewrite Hne. cbn [negb].
  destruct (insert_anti_join_fails c1 name t (temp_name now) df pk b rest)
    as [msg Em]; try assumption.
  { unfold c1, staged_conn. cbn [temp assoc]. now rewrite String.eqb_refl. }
  exists msg. apply dbind_err.
  rewrite (dbind_ok _ _ _ _ _ (get_table_columns_held c1 name t Hq1 Ht1)).
  rewrite (dbind_ok _ _ _ _ _ (get_table_columns_held c1 name t Hq1 Ht1)).
  rewrite execute_no_faults by exact Hq1. exact Em.
Qed.

Lemma subset_In xs ys :
  subset xs ys = true -> forall x, In x xs -> In x ys.
Proof.
  unfold subset. rewrite forallb_forall. intros Hs x Hx.
  apply mem_In. now apply Hs.
Qed.

Lemma cast_rows_length name cols (rows new : list (list (cell V))) :
  cast_rows name cols rows = Some new -> length new = length rows.
Proof.
  revert new. induction rows as [|row rows IH]; simpl; intros new.
  - now intros [= <-].
  - destruct (cast_row name cols row) as [row'|]; [|discriminate].
    destruct (cast_rows name cols rows) as [rest|]; [|discriminate].
    intros [= <-]. simpl. now rewrite (IH rest eq_refl).
Qed.

(** The plain INSERT of the staged rows: the cast to the column types
    comes first, then the primary key. *)
Lemma insert_select_outcome (c : connection V) name t tn df :
  assoc name (catalog c) = Some t ->
  assoc tn (temp c) = Some df ->
  subset (column_names t) (rel_columns df) = true ->
  insert_select name (column_names t) (column_names t) tn c
  = match stored_values name t df with
    | None => (inl conversion_error, c)
    | Some new =>
        if constraint_ok t new then
          (inr tt,
           mkConnection
             (update name (mkTable (tbl_columns t) (tbl_rows t ++ new))
                (catalog c))
             (temp c) (faults c))
        else (inl constraint_error, c)
    end.
Proof.
  intros Ht Hr Hs. unfold insert_select.
  rewrite (dbind_ok _ _ _ _ _ (find_table_held c name t Ht)).
  assert (Er : find_temp tn c = (inr df, c))
    by (unfold find_temp; now rewrite Hr).
  rewrite (dbind_ok _ _ _ _ _ Er).
  unfold lift. unfold dbind at 1. rewrite bind_qualified_own.
  unfold dbind at 1.
  rewrite (bind_all_ok (bind_qualified (rel_columns df)) (fun _ => tt)).
  2:{ intros col Hc. unfold bind_qualified.
      apply (subset_In _ _ Hs), has_column_In in Hc. now rewrite Hc. }
  assert (Epl : map (place t (column_names t))
                  (map (fun row =>
                          map (value_at (rel_columns df) row) (column_names t))
                       (rel_rows df))
                = staged_values t df).
  { unfold staged_values. rewrite map_map. apply map_ext.
    intros row. apply place_own. }
  unfold append_rows, stored_values. rewrite Epl. reflexivity.
Qed.

Lemma no_key_no_constraint (t : table V) new :
  filter snd (tbl_columns t) = [] -> constraint_ok t new = true.
Proof.
  intros Hpk. unfold constraint_ok, pk_columns. now rewrite Hpk.
Qed.

(** [insert_dataframe] whenever it ends in the plain INSERT: with the
    flag unset, or with the flag set and no primary key declared. *)
Lemma insert_dataframe_outcome (c : connection V) name t now df
    (flag : bool) :
  faults c = [] ->
  assoc name (catalog c) = Some t ->
  assoc (temp_name now) (temp c) = None ->
  subset (column_names t) (rel_columns df) = true ->
  (flag = true -> filter snd (tbl_columns t) = []) ->
  insert_dataframe false name (ArgBool flag) now (Some df) c
  = match stored_values name t df with
    | None => (inl conversion_error, staged_conn c now df)
    | Some new =>
        if constraint_ok t new then
          (inr (Z.of_nat (length (rel_rows df))), appended c name t new)
        else (inl constraint_error, staged_conn c now df)
    end.
Proof.
  intros Hq Ht Hf Hs Hflag.
  unfold insert_dataframe. rewrite catch_rethrow. unfold insert_body.
  fold (temp_name now).
  rewrite (dbind_ok _ _ _ _ _ (create_temp_fresh c now df Hq Hf)).
  set (c1 := staged_conn c now df).
  assert (Hq1 : faults c1 = []) by exact Hq.
  assert (Ht1 : assoc name (catalog c1) = Some t) by exact Ht.
  rewrite (dbind_ok _ _ _ _ _ (count_rows_held c1 name t Hq1 Ht1)).
  unfold lift at 1. unfold dbind at 1. cbn [truth ok].
  assert (Hr1 : assoc (temp_name now) (temp c1) = Some df).
  { unfold c1, staged_conn. cbn [temp assoc]. now rewrite String.eqb_refl. }
  assert (Inner :
    dbind (get_table_columns name) (fun cols =>
      dbind (get_table_columns name) (fun sel =>
        execute (insert_select name cols sel (temp_name now)))) c1
    = insert_select name (column_names t) (column_names t) (temp_name now)
        c1).
  { rewrite (dbind_ok _ _ _ _ _ (get_table_columns_held c1 name t Hq1 Ht1)).
    rewrite (dbind_ok _ _ _ _ _ (get_table_columns_held c1 name t Hq1 Ht1)).
    now rewrite execute_no_faults by exact Hq1. }
  rewrite (insert_select_outcome c1 name t (temp_name now) df Ht1 Hr1 Hs)
    in Inner.
  assert (Plain :
    forall primary_key,
      (flag && truthy primary_key = false) ->
      dbind
        (if flag && truthy primary_key then
           dbind (get_table_columns name) (fun cols =>
           dbind (get_table_columns name) (fun sel =>
           execute (insert_anti_join name cols sel (temp_name now)
                      (match primary_key with
                       | Some pk => pk
                       | None => EmptyString
                       end))))
         else
           dbind (get_table_columns name) (fun cols =>
           dbind (get_table_columns name) (fun sel =>
           execute (insert_select name cols sel (temp_name now)))))
        (fun _ =>
           dbind (execute (drop_temp (temp_name now))) (fun _ =>
           dbind (execute (count_rows name)) (fun count_after =>
           ret (count_after - Z.of_nat (length (tbl_rows t)))%Z))) c1
      = match stored_values name t df with
        | None => (inl conversion_error, staged_conn c now df)
        | Some new =>
            if constraint_ok t new then
              (inr (Z.of_nat (length (rel_rows df))), appended c name t new)
            else (inl constraint_error, staged_conn c now df)
        end).
  { intros primary_key ->.
    destruct (stored_values name t df) as [new|] eqn:Est;
      [|now apply dbind_err].
    destruct (constraint_ok t new); [|now apply dbind_err].
    rewrite (dbind_ok _ _ _ _ _ Inner).
    set (c2 := mkConnection
                 (update name (mkTable (tbl_columns t) (tbl_rows t ++ new))
                    (catalog c1))
                 (temp c1) (faults c1)).
    assert (Hq2 : faults c2 = []) by exact Hq.
    assert (Drop : execute (drop_temp (temp_name now)) c2
                   = (inr tt, appended c name t new)).
    { rewrite execute_no_faults by exact Hq2. unfold drop_temp, c2, c1.
      cbn [temp staged_conn assoc remove catalog faults].
      now rewrite String.eqb_refl. }
    rewrite (dbind_ok _ _ _ _ _ Drop).
    assert (Ht3 : assoc name (catalog (appended c name t new))
                  = Some (mkTable (tbl_columns t) (tbl_rows t ++ new)))
      by (apply (assoc_update name _ (catalog c) t Ht)).
    rewrite (dbind_ok _ _ _ _ _
               (count_rows_held (appended c name t new) name _ Hq Ht3)).
    unfold ret. f_equal. f_equal. cbn [tbl_rows].
    unfold stored_values in Est. apply cast_rows_length in Est.
    unfold staged_values in Est. rewrite length_map in Est.
    rewrite length_app. lia. }
  destruct flag.
  - rewrite (dbind_ok _ _ _ _ _ (get_primary_key_held c1 name t Hq1 Ht1)).
    rewrite (Hflag eq_refl). now apply Plain.
  - unfold dbind at 1. unfold ret at 1. now apply Plain.
Qed.

End Facts.

End InsertOutcome.

(** ** Synchronisation *)

Module SyncClaims.

Import DuckDB Orchestrator Effects.
Import InsertFacts SyncFacts DedupFacts InsertOutcome.
Import SyncScenario.

(** C1 at a staged file of three rows and a table with a primary key
    that holds one of them: the first synchronisation raises, the second
    one, a second later, raises again instead of returning 0, and the
    table is as it was; this holds whether or not the engine finds the
    orchestrator's frame. *)
Theorem sync_twice_raises (scan : bool) :
  let first :=
    load_storage_to_database (the_world scan) "raw" "avian_cases/"
      "avian_cases" "20240309120000" start in
  let second :=
    load_storage_to_database (the_world scan) "raw" "avian_cases/"
      "avian_cases" "20240309120001" (snd first) in
  (exists e, fst first = inl e)
  /\ (exists e, fst second = inl e)
  /\ fst second <> inr 0%Z
  /\ catalog (snd second) = catalog start.
Proof.
  destruct scan; cbv zeta; (split; [eexists; reflexivity|]);
    (split; [eexists; reflexivity|]); (split; [discriminate | reflexivity]).
Qed.

(** C2 at the same table and staged rows, with the flag set: the
    deduplicating insert raises a binder error, nothing is inserted, no
    count is returned. *)
Theorem insert_dataframe_dedup_fails_on_scenario :
  insert_dataframe false "avian_cases" (ArgBool true) "20240309120000"
    (Some staged) start
  = (inl (BinderException "Ambiguous reference to column name case_id (use: t.case_id or e.case_id)"),
     mkConnection (catalog start)
       [("temp_insert_20240309120000", staged)] []).
Proof. reflexivity. Qed.

(** X12.  With the flag set, a table with no primary key gets every
    staged row whose values convert to the types of its columns: the
    rows stored are the staged rows projected on the table's columns
    and cast, and the count returned is the number of staged rows, the
    difference of the row counts.  A value that does not convert ends
    the call in the conversion error, with no row inserted. *)
Lemma insert_dataframe_no_key_appends :
  forall (V : Type) (SV : SqlValue V) (c : connection V)
         (name : string) (t : table V) (now : string) (df : relation V),
    faults c = [] ->
    assoc name (catalog c) = Some t ->
    assoc (temp_name now) (temp c) = None ->
    filter snd (tbl_columns t) = [] ->
    subset (column_names t) (rel_columns df) = true ->
    match stored_values name t df with
    | Some new =>
        exists c',
          insert_dataframe false name (ArgBool true) now (Some df) c
          = (inr (Z.of_nat (length (rel_rows df))), c')
          /\ assoc name (catalog c')
             = Some (mkTable (tbl_columns t) (tbl_rows t ++ new))
          /\ (Z.of_nat (length (rel_rows df))
              = Z.of_nat (length (tbl_rows t ++ new))
                - Z.of_nat (length (tbl_rows t)))%Z
    | None =>
        exists c',
          insert_dataframe false name (ArgBool true) now (Some df) c
          = (inl conversion_error, c')
          /\ catalog c' = catalog c
    end.
Proof.
  intros V SV c name t now df Hq Ht Hf Hpk Hs.
  pose proof (insert_dataframe_outcome c name t now df true Hq Ht Hf Hs
                (fun _ => Hpk)) as E.
  destruct (stored_values name t df) as [new|] eqn:Est.
  - rewrite (no_key_no_constraint t new Hpk) in E.
    exists (appended c name t new). split; [exact E | split].
    + apply (assoc_update name _ (catalog c) t Ht).
    + unfold stored_values in Est. apply cast_rows_length in Est.
      unfold staged_values in Est. rewrite length_map in Est.
      rewrite length_app. lia.
  - exists (staged_conn c now df). now split.
Qed.

(** C5 as stated fails: when listing the objects fails, the caller gets
    the storage error itself, not a SynchronizationError around it. *)
Lemma listing_failure_not_wrapped :
  fst (load_storage_to_database (mkWorld broken_store reader false true)
         "raw" "avian_cases/" "avian_cases" "20240309120000" start)
  = inl (S3Error "connection refused")
  /\ forall cause,
       fst (load_storage_to_database (mkWorld broken_store reader false true)
              "raw" "avian_cases/" "avian_cases" "20240309120000" start)
       <> inl (SynchronizationError cause).
Proof. split; [reflexivity | discriminate]. Qed.

(** C5, amended.  A failure while listing the objects, while reading the
    staged files or inside [insert_dataframe] ends
    [load_storage_to_database] with that same exception, unchanged and
    unwrapped; after a listing or reading failure the tables are as they
    were; [insert_dataframe] and [read_external_parquet] re-raise what
    their bodies raise. *)
Theorem load_storage_to_database_propagates
    (V : Type) (SV : SqlValue V) (w : world V)
    (bucket prefix table now : string) (c : connection V) :
  (forall e, storage w bucket prefix = inl e ->
     load_storage_to_database w bucket prefix table now c = (inl e, c))
  /\ (forall uris e c1,
        Minio.get_parquet_uris (storage w) bucket prefix = inr uris ->
        uris <> [] ->
        read_external_parquet (read_parquet w) uris (Some table) c
        = (inl e, c1) ->
        load_storage_to_database w bucket prefix table now c = (inl e, c1)
        /\ catalog c1 = catalog c)
  /\ (forall uris df c1 e c2,
        Minio.get_parquet_uris (storage w) bucket prefix = inr uris ->
        uris <> [] ->
        read_external_parquet (read_parquet w) uris (Some table) c
        = (inr df, c1) ->
        rel_empty df = false ->
        insert_dataframe (db_read_only w) table (ArgFrame df) now
          (if scan_frames w then Some df else None) c1 = (inl e, c2) ->
        load_storage_to_database w bucket prefix table now c = (inl e, c2))
  /\ (forall uris e, uris <> [] -> faults c = [] ->
        read_parquet w uris = inl e ->
        read_external_parquet (read_parquet w) uris (Some table) c
        = (inl e, c))
  /\ (forall arg scanned c1,
        insert_dataframe false table arg now scanned c1
        = insert_body table arg now scanned c1).
Proof.
  split; [|split; [|split; [|split]]].
  - intros e E. unfold load_storage_to_database.
    apply dbind_err. unfold lift.
    now rewrite (get_parquet_uris_error _ _ _ _ E).
  - intros uris e c1 Hu Hne Hr.
    rewrite (load_with_uris w bucket prefix table now uris c Hu Hne).
    split; [now apply dbind_err|].
    pose proof (keeps_read_external_parquet (read_parquet w) uris
                  (Some table) c) as Hk.
    now rewrite Hr in Hk.
  - intros uris df c1 e c2 Hu Hne Hr He Hi.
    rewrite (load_with_uris w bucket prefix table now uris c Hu Hne).
    rewrite (dbind_ok _ _ _ _ _ Hr), He. cbn [negb].
    now apply dbind_err.
  - intros uris e Hne Hq Hr. unfold read_external_parquet.
    destruct uris as [|u us]; [congruence|].
    rewrite catch_rethrow. apply dbind_err.
    rewrite execute_no_faults by exact Hq. unfold lift. now rewrite Hr.
  - intros arg scanned c1. unfold insert_dataframe. apply catch_rethrow.
Qed.

(** The one handler that does not re-raise: a failure of the statement
    behind [_get_primary_key] is answered with [None], and the insert
    goes on without deduplication. *)
Lemma primary_key_failure_swallowed :
  fst (insert_dataframe false "avian_cases" (ArgBool true) "20240309120000"
         (Some fresh)
         (mkConnection (catalog start) []
            [None; None; Some (IOException "disk")]))
  = inr 2%Z
  /\ fst (insert_dataframe false "avian_cases" (ArgBool true)
            "20240309120000" (Some staged)
            (mkConnection (catalog start) []
               [None; None; Some (IOException "disk")]))
     = inl (ConstraintException
              "Duplicate key or NULL violates primary key constraint").
Proof. split; reflexivity. Qed.

(** Whenever staged rows reach a writable client through the
    orchestrator, the call raises; a count it returns is always 0. *)
Lemma load_storage_to_database_never_counts
    (V : Type) (SV : SqlValue V) (w : world V)
    (bucket prefix table now : string) (c : connection V) (n : Z) :
  fst (load_storage_to_database w bucket prefix table now c) = inr n ->
  n = 0%Z.
Proof. apply load_never_counts. Qed.

(** X13.  With the flag set and a primary key declared, no staged row
    is ever inserted: the statement with the anti-join fails to bind,
    whatever the staged rows and the rows of the table are. *)
Lemma insert_dataframe_dedup_never_inserts
    (V : Type) (SV : SqlValue V) (c : connection V)
    (name : string) (t : table V) (now : string) (df : relation V)
    (pk : string) (b : bool) (rest : list (string * bool)) :
  faults c = [] ->
  assoc name (catalog c) = Some t ->
  assoc (temp_name now) (temp c) = None ->
  filter snd (tbl_columns t) = (pk, b) :: rest ->
  pk <> EmptyString ->
  exists msg c',
    insert_dataframe false name (ArgBool true) now (Some df) c
    = (inl (BinderException msg), c')
    /\ catalog c' = catalog c.
Proof.
  intros Hq Ht Hf Hpk Hne.
  destruct (insert_dataframe_dedup_raises c name t now df pk b rest
              Hq Ht Hf Hpk Hne) as [msg E].
  exists msg, (staged_conn c now df). now split.
Qed.

End SyncClaims.

(** ** Storage keys: construction and parsing, further properties *)

Module KeyProperties.

Import Storage Validity Segments Ranges H5N1.
Import StorageFacts PathFacts RoundTrip ParseFacts FormatFacts.

Lemma str_early_year n :
  (1 <= n <= 999)%Z -> Py.len (Py.str n) <> 4.
Proof.
  intros Hn.
  pose proof (Z_range_forallb
    (fun n => negb (Py.len (Py.str n) =? 4)) 1 999) as H.
  specialize (H ltac:(vm_compute; reflexivity) n Hn).
  apply negb_true_iff, Nat.eqb_neq in H. exact H.
Qed.

(** X3.  A record gets a storage key exactly when its detection date is
    of year 1000 or later: the year is printed without padding, so an
    earlier year has fewer than the four digits the key demands, and
    [to_storage_key] raises ValueError. *)
Theorem to_storage_key_succeeds_iff (c : AvianFluCase) (f : string) :
  datetime_valid (detection_date c) ->
  (succeeds (to_storage_key c f)
   <-> (1000 <= dt_year (detection_date c))%Z)
  /\ ((dt_year (detection_date c) < 1000)%Z ->
      is_ValueError (to_storage_key c f)).
Proof.
  intros Hv.
  assert (Hearly : (dt_year (detection_date c) < 1000)%Z ->
                   ~ date_fields_valid
                       (Py.str (dt_year (detection_date c)))
                       (Py.fmt_02d (dt_month (detection_date c)))
                       (Py.fmt_02d (dt_day (detection_date c)))).
  { intros Hlt [[Hlen _] _]. destruct Hv as (Hy & _).
    apply (str_early_year (dt_year (detection_date c))); [lia | exact Hlen]. }
  split; [split|].
  - intros [k Hk]. unfold to_storage_key in Hk.
    apply StorageKey_new_ok in Hk as [_ Hd].
    destruct (Z_lt_le_dec (dt_year (detection_date c)) 1000) as [Hlt|Hge];
      [|exact Hge].
    exfalso. now apply (Hearly Hlt).
  - intros Hge. now apply BuildClaims.to_storage_key_succeeds.
  - intros Hlt. unfold to_storage_key.
    apply StorageKey_new_invalid. now apply Hearly.
Qed.

Lemma to_storage_key_succeeds_iff_witness :
  datetime_valid (detection_date Scenario.wahis)
  /\ succeeds (to_storage_key Scenario.wahis "data.parquet")
  /\ is_ValueError
       (to_storage_key
          (Scenario.case_from "OIE WAHIS" (Scenario.midnight 999 5 15))
          "data.parquet").
Proof.
  split; [|split].
  - unfold datetime_valid; simpl; lia.
  - apply (proj1 (to_storage_key_succeeds_iff Scenario.wahis "data.parquet"
                    ltac:(unfold datetime_valid; simpl; lia))).
    simpl; lia.
  - apply (proj2 (to_storage_key_succeeds_iff
                    (Scenario.case_from "OIE WAHIS"
                       (Scenario.midnight 999 5 15)) "data.parquet"
                    ltac:(unfold datetime_valid; simpl; lia))).
    simpl; lia.
Defined.

(** The path that witnesses X2: the month segment has no '='. *)
Lemma from_path_segment_without_equals_witness :
  6 <= segment_count "avian_cases/s/year=2023/month/day=15/f"
  /\ has_values "avian_cases/s/year=2023/month/day=15/f" = false
  /\ is_IndexError
       (from_path RAW "avian_cases/s/year=2023/month/day=15/f").
Proof.
  split; [vm_compute; lia | split; [reflexivity|]].
  apply (ParseClaims.from_path_segment_without_equals RAW
           "avian_cases/s/year=2023/month/day=15/f");
    [vm_compute; lia | reflexivity].
Defined.

(** X21.  Every key [from_path] returns has valid date fields and the
    bucket it was given, and is a fixed point of printing and parsing:
    its [full_path] parses to the same key, whatever the keys before
    '=' and the segments after the sixth were in the path it came
    from. *)
Theorem from_path_canonical (b : BucketName) (path : string)
    (k : StorageKey) :
  from_path b path = inr k ->
  date_fields_valid (year k) (month k) (day k)
  /\ bucket k = b
  /\ Storage.source k = segment path 1 /\ filename k = segment path 5
  /\ from_path b (full_path k) = inr k.
Proof.
  intros Hk.
  destruct (Nat.lt_ge_cases (segment_count path) 6) as [Hlt|Hge].
  { rewrite (from_path_short b path Hlt) in Hk. discriminate. }
  destruct (has_values path) eqn:Hv.
  2:{ rewrite (from_path_without_values b path Hge Hv) in Hk. discriminate. }
  rewrite (from_path_with_values b path Hge Hv) in Hk.
  destruct (DataCategory_of (segment path 0)) as [e|c]; [discriminate|].
  cbn [bind ok] in Hk. apply StorageKey_new_ok in Hk as [-> Hd].
  cbn [year month day bucket Storage.source filename].
  split; [exact Hd | split; [reflexivity | split; [reflexivity|]]].
  split; [reflexivity|].
  apply (from_path_full_path_valid
           (mkStorageKey b c (segment path 1) (value_of (segment path 2))
              (value_of (segment path 3)) (value_of (segment path 4))
              (segment path 5)));
    [exact Hd | apply segment_no_slash | apply segment_no_slash].
Qed.

Lemma from_path_canonical_witness :
  from_path RAW "avian_cases/s/a=2023/b=05/c=15/f/extra"
  = inr (mkStorageKey RAW AVIAN_CASES "s" "2023" "05" "15" "f")
  /\ from_path RAW "avian_cases/s/year=2023/month=05/day=15/f"
     = inr (mkStorageKey RAW AVIAN_CASES "s" "2023" "05" "15" "f").
Proof.
  split; [reflexivity|].
  apply (from_path_canonical RAW "avian_cases/s/a=2023/b=05/c=15/f/extra"
           (mkStorageKey RAW AVIAN_CASES "s" "2023" "05" "15" "f")).
  reflexivity.
Defined.

(** X22.  Two keys with valid date fields, whose sources and file names
    hold no '/', have the same [full_path] under the same bucket only if
    they are the same key. *)
Theorem full_path_injective (k1 k2 : StorageKey) :
  date_fields_valid (year k1) (month k1) (day k1) ->
  date_fields_valid (year k2) (month k2) (day k2) ->
  Py.contains_char "/" (Storage.source k1) = false ->
  Py.contains_char "/" (filename k1) = false ->
  Py.contains_char "/" (Storage.source k2) = false ->
  Py.contains_char "/" (filename k2) = false ->
  bucket k1 = bucket k2 ->
  full_path k1 = full_path k2 ->
  k1 = k2.
Proof.
  intros V1 V2 S1 F1 S2 F2 Hb Hp.
  pose proof (from_path_full_path_valid k1 V1 S1 F1) as E1.
  pose proof (from_path_full_path_valid k2 V2 S2 F2) as E2.
  rewrite Hb, Hp, E2 in E1. now injection E1.
Qed.

Lemma full_path_injective_witness :
  mkStorageKey RAW AVIAN_CASES "s" "2023" "05" "15" "f"
  = mkStorageKey RAW AVIAN_CASES "s" "2023" "05" "15" "f".
Proof.
  apply (full_path_injective
           (mkStorageKey RAW AVIAN_CASES "s" "2023" "05" "15" "f")
           (mkStorageKey RAW AVIAN_CASES "s" "2023" "05" "15" "f"));
    try reflexivity;
    (split; [split; reflexivity|]);
    (split; (split; [reflexivity|]));
    [exists 5%Z | exists 15%Z | exists 5%Z | exists 15%Z];
    (split; [reflexivity | lia]).
Defined.

(** Without the condition on '/', two keys do share a path. *)
Example full_path_collision :
  full_path (mkStorageKey RAW AVIAN_CASES "a/year=2023/month=05/day=15" "2023" "05" "15" "f")
  = String.append "avian_cases/a/year=2023/month=05/day=15"
      "/year=2023/month=05/day=15/f"
  /\ from_path RAW
       (full_path (mkStorageKey RAW AVIAN_CASES "a/year=2023/month=05/day=15"
                     "2023" "05" "15" "f"))
     = inr (mkStorageKey RAW AVIAN_CASES "a" "2023" "05" "15" "year=2023").
Proof. split; reflexivity. Qed.

Lemma legacy_from_path_short b path :
  segment_count path < 6 ->
  Legacy.from_path b path = inl (caminho_invalido path).
Proof.
  unfold segment_count, Legacy.from_path. intros H.
  apply Nat.ltb_lt in H. now rewrite H.
Qed.

Lemma legacy_from_path_without_values b path :
  6 <= segment_count path -> has_values path = false ->
  Legacy.from_path b path = inl (IndexError "list index out of range").
Proof.
  intros Hn Hv. rewrite (legacy_from_path_long b path Hn).
  unfold has_values in Hv.
  destruct (Py.contains_char "=" (segment path 2)) eqn:E2.
  - rewrite (value_index_some _ E2).
    destruct (Py.contains_char "=" (segment path 3)) eqn:E3.
    + rewrite (value_index_some _ E3).
      destruct (Py.contains_char "=" (segment path 4)) eqn:E4;
        [discriminate|].
      now rewrite (value_index_none _ E4).
    + now rewrite (value_index_none _ E3).
  - now rewrite (value_index_none _ E2).
Qed.

(** X23.  The older [from_path] succeeds exactly on the paths with at
    least six segments, an '=' in each of the third, fourth and fifth,
    and a leading segment that is one of its two categories; the year,
    month and day of its key are the second '='-pieces of those
    segments ([split('=')[1]]), taken as they come, with no check. *)
Theorem legacy_from_path_succeeds_iff (b : Legacy.BucketName)
    (path : string) :
  (succeeds (Legacy.from_path b path)
   <-> 6 <= segment_count path /\ has_values path = true
       /\ (segment path 0 = "avian_cases"
           \/ segment path 0 = "surveillance"))
  /\ (forall k, Legacy.from_path b path = inr k ->
        Legacy.year k = value_of (segment path 2)
        /\ Legacy.month k = value_of (segment path 3)
        /\ Legacy.day k = value_of (segment path 4)).
Proof.
  destruct (Nat.lt_ge_cases (segment_count path) 6) as [Hlt|Hge].
  { rewrite (legacy_from_path_short b path Hlt).
    split; [|discriminate].
    split; [intros [k [=]] | intros (Hn & _); lia]. }
  destruct (has_values path) eqn:Hv.
  2:{ rewrite (legacy_from_path_without_values b path Hge Hv).
      split; [|discriminate].
      split; [intros [k [=]] | intros (_ & [=] & _)]. }
  apply has_values_true in Hv as (H2 & H3 & H4).
  rewrite (legacy_from_path_long b path Hge).
  rewrite !value_index_some by assumption. cbn [bind].
  unfold Legacy.DataCategory_of.
  destruct (String.eqb_spec (segment path 0) "avian_cases") as [E|N1].
  { cbn [ok bind Legacy.StorageKey_new]. split.
    - split; [intros _; auto | intros _; eexists; reflexivity].
    - intros k [= <-]. now repeat split. }
  destruct (String.eqb_spec (segment path 0) "surveillance") as [E|N2].
  { cbn [ok bind Legacy.StorageKey_new]. split.
    - split; [intros _; auto | intros _; eexists; reflexivity].
    - intros k [= <-]. now repeat split. }
  cbn [raise bind]. split; [|discriminate].
  split; [intros [k [=]] | intros (_ & _ & [E|E]); contradiction].
Qed.

(** The value of a segment is its second '='-piece: what follows a
    second '=' is dropped, by both classes. *)
Example from_path_second_piece :
  from_path RAW "avian_cases/s/year=2023=x/month=05/day=15/f"
  = inr (mkStorageKey RAW AVIAN_CASES "s" "2023" "05" "15" "f")
  /\ Legacy.from_path Legacy.RAW "avian_cases/s/year=20=23/month=05/day=15/f"
     = inr (Legacy.mkStorageKey Legacy.RAW Legacy.AVIAN_CASES "s"
              "20" "05" "15" "f").
Proof. split; reflexivity. Qed.

(** What the date checks ask of a month or a day, spelled out: decimal
    digits, at most 4300 of them, with a value in range. *)
Lemma numeral_in_spec lo hi s :
  numeral_in lo hi s
  <-> s <> EmptyString
      /\ Py.all_chars Py.is_decimal_char s = true
      /\ (Z.of_nat (Py.len s) <= 4300)%Z
      /\ (lo <= Py.int_acc 0 s <= hi)%Z.
Proof.
  unfold numeral_in. split.
  - intros (Hd & n & Hn & Hr).
    pose proof (int_ok_inv s n Hn) as (Hne & Hdec & ->).
    split; [exact Hne | split; [exact Hdec | split; [|exact Hr]]].
    unfold Py.int in Hn. destruct s as [|c s]; [congruence|].
    rewrite Hdec in Hn.
    destruct (4300 <? Z.of_nat (Py.len (String c s)))%Z eqn:E;
      [discriminate|].
    now apply Z.ltb_ge in E.
  - intros (Hne & Hdec & Hlen & Hr).
    assert (Hi : Py.int s = inr (Py.int_acc 0 s)).
    { unfold Py.int. destruct s as [|c s]; [congruence|].
      rewrite Hdec. apply Z.ltb_ge in Hlen. now rewrite Hlen. }
    split; [now apply (int_ok_isdigit s (Py.int_acc 0 s))|].
    now exists (Py.int_acc 0 s).
Qed.

(** A month of 4300 digits is taken, one of 4301 is not. *)
Example long_month :
  succeeds
    (StorageKey_new RAW AVIAN_CASES "s" "2023"
       (String.append (MoreScenarios.zeros 4299) "5") "15" "f")
  /\ is_ValueError
       (StorageKey_new RAW AVIAN_CASES "s" "2023"
          (String.append (MoreScenarios.zeros 4300) "5") "15" "f").
Proof. split; eexists; vm_compute; reflexivity. Qed.

End KeyProperties.

(** ** Keys of the older client *)

Module LegacyKeys.

Import Validity Segments Ranges H5N1 Shapes.
Import StorageFacts PathFacts RoundTrip ParseFacts FormatFacts.

Lemma two_digits_clean n :
  (0 <= n <= 59)%Z -> Py.contains_char "/" (Py.fmt_02d n) = false.
Proof.
  intros Hn.
  pose proof (Z_range_forallb
    (fun n => negb (Py.contains_char "/" (Py.fmt_02d n))) 0 59) as H.
  specialize (H ltac:(vm_compute; reflexivity) n Hn).
  now apply negb_true_iff in H.
Qed.

Lemma generate_key_shape c source t uuid_str :
  LegacyMinio._generate_key c source t uuid_str =
    String.append (Legacy.category_value c)
   (String "/" (String.append source
   (String "/" (String.append
                  (String.append "year" (String "=" (Strftime.year4 t)))
   (String "/" (String.append
                  (String.append "month" (String "=" (Strftime.month2 t)))
   (String "/" (String.append
                  (String.append "day" (String "=" (Strftime.day2 t)))
   (String "/" (LegacyMinio.data_filename t uuid_str)))))))))).
Proof. reflexivity. Qed.

Section Stamp.

Variable t : datetime.
Hypothesis date_ok : datetime_valid t.
Hypothesis time_ok : time_valid t.
Hypothesis four_digits : (1000 <= dt_year t)%Z.

Lemma year4_fields :
  Py.len (Strftime.year4 t) = 4 /\ Py.int (Strftime.year4 t) = inr (dt_year t).
Proof. destruct date_ok as (Hy & _). apply str_year. lia. Qed.

Lemma month2_fields :
  Py.int (Strftime.month2 t) = inr (dt_month t).
Proof. destruct date_ok as (_ & Hm & _). apply fmt_02d_small. lia. Qed.

Lemma day2_fields :
  Py.int (Strftime.day2 t) = inr (dt_day t).
Proof. destruct date_ok as (_ & _ & Hd). now apply fmt_02d_small. Qed.

Lemma stamp_fields_valid :
  date_fields_valid (Strftime.year4 t) (Strftime.month2 t) (Strftime.day2 t).
Proof.
  destruct year4_fields as [Ly Iy]. destruct date_ok as (_ & Hm & Hd).
  split; [|split].
  - split; [exact Ly|]. apply isdigit_all. eapply int_ok_isdigit, Iy.
  - split; [eapply int_ok_isdigit, month2_fields|].
    eexists; split; [apply month2_fields | lia].
  - split; [eapply int_ok_isdigit, day2_fields|].
    eexists; split; [apply day2_fields | lia].
Qed.

Lemma compact_clean : Py.contains_char "/" (Strftime.compact t) = false.
Proof.
  destruct time_ok as (Hh & Hmi & Hs). destruct date_ok as (_ & Hm & Hd).
  unfold Strftime.compact.
  repeat apply contains_char_append.
  - apply isdigit_no_slash. eapply int_ok_isdigit, (proj2 year4_fields).
  - apply isdigit_no_slash. eapply int_ok_isdigit, month2_fields.
  - apply isdigit_no_slash. eapply int_ok_isdigit, day2_fields.
  - apply two_digits_clean. lia.
  - apply two_digits_clean. lia.
  - apply two_digits_clean. lia.
Qed.

Lemma data_filename_clean uuid_str :
  Py.contains_char "/" uuid_str = false ->
  Py.contains_char "/" (LegacyMinio.data_filename t uuid_str) = false.
Proof.
  intros Hu. unfold LegacyMinio.data_filename.
  apply contains_char_append; [reflexivity|].
  apply contains_char_append; [apply compact_clean|].
  apply contains_char_append; [reflexivity|].
  apply contains_char_append; [exact Hu | reflexivity].
Qed.

Lemma generate_key_split c source uuid_str :
  Py.contains_char "/" source = false ->
  Py.contains_char "/" uuid_str = false ->
  Py.split "/" (LegacyMinio._generate_key c source t uuid_str) =
    [Legacy.category_value c; source;
     String.append "year" (String "=" (Strftime.year4 t));
     String.append "month" (String "=" (Strftime.month2 t));
     String.append "day" (String "=" (Strftime.day2 t));
     LegacyMinio.data_filename t uuid_str].
Proof.
  intros Hs Hu. rewrite generate_key_shape.
  destruct stamp_fields_valid as (Vy & Vm & Vd).
  rewrite split_segment by (destruct c; reflexivity).
  rewrite split_segment by exact Hs.
  rewrite split_segment
    by (apply key_value_no_slash; [reflexivity | now apply year_isdigit]).
  rewrite split_segment
    by (apply key_value_no_slash;
        [reflexivity | now apply (numeral_isdigit 1 12)]).
  rewrite split_segment
    by (apply key_value_no_slash;
        [reflexivity | now apply (numeral_isdigit 1 31)]).
  rewrite split_last by now apply data_filename_clean.
  reflexivity.
Qed.

End Stamp.

(** X4.  The object key the older client generates is read back by the
    older [from_path] as exactly the key [upload_dataframe] builds from
    the same category, source, timestamp and identifier.  The newer
    [from_path] reads the same fields from an avian_cases key, and
    rejects a surveillance key: its category enum has lost that
    member. *)
Theorem generate_key_parses
    (b : Legacy.BucketName) (c : Legacy.DataCategory)
    (source : string) (t : datetime) (uuid_str : string) :
  datetime_valid t -> time_valid t -> (1000 <= dt_year t)%Z ->
  Py.contains_char "/" source = false ->
  Py.contains_char "/" uuid_str = false ->
  Legacy.from_path b (LegacyMinio._generate_key c source t uuid_str)
  = LegacyMinio.upload_dataframe_key b c source t uuid_str
  /\ Storage.from_path Storage.RAW
       (LegacyMinio._generate_key c source t uuid_str)
     = match c with
       | Legacy.AVIAN_CASES =>
           inr (Storage.mkStorageKey Storage.RAW Storage.AVIAN_CASES source
                  (Strftime.year4 t) (Strftime.month2 t) (Strftime.day2 t)
                  (LegacyMinio.data_filename t uuid_str))
       | Legacy.SURVEILLANCE => inl (categoria_invalida "surveillance")
       end.
Proof.
  intros Hd Ht Hy Hs Hu.
  pose proof (stamp_fields_valid t Hd Hy) as Hv.
  pose proof Hv as (Vy & Vm & Vd).
  pose proof (isdigit_no_equals _ (year_isdigit _ Vy)) as Ey.
  pose proof (isdigit_no_equals _ (numeral_isdigit _ _ _ Vm)) as Em.
  pose proof (isdigit_no_equals _ (numeral_isdigit _ _ _ Vd)) as Ed.
  split.
  - unfold Legacy.from_path.
    rewrite (generate_key_split t Hd Ht Hy c source uuid_str Hs Hu).
    cbn [length Nat.ltb Nat.leb Py.index nth_error bind ok].
    rewrite !split_key_value by (try reflexivity; assumption).
    cbn [bind]. destruct c; reflexivity.
  - unfold Storage.from_path.
    rewrite (generate_key_split t Hd Ht Hy c source uuid_str Hs Hu).
    cbn [length Nat.ltb Nat.leb Py.index nth_error bind ok].
    rewrite !split_key_value by (try reflexivity; assumption).
    cbn [bind]. destruct c.
    + cbn [Legacy.category_value]. 
      change (Storage.DataCategory_of "avian_cases")
        with (@inr exn _ Storage.AVIAN_CASES).
      cbn [bind ok]. now apply StorageKey_new_valid.
    + reflexivity.
Qed.

Lemma generate_key_parses_witness :
  Legacy.from_path Legacy.PROCESSED
    (LegacyMinio._generate_key Legacy.SURVEILLANCE "ibama"
       MoreScenarios.afternoon "0b5e")
  = LegacyMinio.upload_dataframe_key Legacy.PROCESSED Legacy.SURVEILLANCE
      "ibama" MoreScenarios.afternoon "0b5e"
  /\ Storage.from_path Storage.RAW
       (LegacyMinio._generate_key Legacy.SURVEILLANCE "ibama"
          MoreScenarios.afternoon "0b5e")
     = inl (categoria_invalida "surveillance").
Proof.
  apply (generate_key_parses Legacy.PROCESSED Legacy.SURVEILLANCE "ibama"
           MoreScenarios.afternoon "0b5e");
    try reflexivity;
    unfold datetime_valid, time_valid; simpl; lia.
Defined.

Example generated_key :
  LegacyMinio._generate_key Legacy.AVIAN_CASES "ibama"
    MoreScenarios.afternoon "0b5e"
  = "avian_cases/ibama/year=2024/month=03/day=09/data_20240309150405_0b5e.parquet".
Proof. reflexivity. Qed.

End LegacyKeys.

(** ** AvianFluCase: validating a dump *)

Module ModelProperties.

Import Frame H5N1 CaseModel Conversion.




Example dump_out_of_range :
  exists msg,
    model_validate Batch.noon
      (model_dump (Batch.numbered 1 (Some (inject_Z 91))))
    = inl (ValidationError msg).
Proof. eexists. reflexivity. Qed.

End ModelProperties.

(** ** Frames built from records *)

Module FrameProperties.

Import Frame FrameFacts Transformer Shapes.

Lemma add_new_NoDup ks : forall acc, NoDup acc -> NoDup (add_new acc ks).
Proof.
  induction ks as [|k ks IH]; intros acc Hacc; simpl; [exact Hacc|].
  destruct (mem k acc) eqn:E; [now apply IH|].
  apply IH. apply mem_not_In in E.
  apply NoDup_app; [exact Hacc | repeat constructor; intros [] |].
  intros x Hx [<-|[]]. contradiction.
Qed.

Lemma add_new_In ks x : forall acc,
  In x (add_new acc ks) <-> In x acc \/ In x ks.
Proof.
  induction ks as [|k ks IH]; intros acc; simpl; [tauto|].
  destruct (mem k acc) eqn:E.
  - rewrite IH. apply mem_In in E. split; [tauto|].
    intros [Ha|[<-|Hk]]; tauto.
  - rewrite IH, in_app_iff. simpl. tauto.
Qed.

Lemma union_keys_from acc records :
  NoDup acc ->
  NoDup (fold_left (fun acc d => add_new acc (keys d)) records acc)
  /\ forall x,
       In x (fold_left (fun acc d => add_new acc (keys d)) records acc)
       <-> In x acc \/ exists d, In d records /\ In x (keys d).
Proof.
  revert acc. induction records as [|d ds IH]; intros acc Hacc; simpl.
  - split; [exact Hacc|]. intros x. split; [tauto|].
    intros [Hx|(d & [] & _)]. exact Hx.
  - destruct (IH (add_new acc (keys d)) (add_new_NoDup _ _ Hacc)) as [Hn Hi].
    split; [exact Hn|]. intros x. rewrite Hi, add_new_In. split.
    + intros [[Hx|Hx]|(d' & Hd' & Hx)]; [now left | right | right].
      * exists d. split; [now left | exact Hx].
      * exists d'. split; [now right | exact Hx].
    + intros [Hx|(d' & [<-|Hd'] & Hx)]; [tauto | tauto |].
      right. now exists d'.
Qed.

(** X6.  The frame [model_to_dataframe] builds has one row per model,
    one cell per column in every row, and pairwise distinct column
    labels, which are exactly the keys met in the dumps. *)
Theorem model_to_dataframe_shape {M : Type} (model_dump : M -> dict)
    (models : list M) :
  let df := fst (model_to_dataframe model_dump models) in
  length (rows df) = length models
  /\ rectangular df
  /\ NoDup (columns df)
  /\ forall col,
       In col (columns df)
       <-> exists m, In m models /\ In col (keys (model_dump m)).
Proof.
  destruct models as [|m ms].
  - simpl. repeat split; try constructor; try contradiction.
    intros (m & [] & _).
  - cbv zeta. unfold model_to_dataframe. cbn [fst].
    set (records := map model_dump (m :: ms)).
    destruct (union_keys_from [] records (NoDup_nil _)) as [Hn Hi].
    unfold from_records, rectangular. cbn [rows columns].
    split; [|split; [|split]].
    + unfold records. now rewrite !length_map.
    + apply Forall_forall. intros row Hrow.
      apply in_map_iff in Hrow as (d & <- & _). apply length_map.
    + exact Hn.
    + intros col. unfold union_keys. rewrite Hi. split.
      * intros [[]|(d & Hd & Hc)]. unfold records in Hd.
        apply in_map_iff in Hd as (m' & <- & Hm'). now exists m'.
      * intros (m' & Hm' & Hc). right. exists (model_dump m').
        split; [|exact Hc]. unfold records. now apply in_map.
Qed.

End FrameProperties.

(** ** Column standardisation and partition metadata *)

Module ColumnProperties.

Import Frame FrameFacts Columns Shapes.

Lemma position_lt cols col : forall i,
  DuckDB.position cols col = Some i -> i < length cols.
Proof.
  induction cols as [|c cs IH]; simpl; [discriminate|]. intros i.
  destruct (String.eqb c col); [intros [= <-]; lia|].
  destruct (DuckDB.position cs col) as [j|]; [|discriminate].
  intros [= <-]. specialize (IH j eq_refl). lia.
Qed.

Lemma position_In cols col :
  In col cols -> exists i, DuckDB.position cols col = Some i.
Proof.
  induction cols as [|c cs IH]; [contradiction|]. intros Hin. simpl.
  destruct (String.eqb_spec c col) as [->|Hne]; [now exists 0|].
  destruct Hin as [->|Hin]; [contradiction|].
  destruct (IH Hin) as (i & ->). now exists (S i).
Qed.

Lemma position_not_In cols col :
  ~ In col cols -> DuckDB.position cols col = None.
Proof.
  induction cols as [|c cs IH]; [reflexivity|]. intros Hin. simpl.
  destruct (String.eqb_spec c col) as [->|Hne]; [exfalso; apply Hin; now left|].
  rewrite IH; [reflexivity|]. intros H. apply Hin. now right.
Qed.

Lemma position_app_l cols extra col i :
  DuckDB.position cols col = Some i ->
  DuckDB.position (cols ++ extra) col = Some i.
Proof.
  revert i. induction cols as [|c cs IH]; simpl; [discriminate|]. intros i.
  destruct (String.eqb c col); [trivial|].
  destruct (DuckDB.position cs col) as [j|]; [|discriminate].
  intros [= <-]. now rewrite (IH j eq_refl).
Qed.

Lemma position_app_r cols extra col j :
  DuckDB.position cols col = None ->
  DuckDB.position extra col = Some j ->
  DuckDB.position (cols ++ extra) col = Some (length cols + j).
Proof.
  induction cols as [|c cs IH]; simpl; [trivial|].
  destruct (String.eqb c col); [discriminate|].
  destruct (DuckDB.position cs col) as [k|]; [discriminate|].
  intros _ Hj. now rewrite (IH eq_refl Hj).
Qed.

Lemma position_label cols col : forall i,
  DuckDB.position cols col = Some i -> nth i cols EmptyString = col.
Proof.
  induction cols as [|c cs IH]; simpl; [discriminate|]. intros i.
  destruct (String.eqb_spec c col) as [->|_]; [now intros [= <-]|].
  destruct (DuckDB.position cs col) as [j|]; [|discriminate].
  intros [= <-]. now apply IH.
Qed.

Lemma positions_absent cols col : forall i,
  ~ In col cols -> positions_from i cols col = [].
Proof.
  induction cols as [|c cs IH]; intros i Hin; [reflexivity|]. simpl.
  destruct (String.eqb_spec c col) as [->|_]; [exfalso; apply Hin; now left|].
  apply IH. intros H. apply Hin. now right.
Qed.

(** In a frame with distinct labels one column carries a label. *)
Lemma positions_distinct cols col : forall i k,
  NoDup cols -> DuckDB.position cols col = Some k ->
  positions_from i cols col = [i + k].
Proof.
  induction cols as [|c cs IH]; intros i k Hnd; simpl; [discriminate|].
  inversion Hnd as [|? ? Hc Hcs]; subst.
  destruct (String.eqb_spec c col) as [->|_].
  - intros [= <-]. rewrite (positions_absent cs col (S i) Hc).
    now rewrite Nat.add_0_r.
  - destruct (DuckDB.position cs col) as [j|] eqn:Ej; [|discriminate].
    intros [= <-]. rewrite (IH (S i) j Hcs eq_refl). f_equal. lia.
Qed.

Lemma positions_one cols col :
  NoDup cols -> In col cols ->
  exists i, positions cols col = [i]
            /\ DuckDB.position cols col = Some i.
Proof.
  intros Hnd Hin. destruct (position_In cols col Hin) as (i & Hi).
  exists i. split; [|exact Hi].
  unfold positions. now rewrite (positions_distinct cols col 0 i Hnd Hi).
Qed.

Lemma nth_repeat_in {A} (x d : A) k j : j < k -> nth j (repeat x k) d = x.
Proof.
  revert j. induction k as [|k IH]; intros j Hj; [lia|].
  destruct j; simpl; [reflexivity | apply IH; lia].
Qed.

Lemma at_label_map cols (f : string -> pyval) col :
  In col cols -> at_label cols (map f cols) col = f col.
Proof.
  intros Hin. unfold at_label.
  destruct (InsertOutcome.position_nth cols col Hin) as (i & -> & Hn).
  apply nth_error_split in Hn as (l1 & l2 & -> & <-).
  rewrite map_app. simpl. rewrite app_nth2; rewrite length_map; [|lia].
  now rewrite Nat.sub_diag.
Qed.

(** A padded row under the extended labels: the old cell under an old
    label, None under a new one. *)
Lemma at_label_padded cols extra row col :
  length row = length cols ->
  In col (cols ++ extra) ->
  at_label (cols ++ extra) (row ++ repeat PNone (length extra)) col
  = if mem col cols then at_label cols row col else PNone.
Proof.
  intros Hlen Hin. unfold at_label.
  destruct (mem col cols) eqn:E.
  - apply mem_In in E. destruct (position_In cols col E) as (i & Hi).
    rewrite (position_app_l cols extra col i Hi), Hi.
    apply app_nth1. rewrite Hlen. now apply position_lt with (col := col).
  - apply mem_not_In in E.
    apply in_app_or in Hin as [Hin|Hin]; [contradiction|].
    destruct (position_In extra col Hin) as (j & Hj).
    rewrite (position_app_r cols extra col j (position_not_In _ _ E) Hj).
    rewrite app_nth2 by lia.
    replace (length cols + j - length row) with j by lia.
    apply nth_repeat_in. now apply position_lt with (col := col).
Qed.

Lemma none_missing cols labels :
  (forall l, In l labels -> In l cols) ->
  filter (fun l => negb (mem l cols)) labels = [].
Proof.
  intros Hall. induction labels as [|l ls IH]; [reflexivity|]. simpl.
  assert (E : mem l cols = true) by (apply mem_In, Hall; now left).
  rewrite E. simpl. apply IH. intros l' Hl'. apply Hall. now right.
Qed.

(** The columns picked for labels of a frame with distinct labels: one
    for each label. *)
Lemma picked_distinct cols labels :
  NoDup cols -> (forall l, In l labels -> In l cols) ->
  flat_map (positions cols) labels
  = map (fun l => match DuckDB.position cols l with
                  | Some i => i
                  | None => 0
                  end) labels.
Proof.
  intros Hnd Hall. induction labels as [|l ls IH]; [reflexivity|].
  cbn [flat_map map].
  destruct (positions_one cols l Hnd (Hall l (or_introl eq_refl)))
    as (i & -> & ->).
  cbn [app]. f_equal. apply IH. intros l' Hl'. apply Hall. now right.
Qed.

(** [df[labels]] on a frame with distinct labels that has every label:
    the columns under the labels, in the order of the labels. *)
Lemma select_distinct df labels :
  NoDup (columns df) -> (forall l, In l labels -> In l (columns df)) ->
  select df labels
  = inr (mkDataFrame labels
           (map (fun row => map (at_label (columns df) row) labels)
                (rows df))).
Proof.
  intros Hnd Hall. unfold select.
  rewrite (none_missing _ _ Hall), (picked_distinct _ _ Hnd Hall).
  rewrite !map_map. do 2 f_equal.
  - rewrite <- (map_id labels) at 2. apply map_ext_in. intros l Hl.
    destruct (position_In _ _ (Hall l Hl)) as (i & Hi). rewrite Hi.
    now apply position_label.
  - apply map_ext. intros row. rewrite map_map. apply map_ext_in.
    intros l Hl. unfold at_label.
    destruct (position_In _ _ (Hall l Hl)) as (i & Hi). now rewrite Hi.
Qed.

Lemma fill_columns_step b df col rest :
  fill_columns b df (col :: rest)
  = fill_columns b
      (if negb (mem col (columns df)) && b then assign_none df col else df)
      rest.
Proof. reflexivity. Qed.

(** The loop of [standardize_columns] with [fill_missing]: the labels it
    adds, each with a column of None. *)
Lemma fill_columns_true target : forall df,
  NoDup (columns df) ->
  exists extra,
    columns (fill_columns true df target) = columns df ++ extra
    /\ rows (fill_columns true df target)
       = map (fun row => row ++ repeat PNone (length extra)) (rows df)
    /\ NoDup (columns df ++ extra)
    /\ forall col, In col target -> In col (columns df ++ extra).
Proof.
  induction target as [|col rest IH]; intros df Hnd.
  - exists []. simpl. rewrite app_nil_r. split; [reflexivity|].
    split; [|split; [exact Hnd | contradiction]].
    rewrite <- (map_id (rows df)) at 1. apply map_ext.
    intros row. now rewrite app_nil_r.
  - rewrite fill_columns_step.
    destruct (mem col (columns df)) eqn:E; cbn [negb andb].
    + destruct (IH df Hnd) as (extra & Hc & Hr & Hn & Hin).
      exists extra. split; [exact Hc | split; [exact Hr|]].
      split; [exact Hn|].
      intros c [<-|Hc']; [|now apply Hin].
      apply in_or_app. left. now apply mem_In.
    + assert (Hnd' : NoDup (columns (assign_none df col))).
      { cbn [assign_none columns]. apply mem_not_In in E.
        apply NoDup_app; [exact Hnd | repeat constructor; intros [] |].
        intros x Hx [<-|[]]. contradiction. }
      destruct (IH (assign_none df col) Hnd')
        as (extra & Hc & Hr & Hn & Hin).
      exists (col :: extra). cbn [assign_none columns rows] in Hc, Hr, Hn, Hin.
      rewrite <- app_assoc in Hc, Hn, Hin. split; [exact Hc|].
      split; [|split; [exact Hn|]].
      * rewrite Hr, map_map. apply map_ext. intros row.
        now rewrite <- app_assoc.
      * intros c [<-|Hc']; [|now apply Hin].
        apply in_or_app. right. now left.
Qed.

Lemma fill_columns_false target : forall df,
  fill_columns false df target = df.
Proof.
  induction target as [|col rest IH]; intros df; [reflexivity|].
  rewrite fill_columns_step, andb_false_r. apply IH.
Qed.

Lemma standardize_columns_closed df target :
  rectangular df -> NoDup (columns df) ->
  standardize_columns df target true
  = inr (mkDataFrame target
           (map (fun row =>
                   map (fun col =>
                          if mem col (columns df)
                          then at_label (columns df) row col else PNone)
                       target)
                (rows df))).
Proof.
  intros Hrect Hnd. unfold standardize_columns.
  destruct (fill_columns_true target df Hnd) as (extra & Hc & Hr & Hn & Hin).
  rewrite select_distinct; rewrite Hc; [|exact Hn | exact Hin].
  rewrite Hr. do 2 f_equal.
  rewrite map_map. apply map_ext_in. intros row Hrow.
  unfold rectangular in Hrect. rewrite Forall_forall in Hrect.
  apply map_ext_in. intros col Hcol.
  apply at_label_padded; [now apply Hrect | now apply Hin].
Qed.

(** X7.  On a frame with distinct column labels and one cell per column
    in every row, [standardize_columns] with [fill_missing] never
    raises: the result has exactly the target labels, in the target's
    order, and as many rows as the input; a label the input has keeps
    its cells, a label it lacks is filled with None; and when the
    target labels are distinct too, standardising the result once more
    changes nothing. *)
Theorem standardize_columns_fills (df : DataFrame) (target : list string) :
  rectangular df -> NoDup (columns df) ->
  exists r,
    standardize_columns df target true = inr r
    /\ columns r = target
    /\ rows r
       = map (fun row =>
                map (fun col =>
                       if mem col (columns df)
                       then at_label (columns df) row col else PNone)
                    target)
             (rows df)
    /\ (NoDup target -> standardize_columns r target true = inr r).
Proof.
  intros Hrect Hnd. eexists.
  split; [now apply standardize_columns_closed|].
  split; [reflexivity | split; [reflexivity|]].
  intros Htarget. rewrite standardize_columns_closed.
  - cbn [columns rows]. do 2 f_equal. rewrite map_map.
    apply map_ext. intros row. apply map_ext_in. intros col Hcol.
    assert (E : mem col target = true) by now apply mem_In.
    rewrite E.
    apply (at_label_map target
             (fun col => if mem col (columns df)
                         then at_label (columns df) row col else PNone)).
    exact Hcol.
  - unfold rectangular. cbn [columns rows]. apply Forall_forall.
    intros row Hrow. apply in_map_iff in Hrow as (row0 & <- & _).
    apply length_map.
  - exact Htarget.
Qed.

Lemma two_rows_distinct : NoDup (columns MoreScenarios.two_rows).
Proof. apply ConversionClaims.distinct_NoDup. reflexivity. Qed.

Lemma standardize_columns_fills_witness :
  rectangular MoreScenarios.two_rows
  /\ NoDup (columns MoreScenarios.two_rows)
  /\ standardize_columns MoreScenarios.two_rows ["region"; "city"; "case_id"]
       true
     = inr (mkDataFrame ["region"; "city"; "case_id"]
              [[PNaN; PNone; PStr "k1"]; [PStr "Sul"; PNone; PStr "k2"]]).
Proof.
  assert (Hr : rectangular MoreScenarios.two_rows)
    by (repeat constructor).
  split; [exact Hr | split; [exact two_rows_distinct|]].
  destruct (standardize_columns_fills MoreScenarios.two_rows
              ["region"; "city"; "case_id"] Hr two_rows_distinct)
    as (r & E & Hc & Hrows & _).
  rewrite E. f_equal. destruct r as [cols rws]. cbn [columns rows] in *.
  now rewrite Hc, Hrows.
Defined.

(** On a repeated label the selection returns every column that carries
    it, as pandas does. *)
Example standardize_repeated_label :
  standardize_columns (mkDataFrame ["a"; "a"] [[PInt 1; PInt 2]]) ["a"] true
  = inr (mkDataFrame ["a"; "a"] [[PInt 1; PInt 2]]).
Proof. reflexivity. Qed.

Lemma some_missing cols labels col :
  In col labels -> ~ In col cols ->
  filter (fun l => negb (mem l cols)) labels <> [].
Proof.
  intros Hin Hno E.
  assert (H : In col (filter (fun l => negb (mem l cols)) labels)).
  { apply filter_In. split; [exact Hin|].
    apply negb_true_iff. now apply mem_not_In. }
  rewrite E in H. contradiction.
Qed.

(** X8.  Without [fill_missing], [standardize_columns] is the plain
    selection [df[target_columns]]: on a frame with distinct labels
    that has every target label it returns the columns under the
    target labels, in the target's order; and on any frame that lacks
    some target label it raises the KeyError that names exactly the
    target labels the frame lacks. *)
Theorem standardize_columns_strict (df : DataFrame) (target : list string) :
  (NoDup (columns df) ->
   (forall col, In col target -> In col (columns df)) ->
   standardize_columns df target false
   = inr (mkDataFrame target
            (map (fun row => map (at_label (columns df) row) target)
                 (rows df))))
  /\ (forall col, In col target -> ~ In col (columns df) ->
      exists missing,
        standardize_columns df target false = inl (KeyError missing)
        /\ forall l, In l missing <-> In l target /\ ~ In l (columns df)).
Proof.
  unfold standardize_columns. rewrite fill_columns_false.
  split.
  - intros Hnd Hall. now apply select_distinct.
  - intros col Hin Hno. unfold select.
    pose proof (some_missing (columns df) target col Hin Hno) as Hne.
    destruct (filter (fun l => negb (mem l (columns df))) target)
      as [|l0 ls] eqn:E; [congruence|].
    exists (l0 :: ls). split; [reflexivity|].
    intros l. rewrite <- E, filter_In, negb_true_iff, mem_not_In. tauto.
Qed.

(** The column under a label of a frame with distinct labels. *)
Lemma column_distinct df name :
  NoDup (columns df) -> In name (columns df) ->
  all_null df name = inr (isna_all (cells_under df name))
  /\ column df name = cells_under df name.
Proof.
  intros Hnd Hin. unfold all_null, column, cells_under, cells_at, at_label.
  destruct (positions_one (columns df) name Hnd Hin) as (i & -> & ->).
  now split.
Qed.

Lemma partition_entry_total df name metadata :
  NoDup (columns df) ->
  partition_entry df name metadata = inr (metadata ++ entry df name).
Proof.
  intros Hnd. unfold partition_entry, entry.
  destruct (mem name (columns df)) eqn:E; cbn [andb];
    [|now rewrite app_nil_r].
  apply mem_In in E.
  destruct (column_distinct df name Hnd E) as [-> ->]. cbn [bind ok].
  unfold cells_under, first_cell.
  destruct (rows df) as [|row rest]; cbn [map isna_all forallb negb];
    [now rewrite app_nil_r|].
  destruct (negb (notna (at_label (columns df) row name))
            && forallb (fun v => negb (notna v))
                 (map (fun row0 => at_label (columns df) row0 name) rest));
    cbn [negb]; [now rewrite app_nil_r | reflexivity].
Qed.

(** X9.  On a frame with distinct column labels
    [extract_partition_metadata] never raises: the guard on a column
    that holds only nulls also covers the frame without rows, so
    [iloc[0]] always finds a row.  The metadata are year, month and day
    of the clock, then the source and the region of the first row, each
    only when its column exists and holds some value; the first row's
    own cell is reported, also when it is null. *)
Theorem extract_partition_metadata_total
    (now : H5N1.datetime) (df : DataFrame) :
  NoDup (columns df) ->
  extract_partition_metadata now df
  = inr ([("year", PInt (H5N1.dt_year now));
          ("month", PInt (H5N1.dt_month now));
          ("day", PInt (H5N1.dt_day now))]
         ++ entry df "source" ++ entry df "region").
Proof.
  intros Hnd. unfold extract_partition_metadata.
  rewrite (partition_entry_total df "source" _ Hnd). cbn [bind].
  rewrite (partition_entry_total df "region" _ Hnd). cbn [bind ok].
  now rewrite <- app_assoc.
Qed.

Lemma extract_partition_metadata_total_witness :
  extract_partition_metadata MoreScenarios.afternoon MoreScenarios.two_rows
  = inr [("year", PInt 2024); ("month", PInt 3); ("day", PInt 9);
         ("source", PStr "IBAMA"); ("region", PNaN)].
Proof.
  exact (extract_partition_metadata_total MoreScenarios.afternoon
           MoreScenarios.two_rows two_rows_distinct).
Defined.

(** With the label source on two columns the guard itself raises. *)
Example metadata_repeated_label :
  is_ValueError
    (extract_partition_metadata MoreScenarios.afternoon
       (mkDataFrame ["source"; "source"] [[PStr "a"; PStr "b"]])).
Proof. eexists. reflexivity. Qed.

End ColumnProperties.

(** ** Query texts *)

Module QueryProperties.

Import Query Shapes.

Lemma read_escaped v : forall rest,
  starts_with_quote rest = false ->
  read_string_body
    (String.append (replace_with "'" "''" v) (String "'" rest))
  = Some (v, rest).
Proof.
  induction v as [|c v IH]; intros rest Hrest.
  - simpl. destruct rest as [|c' rest']; [reflexivity|].
    simpl in Hrest. now rewrite Hrest.
  - cbn [replace_with]. destruct (Ascii.eqb_spec c "'"%char) as [->|Hne].
    + cbn [String.append read_string_body]. rewrite !Ascii.eqb_refl.
      now rewrite (IH rest Hrest).
    + cbn [String.append read_string_body].
      apply Ascii.eqb_neq in Hne. rewrite Hne.
      now rewrite (IH rest Hrest).
Qed.

(** X10.  A string filter value enters the query text as a quoted SQL
    string literal that reads back, by the doubling rule of SQL, as
    exactly the value: no quote in the value ends the literal early.
    For a table name and one string filter the text is SELECT * FROM
    table WHERE field = literal. *)
Theorem string_filter_reads_back (field v : string) :
  exists literal,
    condition field (FStr v)
    = String.append field (String.append " = " literal)
    /\ (forall rest,
          starts_with_quote rest = false ->
          read_string (String.append literal rest) = Some (v, rest))
    /\ (forall table,
          is_table table = true ->
          query_text table (Some [(field, FStr v)])
          = String.append "SELECT * FROM "
              (String.append table
                 (String.append " WHERE "
                    (String.append field (String.append " = " literal))))).
Proof.
  exists (String "'" (String.append (replace_with "'" "''" v) "'")).
  split; [reflexivity | split].
  - intros rest Hrest. cbn [String.append read_string].
    rewrite Ascii.eqb_refl, append_assoc. cbn [String.append].
    now apply read_escaped.
  - intros table Ht. unfold query_text. rewrite Ht.
    cbn [map fst snd join]. now rewrite append_assoc.
Qed.

Example filter_with_quote :
  query_text "avian_cases" (Some [("city", FStr "Sant'Ana"); ("n", FInt 3)])
  = "SELECT * FROM avian_cases WHERE city = 'Sant''Ana' AND n = 3"
  /\ query_text "SELECT 1" (Some [("city", FStr "x")]) = "SELECT 1".
Proof. split; reflexivity. Qed.

End QueryProperties.

(** ** The database client: further properties *)

Module ClientProperties.

Import DuckDB Orchestrator Effects.
Import InsertFacts SyncFacts DedupFacts InsertOutcome.

Section Facts.

Context {V : Type} `{SqlValue V}.

Lemma first_key_listed (info : list (string * bool)) pk b rest :
  filter snd info = (pk, b) :: rest -> In (pk, true) info.
Proof.
  intros E.
  assert (Hin : In (pk, b) (filter snd info)) by (rewrite E; now left).
  apply filter_In in Hin as [Hin Hb]. simpl in Hb. now subst.
Qed.

(** X11.  [_get_primary_key] never raises and never changes a table.
    It answers with a column exactly when the catalog holds the table,
    the statement did not fail and some column is flagged as key, and
    then with the first such column; a failing statement and a missing
    table are answered with None. *)
Theorem get_primary_key_never_raises (table : string) (c : connection V) :
  exists o,
    fst (_get_primary_key table c) = inr o
    /\ catalog (snd (_get_primary_key table c)) = catalog c
    /\ (forall pk, o = Some pk ->
          exists t, assoc table (catalog c) = Some t
                    /\ In (pk, true) (tbl_columns t))
    /\ (assoc table (catalog c) = None -> o = None)
    /\ (forall e fs, faults c = Some e :: fs -> o = None).
Proof.
  unfold _get_primary_key, catch, execute, table_info.
  unfold dbind, find_table, ret.
  destruct (faults c) as [|[e|] fs]; cbn [catalog].
  - destruct (assoc table (catalog c)) as [t|] eqn:Et; cbn [fst snd].
    + destruct (filter snd (tbl_columns t)) as [|[pk b] rest] eqn:Ef;
        cbn [fst snd].
      * exists None. repeat split; try discriminate; reflexivity.
      * exists (Some pk). repeat split; try discriminate.
        intros pk' [= <-]. exists t. split; [reflexivity|].
        now apply (first_key_listed _ pk b rest).
    + exists None. repeat split; try discriminate; reflexivity.
  - exists None. repeat split; try discriminate; reflexivity.
  - destruct (assoc table (catalog c)) as [t|] eqn:Et; cbn [fst snd].
    + destruct (filter snd (tbl_columns t)) as [|[pk b] rest] eqn:Ef;
        cbn [fst snd].
      * exists None. repeat split; try discriminate; reflexivity.
      * exists (Some pk). repeat split; try discriminate.
        intros pk' [= <-]. exists t. split; [reflexivity|].
        now apply (first_key_listed _ pk b rest).
    + exists None. repeat split; try discriminate; reflexivity.
Qed.

(** X14.  A failed insert leaves its temporary table behind: the DROP
    is only on the path of success.  After the failure on a table with a
    primary key the staged frame is still held under the temporary
    name, and every further insert at the same clock reading fails on
    the name being taken, before it looks at its own rows. *)
Theorem failed_insert_leaves_temporary_table
    (c : connection V) (name : string) (t : table V) (now : string)
    (df : relation V) (pk : string) (b : bool) (rest : list (string * bool)) :
  faults c = [] ->
  assoc name (catalog c) = Some t ->
  assoc (temp_name now) (temp c) = None ->
  filter snd (tbl_columns t) = (pk, b) :: rest ->
  pk <> EmptyString ->
  exists msg c',
    insert_dataframe false name (ArgBool true) now (Some df) c
    = (inl (BinderException msg), c')
    /\ assoc (temp_name now) (temp c') = Some df
    /\ forall (other : string) (flag : pyarg) (df2 : relation V),
         insert_dataframe false other flag now (Some df2) c'
         = (inl (CatalogException
                   (String.append "Table with name "
                      (String.append (temp_name now) " already exists!"))),
            c').
Proof.
  intros Hq Ht Hf Hpk Hne.
  destruct (insert_dataframe_dedup_raises c name t now df pk b rest
              Hq Ht Hf Hpk Hne) as [msg E].
  exists msg, (staged_conn c now df). split; [exact E|].
  assert (Held : assoc (temp_name now) (temp (staged_conn c now df))
                 = Some df).
  { unfold staged_conn. cbn [temp assoc]. now rewrite String.eqb_refl. }
  split; [exact Held|].
  intros other flag df2. unfold insert_dataframe. rewrite catch_rethrow.
  unfold insert_body. fold (temp_name now). apply dbind_err.
  rewrite execute_no_faults by exact Hq.
  unfold create_temp_as. now rewrite Held.
Qed.

(** X15.  [load_storage_to_database] never changes a table, whatever
    the store holds and whatever fails on the way, and a count it
    returns is 0: rows it has staged for a writable client end in an
    exception, because [insert_dataframe] receives the frame where its
    flag belongs. *)
Theorem load_storage_to_database_inserts_nothing
    (w : world V) (bucket prefix table now : string) (c : connection V) :
  catalog (snd (load_storage_to_database w bucket prefix table now c))
  = catalog c
  /\ (forall n,
        fst (load_storage_to_database w bucket prefix table now c) = inr n ->
        n = 0%Z)
  /\ (forall uris df c',
        db_read_only w = false ->
        Minio.get_parquet_uris (storage w) bucket prefix = inr uris ->
        uris <> [] ->
        read_external_parquet (read_parquet w) uris (Some table) c
        = (inr df, c') ->
        rel_empty df = false ->
        exists e,
          fst (load_storage_to_database w bucket prefix table now c) = inl e).
Proof.
  destruct (load_never_counts w bucket prefix table now c) as [Hc Hn].
  split; [exact Hc | split; [exact Hn|]].
  intros uris df c' Hro Hu Hne Hr He.
  now apply (load_staged_rows_raise w bucket prefix table now uris df c c').
Qed.

(** X24.  With [avoid_duplicates] False the staged rows are inserted as
    one statement, all or none.  They are cast to the types of the
    table's columns and checked against its primary key: when a value
    does not convert the call raises the conversion error, when a key
    column holds NULL or a key is held already or met twice it raises
    the constraint error, and in both cases the table keeps its rows
    and the temporary table is left behind; otherwise every row is
    appended as cast and the count returned is the number of staged
    rows. *)
Theorem insert_dataframe_all_or_nothing
    (c : connection V) (name : string) (t : table V) (now : string)
    (df : relation V) :
  faults c = [] ->
  assoc name (catalog c) = Some t ->
  assoc (temp_name now) (temp c) = None ->
  subset (column_names t) (rel_columns df) = true ->
  insert_dataframe false name (ArgBool false) now (Some df) c
  = match stored_values name t df with
    | None => (inl conversion_error, staged_conn c now df)
    | Some new =>
        if constraint_ok t new then
          (inr (Z.of_nat (length (rel_rows df))), appended c name t new)
        else (inl constraint_error, staged_conn c now df)
    end.
Proof.
  intros Hq Ht Hf Hs.
  apply (insert_dataframe_outcome c name t now df false Hq Ht Hf Hs).
  discriminate.
Qed.

End Facts.

Import SyncScenario.

Lemma insert_dataframe_all_or_nothing_witness :
  insert_dataframe false "avian_cases" (ArgBool false) "20240309120000"
    (Some staged) start
  = (inl constraint_error, staged_conn start "20240309120000" staged)
  /\ insert_dataframe false "avian_cases" (ArgBool false) "20240309120000"
       (Some fresh) start
     = (inr 2%Z,
        appended start "avian_cases" cases_table (rel_rows fresh))
  /\ insert_dataframe (H := MoreScenarios.typed_text) false "surveillance"
       (ArgBool false) "20240309120000" (Some MoreScenarios.bad_counts)
       MoreScenarios.counts_start
     = (inl conversion_error,
        staged_conn MoreScenarios.counts_start "20240309120000"
          MoreScenarios.bad_counts)
  /\ insert_dataframe (H := MoreScenarios.typed_text) false "surveillance"
       (ArgBool false) "20240309120000" (Some MoreScenarios.new_counts)
       MoreScenarios.counts_start
     = (inr 2%Z,
        appended MoreScenarios.counts_start "surveillance"
          MoreScenarios.counts_table
          [[Some "B"; Some "12"]; [Some "C"; None]]).
Proof.
  split; [|split; [|split]].
  - exact (insert_dataframe_all_or_nothing start "avian_cases" cases_table
             "20240309120000" staged eq_refl eq_refl eq_refl eq_refl).
  - exact (insert_dataframe_all_or_nothing start "avian_cases" cases_table
             "20240309120000" fresh eq_refl eq_refl eq_refl eq_refl).
  - exact (insert_dataframe_all_or_nothing (H := MoreScenarios.typed_text)
             MoreScenarios.counts_start "surveillance"
             MoreScenarios.counts_table "20240309120000"
             MoreScenarios.bad_counts eq_refl eq_refl eq_refl eq_refl).
  - exact (insert_dataframe_all_or_nothing (H := MoreScenarios.typed_text)
             MoreScenarios.counts_start "surveillance"
             MoreScenarios.counts_table "20240309120000"
             MoreScenarios.new_counts eq_refl eq_refl eq_refl eq_refl).
Defined.

Lemma failed_insert_leaves_temporary_table_witness :
  exists msg c',
    insert_dataframe false "avian_cases" (ArgBool true) "20240309120000"
      (Some staged) start
    = (inl (BinderException msg), c')
    /\ assoc (temp_name "20240309120000") (temp c') = Some staged
    /\ forall (other : string) (flag : pyarg) (df2 : relation string),
         insert_dataframe false other flag "20240309120000" (Some df2) c'
         = (inl (CatalogException
                   (String.append "Table with name "
                      (String.append (temp_name "20240309120000")
                         " already exists!"))),
            c').
Proof.
  apply (failed_insert_leaves_temporary_table start "avian_cases" cases_table
           "20240309120000" staged "case_id" true []);
    try reflexivity.
  discriminate.
Defined.

(** The scenario of X12: the audit table has no primary key. *)
Lemma insert_dataframe_no_key_appends_witness :
  exists c',
    insert_dataframe false "audit_log" (ArgBool true) "20240309120000"
      (Some staged) start
    = (inr 3%Z, c')
    /\ assoc "audit_log" (catalog c')
       = Some (mkTable (tbl_columns log_table)
                 (tbl_rows log_table ++ rel_rows staged))
    /\ (3 = Z.of_nat (length (tbl_rows log_table ++ rel_rows staged))
            - Z.of_nat (length (tbl_rows log_table)))%Z.
Proof.
  exact (SyncClaims.insert_dataframe_no_key_appends string _ start
           "audit_log" log_table "20240309120000" staged
           eq_refl eq_refl eq_refl eq_refl eq_refl).
Defined.

(** The scenario of X13: the table of cases has the key case_id. *)
Lemma insert_dataframe_dedup_never_inserts_witness :
  exists msg c',
    insert_dataframe false "avian_cases" (ArgBool true) "20240309120000"
      (Some staged) start
    = (inl (BinderException msg), c')
    /\ catalog c' = catalog start.
Proof.
  apply (SyncClaims.insert_dataframe_dedup_never_inserts string _ start
           "avian_cases" cases_table "20240309120000" staged
           "case_id" true []);
    try reflexivity.
  discriminate.
Defined.

End ClientProperties.

(** ** The object store: listings and uploads *)

Module StoreProperties.

Import Frame FrameFacts ObjectStore Shapes.

Lemma contains_char_mid c a b :
  Py.contains_char c (String.append a (String c b)) = true.
Proof.
  unfold Py.contains_char. induction a as [|x a IH]; simpl.
  - now rewrite Ascii.eqb_refl.
  - destruct (Ascii.eqb x c); [reflexivity | exact IH].
Qed.

(** Before a '/', no suffix is the parquet extension: the test on a
    URI is the test on the object name. *)
Lemma endswith_after_slash pre name :
  Minio.endswith ".parquet" (String.append pre (String "/" name))
  = Minio.endswith ".parquet" name.
Proof.
  induction pre as [|c pre IH].
  - reflexivity.
  - cbn [String.append Minio.endswith]. rewrite IH.
    destruct (String.eqb_spec
                (String c (String.append pre (String "/" name))) ".parquet")
      as [E|_]; [|reflexivity].
    pose proof (contains_char_mid "/" (String c pre) name) as Hc.
    cbn [String.append] in Hc. rewrite E in Hc. discriminate.
Qed.

Lemma endswith_uri bucket name :
  Minio.endswith ".parquet" (Minio.uri bucket name)
  = Minio.endswith ".parquet" name.
Proof.
  unfold Minio.uri.
  change (String.append "/" name) with (String "/" name).
  rewrite <- append_assoc. apply endswith_after_slash.
Qed.

Lemma filter_map_uri bucket names :
  map (Minio.uri bucket) (filter (Minio.endswith ".parquet") names)
  = filter (Minio.endswith ".parquet") (map (Minio.uri bucket) names).
Proof.
  induction names as [|n ns IH]; [reflexivity|]. cbn [filter map].
  rewrite endswith_uri.
  destruct (Minio.endswith ".parquet" n); cbn [map]; now rewrite IH.
Qed.

(** X16.  [get_parquet_uris] returns exactly those URIs of
    [get_object_uris], in the same order, that end in .parquet, and
    fails exactly when [get_object_uris] fails, with the same
    exception: the bucket name in front of the object name never makes
    or breaks the extension. *)
Theorem get_parquet_uris_filters_object_uris
    (s : Minio.store) (bucket prefix : string) :
  Minio.get_parquet_uris s bucket prefix
  = (uris <- get_object_uris s bucket prefix ;;
     ok (filter (Minio.endswith ".parquet") uris)).
Proof.
  unfold Minio.get_parquet_uris, Minio.list_parquet_files, get_object_uris,
    Minio.list_objects.
  destruct (s bucket prefix) as [e|names]; [reflexivity|].
  cbn [bind ok]. now rewrite filter_map_uri.
Qed.

Lemma endswith_append_r suffix a b :
  Minio.endswith suffix b = true ->
  Minio.endswith suffix (String.append a b) = true.
Proof.
  intros Hb. induction a as [|c a IH]; [exact Hb|].
  cbn [String.append Minio.endswith]. rewrite IH. apply orb_true_r.
Qed.

Lemma endswith_cons suffix c s :
  Minio.endswith suffix s = true ->
  Minio.endswith suffix (String c s) = true.
Proof.
  intros Hs. cbn [Minio.endswith]. rewrite Hs. apply orb_true_r.
Qed.

Ltac ends_in_suffix :=
  repeat first [ reflexivity
               | apply endswith_append_r
               | apply endswith_cons ].

Lemma isna_all_spec cells :
  Columns.isna_all cells = false ->
  exists v rest, filter notna cells = v :: rest.
Proof.
  induction cells as [|x xs IH]; simpl; [discriminate|].
  destruct (notna x); simpl; [intros _; eauto | exact IH].
Qed.

Lemma prefix_append a b : String.prefix a (String.append a b) = true.
Proof.
  induction a as [|c a IH]; simpl; [now destruct b|].
  destruct (Ascii.ascii_dec c c); [exact IH | congruence].
Qed.

Lemma assoc_app_fresh {A} name (a : A) xs :
  DuckDB.assoc name xs = None ->
  DuckDB.assoc name (xs ++ [(name, a)]) = Some a.
Proof.
  induction xs as [|[n a'] xs IH]; simpl.
  - now rewrite String.eqb_refl.
  - destruct (String.eqb n name); [discriminate | exact IH].
Qed.

Lemma assoc_put objs name data :
  DuckDB.assoc name (put objs name data) = Some data.
Proof.
  unfold put. destruct (DuckDB.assoc name objs) as [old|] eqn:E.
  - now apply (InsertOutcome.assoc_update name data objs old).
  - now apply assoc_app_fresh.
Qed.

Lemma assoc_In_fst {A} name (a : A) xs :
  DuckDB.assoc name xs = Some a -> In name (map fst xs).
Proof.
  induction xs as [|[n a'] xs IH]; simpl; [discriminate|].
  destruct (String.eqb_spec n name) as [->|_]; [now left|].
  intros E. right. now apply IH.
Qed.

Section Client.

Variable check_bucket_name : string -> result unit.
Variable to_parquet : DataFrame -> result bytes.
Variable from_parquet : bytes -> result DataFrame.
Variable format_cell : pyval -> string.

(** On a frame with distinct labels the partition path never fails: the
    guard on all-null columns keeps [iloc[0]] from an empty series. *)
Lemma partition_segments_total df cols :
  NoDup (columns df) ->
  forall acc, exists p, partition_segments format_cell df cols acc = inr p.
Proof.
  intros Hnd.
  induction cols as [|col rest IH]; intros acc; simpl; [now eexists|].
  destruct (mem col (columns df)) eqn:Em; [|apply IH].
  apply mem_In in Em.
  destruct (ColumnProperties.column_distinct df col Hnd Em) as [-> ->].
  cbn [bind ok].
  destruct (Columns.isna_all (cells_under df col)) eqn:E; cbn [negb].
  - cbn [bind ok]. apply IH.
  - destruct (isna_all_spec _ E) as (v & vs & ->).
    cbn [Py.index nth_error bind ok]. apply IH.
Qed.

Lemma final_path_shape uuid_str path df partition_cols timestamp p :
  final_path format_cell uuid_str path df partition_cols timestamp = inr p ->
  Minio.endswith ".parquet" p = true
  /\ String.prefix (rstrip "/" path) p = true.
Proof.
  unfold final_path.
  destruct partition_cols as [[|col cols]|].
  - intros [= <-]. split; [ends_in_suffix | apply prefix_append].
  - unfold _create_partitioned_path.
    destruct (partition_segments format_cell df (col :: cols) EmptyString)
      as [e|pp]; [discriminate|].
    cbn [bind ok]. intros [= <-].
    split; [ends_in_suffix | apply prefix_append].
  - intros [= <-]. split; [ends_in_suffix | apply prefix_append].
Qed.

Lemma final_path_total uuid_str path df partition_cols timestamp :
  NoDup (columns df) ->
  succeeds
    (final_path format_cell uuid_str path df partition_cols timestamp).
Proof.
  intros Hnd. unfold final_path.
  destruct partition_cols as [[|col cols]|]; try (eexists; reflexivity).
  unfold _create_partitioned_path.
  destruct (partition_segments_total df (col :: cols) Hnd EmptyString)
    as (p & ->).
  eexists. reflexivity.
Qed.

(** The server after [ensure_bucket_exists] on a name the client takes:
    the bucket is there, with the objects it had. *)
Lemma ensure_bucket srv bucket :
  check_bucket_name bucket = inr tt ->
  exists srv1 objs,
    ensure_bucket_exists check_bucket_name srv bucket = (inr tt, srv1)
    /\ DuckDB.assoc bucket srv1 = Some objs.
Proof.
  intros Hc. unfold ensure_bucket_exists, bucket_exists, make_bucket.
  rewrite Hc. cbn [bind ok].
  destruct (DuckDB.assoc bucket srv) as [objs|] eqn:E.
  - now exists srv, objs.
  - exists (srv ++ [(bucket, [])]), []. split; [reflexivity|].
    now apply assoc_app_fresh.
Qed.

Lemma ensure_bucket_again srv bucket objs :
  check_bucket_name bucket = inr tt ->
  DuckDB.assoc bucket srv = Some objs ->
  ensure_bucket_exists check_bucket_name srv bucket = (inr tt, srv).
Proof.
  intros Hc E. unfold ensure_bucket_exists, bucket_exists.
  rewrite Hc. cbn [bind ok]. now rewrite E.
Qed.

Lemma ensure_bucket_refused srv bucket e :
  check_bucket_name bucket = inl e ->
  ensure_bucket_exists check_bucket_name srv bucket = (inl e, srv).
Proof.
  intros Hc. unfold ensure_bucket_exists, bucket_exists. now rewrite Hc.
Qed.

Lemma stored_is_listed (srv : server) bucket objs p data prefix :
  check_bucket_name bucket = inr tt ->
  DuckDB.assoc bucket srv = Some objs ->
  DuckDB.assoc p objs = Some data ->
  Minio.endswith ".parquet" p = true ->
  String.prefix prefix p = true ->
  exists uris,
    Minio.get_parquet_uris (listing check_bucket_name srv) bucket prefix
    = inr uris
    /\ In (Minio.uri bucket p) uris.
Proof.
  intros Hc Hsrv Hobj Hend Hunder. eexists. split.
  - apply SyncFacts.get_parquet_uris_ok. unfold listing.
    rewrite Hc. cbn [bind]. rewrite Hsrv. reflexivity.
  - apply in_map, filter_In. split; [|exact Hend].
    apply filter_In. split; [|exact Hunder].
    now apply (assoc_In_fst p data).
Qed.

(** What [upload_parquet] does to the server once the bucket name is
    taken, the path decided and the frame encoded: the bucket holds the
    bytes under the path. *)
Lemma upload_parquet_stores
    (timestamp uuid_str : string) (srv : server) (bucket path : string)
    (df : DataFrame) (partition_cols : option (list string)) p buffer :
  check_bucket_name bucket = inr tt ->
  final_path format_cell uuid_str path df partition_cols timestamp = inr p ->
  to_parquet df = inr buffer ->
  exists srv' objs,
    upload_parquet check_bucket_name to_parquet format_cell timestamp
      uuid_str srv bucket path df partition_cols
    = (inr (Minio.uri bucket p), srv')
    /\ DuckDB.assoc bucket srv' = Some objs
    /\ DuckDB.assoc p objs = Some buffer.
Proof.
  intros Hc Hp Hb.
  destruct (ensure_bucket srv bucket Hc) as (srv1 & objs & He & Hs).
  exists (DuckDB.update bucket (put objs p buffer) srv1), (put objs p buffer).
  split; [|split].
  - unfold upload_parquet. rewrite He, Hp, Hb. unfold upload_object.
    rewrite (ensure_bucket_again srv1 bucket objs Hc Hs).
    unfold put_object. now rewrite Hc, Hs.
  - now apply (InsertOutcome.assoc_update bucket _ srv1 objs).
  - apply assoc_put.
Qed.

(** When [upload_parquet] raises, it is the bucket name, the path or
    the encoding that failed. *)
Lemma upload_parquet_succeeds_iff
    (timestamp uuid_str : string) (srv : server) (bucket path : string)
    (df : DataFrame) (partition_cols : option (list string)) :
  succeeds
    (fst (upload_parquet check_bucket_name to_parquet format_cell timestamp
            uuid_str srv bucket path df partition_cols))
  <-> check_bucket_name bucket = inr tt
      /\ succeeds
           (final_path format_cell uuid_str path df partition_cols timestamp)
      /\ succeeds (to_parquet df).
Proof.
  split.
  - intros [uri Hu]. unfold upload_parquet in Hu.
    destruct (check_bucket_name bucket) as [e|[]] eqn:Hc.
    { rewrite (ensure_bucket_refused srv bucket e Hc) in Hu. discriminate. }
    destruct (ensure_bucket srv bucket Hc) as (srv1 & objs & He & Hs).
    rewrite He in Hu.
    destruct (final_path format_cell uuid_str path df partition_cols
                timestamp) as [e|p]; [discriminate|].
    destruct (to_parquet df) as [e|buffer]; [discriminate|].
    split; [reflexivity | split; eexists; reflexivity].
  - intros (Hc & [p Hp] & [buffer Hb]).
    destruct (upload_parquet_stores timestamp uuid_str srv bucket path df
                partition_cols p buffer Hc Hp Hb) as (srv' & objs & E & _).
    rewrite E. now eexists.
Qed.

(** X17.  [upload_parquet] succeeds exactly when the client takes the
    bucket name, the object path can be decided and the frame can be
    encoded as parquet; on a frame with distinct column labels the path
    can always be decided, with or without partition columns.  The
    path ends in .parquet and starts with the given path stripped of
    its trailing slashes.  After a success the URI returned is the one
    [get_parquet_uris] lists for the object under every prefix of the
    object path, [download_object] gives the encoded bytes back,
    [download_parquet] is the decoding of these bytes, and
    [object_exists] answers True. *)
Theorem upload_parquet_is_listed
    (timestamp uuid_str : string) (srv : server) (bucket path : string)
    (df : DataFrame) (partition_cols : option (list string)) :
  (succeeds
     (fst (upload_parquet check_bucket_name to_parquet format_cell timestamp
             uuid_str srv bucket path df partition_cols))
   <-> check_bucket_name bucket = inr tt
       /\ succeeds
            (final_path format_cell uuid_str path df partition_cols
               timestamp)
       /\ succeeds (to_parquet df))
  /\ (NoDup (columns df) ->
      succeeds
        (final_path format_cell uuid_str path df partition_cols timestamp))
  /\ (forall p buffer,
        check_bucket_name bucket = inr tt ->
        final_path format_cell uuid_str path df partition_cols timestamp
        = inr p ->
        to_parquet df = inr buffer ->
        exists srv',
          upload_parquet check_bucket_name to_parquet format_cell timestamp
            uuid_str srv bucket path df partition_cols
          = (inr (Minio.uri bucket p), srv')
          /\ Minio.endswith ".parquet" p = true
          /\ String.prefix (rstrip "/" path) p = true
          /\ (forall prefix,
                String.prefix prefix p = true ->
                exists uris,
                  Minio.get_parquet_uris (listing check_bucket_name srv')
                    bucket prefix = inr uris
                  /\ In (Minio.uri bucket p) uris)
          /\ download_object check_bucket_name srv' bucket p = inr buffer
          /\ download_parquet check_bucket_name from_parquet srv' bucket p
             = from_parquet buffer
          /\ object_exists check_bucket_name srv' bucket p = inr true).
Proof.
  split; [apply upload_parquet_succeeds_iff|].
  split; [apply final_path_total|].
  intros p buffer Hc Hp Hb.
  destruct (upload_parquet_stores timestamp uuid_str srv bucket path df
              partition_cols p buffer Hc Hp Hb)
    as (srv' & objs & Hup & Hsrv & Hobj).
  destruct (final_path_shape uuid_str path df partition_cols timestamp p Hp)
    as [Hend Hpre].
  assert (Hget : get_object check_bucket_name srv' bucket p = inr buffer).
  { unfold get_object. rewrite Hc. cbn [bind]. now rewrite Hsrv, Hobj. }
  exists srv'.
  split; [exact Hup | split; [exact Hend | split; [exact Hpre|]]].
  split; [|split; [|split]].
  - intros prefix Hunder.
    now apply (stored_is_listed srv' bucket objs p buffer prefix).
  - unfold download_object. now rewrite Hget.
  - unfold download_parquet, download_object. rewrite Hget. cbn [bind ok].
    now destruct (from_parquet buffer).
  - unfold object_exists, stat_object. now rewrite Hget.
Qed.

End Client.

Example upload_two_rows :
  fst (upload_parquet MoreScenarios.name_check MoreScenarios.encoder
         (fun _ => "?") "20240309150405" "0b5e91c2-aaaa"
         MoreScenarios.empty_server "raw" "exports/cases//"
         MoreScenarios.two_rows (Some ["region"; "city"]))
  = inr "s3://raw/exports/cases/region=?/20240309150405_0b5e91c2.parquet"
  /\ fst (upload_parquet MoreScenarios.name_check MoreScenarios.encoder
            (fun _ => "?") "20240309150405" "0b5e91c2-aaaa"
            MoreScenarios.empty_server "raw" "exports/cases//"
            MoreScenarios.two_rows None)
     = inr "s3://raw/exports/cases/20240309150405.parquet"
  /\ is_ValueError
       (fst (upload_parquet MoreScenarios.name_check MoreScenarios.encoder
               (fun _ => "?") "20240309150405" "0b5e91c2-aaaa"
               MoreScenarios.empty_server "r" "exports/cases//"
               MoreScenarios.two_rows None))
  /\ is_ValueError
       (fst (upload_parquet MoreScenarios.name_check MoreScenarios.encoder
               (fun _ => "?") "20240309150405" "0b5e91c2-aaaa"
               MoreScenarios.empty_server "raw" "exports"
               (mkDataFrame ["region"; "region"] [[PStr "a"; PStr "b"]])
               (Some ["region"]))).
Proof. repeat split; try reflexivity; eexists; reflexivity. Qed.

End StoreProperties.

(** ** The orchestrator: ingestion, export, archiving and retrieval *)

Module FlowProperties.

Import Frame DuckDB Orchestrator Effects Flows Outcome.
Import InsertFacts DedupFacts TransformerFacts StoreProperties.

Section Facts.

Context {V : Type} `{SqlValue V}.
Context {M : Type}.
Variable model_name : string.
Variable model_dump : M -> dict.
Variable model_validate : dict -> result M.
Variable as_relation : DataFrame -> relation V.
Variable check_bucket_name : string -> result unit.
Variable to_parquet : DataFrame -> result ObjectStore.bytes.
Variable format_cell : pyval -> string.

(** The orchestrator's insert: nothing on a read-only client, an
    exception on a writable one, and no change to a table either way. *)
Lemma insert_frame_outcome (w : world V) table df now (c : connection V) :
  catalog (snd (insert_frame as_relation w table df now c)) = catalog c
  /\ (db_read_only w = true ->
      insert_frame as_relation w table df now c = (inr 0%Z, c))
  /\ (db_read_only w = false ->
      exists e, fst (insert_frame as_relation w table df now c) = inl e).
Proof.
  unfold insert_frame. destruct (db_read_only w).
  - split; [reflexivity | split; [reflexivity | discriminate]].
  - destruct (insert_dataframe_frame_raises table (as_relation df) now
                (if scan_frames w then Some (as_relation df) else None) c)
      as [He Hc].
    split; [exact Hc | split; [discriminate | intros _; exact He]].
Qed.

(** X18.  [ingest_models_to_database] never inserts a row.  For an
    empty list it returns 0 without touching the connection; for models
    on a writable client it raises, the frame having been passed where
    [insert_dataframe] expects its flag; on a read-only client it
    returns 0.  No table changes in any case. *)
Theorem ingest_models_to_database_never_inserts
    (w : world V) (models : list M) (table now : string) (c : connection V) :
  ingest_models_to_database model_dump as_relation w [] table now c
  = (inr 0%Z, c)
  /\ catalog (snd (ingest_models_to_database model_dump as_relation w models
                     table now c))
     = catalog c
  /\ (forall n,
        fst (ingest_models_to_database model_dump as_relation w models
               table now c) = inr n ->
        n = 0%Z)
  /\ (models <> [] -> db_read_only w = false ->
      exists e,
        fst (ingest_models_to_database model_dump as_relation w models
               table now c) = inl e).
Proof.
  split; [reflexivity|].
  destruct models as [|m ms].
  { split; [reflexivity | split; [now intros n [= <-] | congruence]]. }
  unfold ingest_models_to_database.
  set (df := fst (Transformer.model_to_dataframe model_dump (m :: ms))).
  destruct (insert_frame_outcome w table df now c) as (Hc & Hro & Hrw).
  unfold dbind.
  destruct (db_read_only w) eqn:Ero.
  - rewrite (Hro eq_refl). cbn [fst snd ret].
    split; [reflexivity | split; [now intros n [= <-] | discriminate]].
  - destruct (Hrw eq_refl) as [e He].
    destruct (insert_frame as_relation w table df now c) as [[e'|n'] c'];
      cbn [fst snd] in *; [|discriminate].
    split; [exact Hc | split; [discriminate | intros _ _; now exists e']].
Qed.


(** X20.  On a connection with no failure pending,
    [get_models_from_database] raises exactly when the engine rejects
    the query text, with the engine's exception; otherwise it returns,
    in row order, the models of the rows that validate, and silently
    leaves out the rows that do not.  The connection is as it was. *)
Theorem get_models_from_database_rows
    (run_query : string -> result DataFrame) (query_or_table : string)
    (filters : option (list (string * Query.filter_value)))
    (c : connection V) :
  faults c = [] ->
  get_models_from_database model_name model_validate run_query
    query_or_table filters c
  = (match run_query (Query.query_text query_or_table filters) with
     | inl e => inl e
     | inr df =>
         inr (if empty df then []
              else successes model_validate (columns df) (rows df))
     end, c).
Proof.
  intros Hq. unfold get_models_from_database, dbind.
  unfold Query.query_to_dataframe, Query.execute_query.
  rewrite !catch_rethrow, execute_no_faults by exact Hq.
  unfold lift.
  destruct (run_query (Query.query_text query_or_table filters)) as [e|df];
    [reflexivity|].
  destruct (empty df) eqn:E; [reflexivity|].
  unfold ret. now rewrite (dataframe_to_models_nonempty _ _ df E).
Qed.

(** X26.  On a connection with no failure pending,
    [export_database_to_storage] raises the engine's exception when the
    engine rejects the query over the table, and answers an empty frame
    with the empty string, storing nothing.  Otherwise its outcome is
    the outcome of [upload_parquet] on the frame, exception included;
    when the client takes the bucket name, the labels of the frame are
    distinct and the frame encodes, it returns the URI of one new
    parquet object, which [get_parquet_uris] then lists under every
    prefix of the object path and whose bytes [download_object] gives
    back.  The connection is as it was. *)
Theorem export_database_to_storage_listed
    (run_query : string -> result DataFrame)
    (upload_at uuid_str table bucket path_prefix : string)
    (partition_cols : option (list string))
    (srv : ObjectStore.server) (c : connection V) :
  faults c = [] ->
  let run := export_database_to_storage check_bucket_name to_parquet
               format_cell run_query upload_at uuid_str table bucket
               path_prefix partition_cols srv c in
  match run_query (Query.query_text table None) with
  | inl e => run = (inl e, srv, c)
  | inr df =>
      if empty df then run = (inr EmptyString, srv, c)
      else
        run = (let (r, srv') :=
                 store_parquet check_bucket_name to_parquet format_cell
                   upload_at uuid_str srv bucket path_prefix df
                   partition_cols in
               (r, srv', c))
        /\ (forall buffer,
              check_bucket_name bucket = inr tt ->
              NoDup (columns df) ->
              to_parquet df = inr buffer ->
              exists p srv',
                run = (inr (Minio.uri bucket p), srv', c)
                /\ (forall prefix,
                      String.prefix prefix p = true ->
                      exists uris,
                        Minio.get_parquet_uris
                          (ObjectStore.listing check_bucket_name srv')
                          bucket prefix = inr uris
                        /\ In (Minio.uri bucket p) uris)
                /\ ObjectStore.download_object check_bucket_name srv'
                     bucket p = inr buffer)
  end.
Proof.
  intros Hq. cbv zeta.
  assert (Eq : Query.query_to_dataframe run_query table None c
               = (run_query (Query.query_text table None), c)).
  { unfold Query.query_to_dataframe, Query.execute_query.
    rewrite !catch_rethrow, execute_no_faults by exact Hq. reflexivity. }
  unfold export_database_to_storage. rewrite Eq.
  destruct (run_query (Query.query_text table None)) as [e|df];
    [reflexivity|].
  destruct (empty df); [reflexivity|].
  split.
  - now destruct (store_parquet check_bucket_name to_parquet format_cell
                    upload_at uuid_str srv bucket path_prefix df
                    partition_cols) as [[e|uri] srv'].
  - intros buffer Hc Hnd Hb.
    destruct (final_path_total format_cell uuid_str path_prefix df
                partition_cols upload_at Hnd) as [p Hp].
    destruct (upload_parquet_stores check_bucket_name to_parquet
                format_cell upload_at uuid_str srv bucket path_prefix df
                partition_cols p buffer Hc Hp Hb)
      as (srv' & objs & Hup & Hsrv & Hobj).
    destruct (final_path_shape format_cell uuid_str path_prefix df
                partition_cols upload_at p Hp) as [Hend _].
    exists p, srv'. unfold store_parquet. rewrite Hup.
    split; [reflexivity | split].
    + intros prefix Hunder.
      now apply (stored_is_listed check_bucket_name srv' bucket objs p
                   buffer prefix).
    + unfold ObjectStore.download_object, ObjectStore.get_object.
      rewrite Hc. cbn [bind]. now rewrite Hsrv, Hobj.
Qed.

End Facts.

Lemma get_models_from_database_rows_witness :
  get_models_from_database "AvianFluCase"
    (CaseModel.model_validate Batch.noon) (fun _ => ok Batch.damaged_frame)
    "avian_cases" (Some [("region", Query.FStr "Sul")]) SyncScenario.start
  = (inr (successes (CaseModel.model_validate Batch.noon)
            (columns Batch.damaged_frame) (rows Batch.damaged_frame)),
     SyncScenario.start).
Proof.
  apply (get_models_from_database_rows "AvianFluCase"
           (CaseModel.model_validate Batch.noon)
           (fun _ => ok Batch.damaged_frame) "avian_cases"
           (Some [("region", Query.FStr "Sul")]) SyncScenario.start).
  reflexivity.
Defined.

Lemma export_database_to_storage_listed_witness :
  exists p srv',
    export_database_to_storage (V := string) MoreScenarios.name_check
      MoreScenarios.encoder (fun _ => "x")
      (fun _ => ok MoreScenarios.two_rows)
      "20240309150405" "0b5e91c2-aaaa" "avian_cases" "raw"
      "exports/" None MoreScenarios.empty_server SyncScenario.start
    = (inr (Minio.uri "raw" p), srv', SyncScenario.start)
    /\ ObjectStore.download_object MoreScenarios.name_check srv' "raw" p
       = inr "case_id,region,source".
Proof.
  destruct (export_database_to_storage_listed MoreScenarios.name_check
              MoreScenarios.encoder (fun _ => "x")
              (fun _ => ok MoreScenarios.two_rows)
              "20240309150405" "0b5e91c2-aaaa" "avian_cases" "raw"
              "exports/" None MoreScenarios.empty_server SyncScenario.start
              eq_refl)
    as (_ & Hok).
  destruct (Hok "case_id,region,source" eq_refl
              ColumnProperties.two_rows_distinct eq_refl)
    as (p & srv' & E & _ & D).
  now exists p, srv'.
Defined.

End FlowProperties.
